(** * Weather dashboard: refresh and alert pipeline

    A shallow embedding of the Python sources
      - [weather-alerts-notifs.py]   (alert evaluation, export),
      - [basic-ui-setup.py]          (application state, fetch path, view update),
      - [interactive-components-ux.py] (event handlers, preferences dialog),
    together with the properties of the pipeline that hold of the code.
    The functions that take [self] are read as methods of [WeatherApp], as
    their callers use them.  Widget layout and menus are outside the model;
    of the chart drawing and of the CSV export the model keeps whether they
    raise and what the program then prints or shows.

    Python values are modelled by their exact mathematical value: an [int] is
    an integer, a finite [float] is the rational it denotes, the negative zero
    and the non-finite floats are separate constructors.  Dictionaries are
    finite maps with string
    keys; exceptions are values of an error type; the Tk main loop, its [after]
    queue and the background threads are an explicit state machine. *)

From Stdlib Require Import ZArith QArith Ascii String List Bool Lia DecimalString.
From stdpp Require Import base option strings gmap.
Import ListNotations.

Local Open Scope string_scope.
Local Open Scope Z_scope.

(* ===================================================================== *)
(** ** Python numbers                                                     *)
(* ===================================================================== *)

Module PyNum.

(** A Python [float]: a finite value, the negative zero, an infinity, or
    not-a-number.  [Fin 0] is the positive zero. *)
Inductive pyfloat : Type :=
| Fin (q : Q)
| NegZero
| PosInf
| NegInf
| NaN.

Definition Qltb (a b : Q) : bool :=
  Qnum a * Zpos (Qden b) <? Qnum b * Zpos (Qden a).

(** [a < b] on floats; the two zeros compare alike and every comparison with
    [NaN] is false. *)
Definition lt (a b : pyfloat) : bool :=
  match a, b with
  | Fin x, Fin y => Qltb x y
  | Fin x, NegZero => Qltb x 0
  | NegZero, Fin y => Qltb 0 y
  | (Fin _ | NegZero), PosInf => true
  | NegInf, (Fin _ | NegZero | PosInf) => true
  | _, _ => false
  end.

(** [a > b] is [b < a]. *)
Definition gt (a b : pyfloat) : bool := lt b a.

Definition of_Z (z : Z) : pyfloat := Fin (inject_Z z).

(** Decimal digits of a natural number, as [str(n)] prints them. *)
Definition digits (n : N) : string := NilZero.string_of_uint (N.to_uint n).

(** Nearest integer to [p / q] for [0 <= p], ties to even. *)
Definition round_half_even (p : Z) (q : positive) : Z :=
  let fl := p / Zpos q in
  let r := p mod Zpos q in
  match 2 * r ?= Zpos q with
  | Lt => fl
  | Gt => fl + 1
  | Eq => if Z.even fl then fl else fl + 1
  end.

Fixpoint zeros (n : nat) : string :=
  match n with
  | O => EmptyString
  | S k => String "0" (zeros k)
  end.

(** Left-pad the digits of [n] with zeros up to width [w]. *)
Definition pad_digits (w : nat) (n : N) : string :=
  let d := digits n in
  zeros (w - String.length d) ++ d.

(** [float(z)] for an int: the double nearest to [z], a tie between two
    doubles going to the one with the even significand of 53 bits; [None]
    when the rounded value is beyond the largest double, where [float]
    raises [OverflowError]. *)
Definition float_of_int (z : Z) : option pyfloat :=
  let a := Z.abs z in
  let bits := Z.log2 a + 1 in
  if bits <=? 53 then Some (of_Z z)
  else
    let ulp := 2 ^ (bits - 53) in
    let r := round_half_even a (Z.to_pos ulp) * ulp in
    if 2 ^ 1024 <=? r then None else Some (of_Z (Z.sgn z * r)).

(** [format(x, '.<prec>f')]: the exact value is rounded to [prec] decimals
    (ties to even) and printed in fixed notation; the sign is kept even when
    the rounded magnitude is zero, and the negative zero keeps its sign. *)
Definition format_f (prec : nat) (x : pyfloat) : string :=
  match x with
  | Fin q =>
      let scale := 10 ^ Z.of_nat prec in
      let n := round_half_even (Z.abs (Qnum q) * scale) (Qden q) in
      let sign := if Qnum q <? 0 then "-" else EmptyString in
      let ip := digits (Z.to_N (n / scale)) in
      match prec with
      | O => sign ++ ip
      | _ => sign ++ ip ++ "." ++ pad_digits prec (Z.to_N (n mod scale))
      end
  | NegZero =>
      match prec with
      | O => "-0"
      | _ => "-0." ++ zeros prec
      end
  | PosInf => "inf"
  | NegInf => "-inf"
  | NaN => "nan"
  end.

End PyNum.

Import PyNum.

(* ===================================================================== *)
(** ** Python values, exceptions and dictionaries                         *)
(* ===================================================================== *)

(** The values a row of [processed_weather_data] can hold. *)
Inductive pyval : Type :=
| VInt (z : Z)
| VFloat (f : pyfloat)
| VStr (s : string)
| VNone.

(** Exceptions, with the text [str(e)] where the program prints it. *)
Inductive exn : Type :=
| TypeError (msg : string)
| ValueError (msg : string)
| KeyError (key : string)
| AttributeError (msg : string)
| SqliteError (msg : string)
| TclError (msg : string)
| OverflowError (msg : string)
| OtherError (msg : string).

Definition exn_str (e : exn) : string :=
  match e with
  | TypeError m | ValueError m | AttributeError m | SqliteError m
  | TclError m | OverflowError m | OtherError m => m
  | KeyError k => "'" ++ k ++ "'"
  end.

(** [sqlite3.Error] and its subclasses. *)
Definition is_sqlite_error (e : exn) : bool :=
  match e with SqliteError _ => true | _ => false end.

Definition is_value_error (e : exn) : bool :=
  match e with ValueError _ => true | _ => false end.

Definition is_type_error (e : exn) : bool :=
  match e with TypeError _ => true | _ => false end.

Definition is_overflow_error (e : exn) : bool :=
  match e with OverflowError _ => true | _ => false end.

(** Result of a computation that may raise. *)
Inductive result (A : Type) : Type :=
| Ok (a : A)
| Raise (e : exn).
Arguments Ok {A} a.
Arguments Raise {A} e.

Definition rbind {A B} (r : result A) (k : A -> result B) : result B :=
  match r with
  | Ok a => k a
  | Raise e => Raise e
  end.

#[global] Instance result_ret : MRet result := fun A a => Ok a.
#[global] Instance result_bind : MBind result := fun A B k r => rbind r k.

(** A row converted by [dict(zip(columns, row))]. *)
Abbreviation dict := (gmap string pyval).

(** [d.get(key, default)] *)
Definition dict_get (d : dict) (key : string) (default : pyval) : pyval :=
  match d !! key with
  | Some v => v
  | None => default
  end.

(** [d[key]] *)
Definition dict_index (d : dict) (key : string) : result pyval :=
  match d !! key with
  | Some v => Ok v
  | None => Raise (KeyError key)
  end.

(** The number a value denotes, if it is one. *)
Definition number_of (v : pyval) : option pyfloat :=
  match v with
  | VInt z => Some (of_Z z)
  | VFloat f => Some f
  | VStr _ | VNone => None
  end.

Definition type_name (v : pyval) : string :=
  match v with
  | VInt _ => "int"
  | VFloat _ => "float"
  | VStr _ => "str"
  | VNone => "NoneType"
  end.

(** The left operand [v] of an ordering comparison [v op x] with a number
    [x] of type [other]: [None] and strings do not compare with numbers. *)
Definition as_number (op other : string) (v : pyval) : result pyfloat :=
  match number_of v with
  | Some x => Ok x
  | None =>
      Raise (TypeError ("'" ++ op ++ "' not supported between instances of '"
                        ++ type_name v ++ "' and '" ++ other ++ "'"))
  end.

(** The float that the presentation type ['f'] prints for [v]: a float is
    printed as it is, an int is converted by [float] first, which raises
    [OverflowError] beyond the largest double. *)
Definition format_operand (v : pyval) : result pyfloat :=
  match v with
  | VInt z =>
      match float_of_int z with
      | Some f => Ok f
      | None => Raise (OverflowError "int too large to convert to float")
      end
  | VFloat f => Ok f
  | VStr _ => Raise (ValueError "Unknown format code 'f' for object of type 'str'")
  | VNone => Raise (TypeError "unsupported format string passed to NoneType.__format__")
  end.

(** [f'{v:.<prec>f}'] *)
Definition fmt_f (prec : nat) (v : pyval) : result string :=
  x ← format_operand v; Ok (format_f prec x).

(* ===================================================================== *)
(** ** Alert evaluation ([WeatherAlertsManager])                          *)
(* ===================================================================== *)

(** An alert is a dictionary with the five fixed keys below. *)
Record Alert : Type := mkAlert {
  a_type : string;
  a_severity : string;
  a_title : string;
  a_message : string;
  a_icon : string
}.

(** [alert_thresholds]: a dictionary with five fixed keys, set in [__init__]
    and only ever read by key. *)
Record Thresholds : Type := mkThresholds {
  high_temperature : pyfloat;
  low_temperature : pyfloat;
  high_wind_speed : pyfloat;
  low_pressure : pyfloat;
  high_severity : pyfloat
}.

Definition default_thresholds : Thresholds :=
  {| high_temperature := Fin 35;
     low_temperature := Fin (-10);
     high_wind_speed := Fin 15;
     low_pressure := Fin 980;
     high_severity := Fin 70 |}.

(** One frame of the alerts window: caption, message and severity line. *)
Record AlertFrame : Type := mkAlertFrame {
  af_caption : string;
  af_message : string;
  af_severity : string
}.

Record WeatherAlertsManager : Type := mkManager {
  alert_thresholds : Thresholds;
  active_alerts : list Alert;
  (** the alert windows opened so far, most recent last *)
  alert_windows : list (list AlertFrame)
}.

Definition new_manager : WeatherAlertsManager :=
  {| alert_thresholds := default_thresholds;
     active_alerts := [];
     alert_windows := [] |}.

Definition upper_ascii (c : ascii) : ascii :=
  let n := nat_of_ascii c in
  if ((97 <=? n)%nat && (n <=? 122)%nat)%bool then ascii_of_nat (n - 32) else c.

Definition lower_ascii (c : ascii) : ascii :=
  let n := nat_of_ascii c in
  if ((65 <=? n)%nat && (n <=? 90)%nat)%bool then ascii_of_nat (n + 32) else c.

Fixpoint str_upper (s : string) : string :=
  match s with
  | EmptyString => EmptyString
  | String c r => String (upper_ascii c) (str_upper r)
  end.

(** [display_alerts]: nothing when there is no active alert, otherwise one
    window with a frame per alert. *)
Definition display_alerts (m : WeatherAlertsManager) : WeatherAlertsManager :=
  match active_alerts m with
  | [] => m
  | _ =>
      let frame a :=
        {| af_caption := a_icon a ++ " " ++ a_title a;
           af_message := a_message a;
           af_severity := "Severity: " ++ str_upper (a_severity a) |} in
      {| alert_thresholds := alert_thresholds m;
         active_alerts := active_alerts m;
         alert_windows := (alert_windows m ++ [map frame (active_alerts m)])%list |}
  end.

Definition high_temperature_alert (temp : pyfloat) : Alert :=
  {| a_type := "temperature";
     a_severity := "warning";
     a_title := "High Temperature Alert";
     a_message := "Temperature is very high: " ++ format_f 1 temp ++ "°C";
     a_icon := "🔥" |}.

Definition low_temperature_alert (temp : pyfloat) : Alert :=
  {| a_type := "temperature";
     a_severity := "warning";
     a_title := "Low Temperature Alert";
     a_message := "Temperature is very low: " ++ format_f 1 temp ++ "°C";
     a_icon := "🥶" |}.

Definition wind_alert (wind_speed : pyfloat) : Alert :=
  {| a_type := "wind";
     a_severity := "caution";
     a_title := "High Wind Alert";
     a_message := "Strong winds detected: " ++ format_f 1 wind_speed ++ " m/s";
     a_icon := "💨" |}.

Definition pressure_alert (pressure : pyfloat) : Alert :=
  {| a_type := "pressure";
     a_severity := "watch";
     a_title := "Low Pressure Alert";
     a_message := "Low pressure system detected: " ++ format_f 1 pressure ++ " hPa";
     a_icon := "⛈️" |}.

Definition severity_alert (severity : pyfloat) : Alert :=
  {| a_type := "severity";
     a_severity := "warning";
     a_title := "Severe Weather Alert";
     a_message := "High weather severity index: " ++ format_f 0 severity ++ "/100";
     a_icon := "⚠️" |}.

(** The list [new_alerts] built by [check_weather_alerts], in the order of
    the four checks.  A field that is present but not a number raises at the
    comparison.  The comparison takes the value as it is, an int exactly; the
    message of an alert is formatted with the presentation type ['f'], which
    converts an int to a float first and raises when it is too large.  The
    argument of each alert below is the float that its message shows. *)
Definition evaluate_alerts (th : Thresholds) (weather_data : dict)
  : result (list Alert) :=
  (let new_alerts := [] in
   let temp := dict_get weather_data "temperature" (VInt 0) in
   t ← as_number ">" "float" temp;
   new_alerts ←
     (if gt t (high_temperature th)
      then shown ← format_operand temp;
           Ok (new_alerts ++ [high_temperature_alert shown])%list
      else if lt t (low_temperature th)
      then shown ← format_operand temp;
           Ok (new_alerts ++ [low_temperature_alert shown])%list
      else Ok new_alerts);
   let wind_speed := dict_get weather_data "wind_speed" (VInt 0) in
   w ← as_number ">" "float" wind_speed;
   new_alerts ←
     (if gt w (high_wind_speed th)
      then shown ← format_operand wind_speed;
           Ok (new_alerts ++ [wind_alert shown])%list
      else Ok new_alerts);
   let pressure := dict_get weather_data "pressure" (VInt 1013) in
   p ← as_number "<" "float" pressure;
   new_alerts ←
     (if lt p (low_pressure th)
      then shown ← format_operand pressure;
           Ok (new_alerts ++ [pressure_alert shown])%list
      else Ok new_alerts);
   let severity := dict_get weather_data "weather_severity" (VInt 0) in
   s ← as_number ">" "float" severity;
   new_alerts ←
     (if gt s (high_severity th)
      then shown ← format_operand severity;
           Ok (new_alerts ++ [severity_alert shown])%list
      else Ok new_alerts);
   Ok new_alerts).

(** [check_weather_alerts]: the alert list replaces [active_alerts], is shown
    when not empty, and is returned.  An exception leaves the manager as it
    was, since the assignment comes after the four checks. *)
Definition check_weather_alerts (self : WeatherAlertsManager) (weather_data : dict)
  : WeatherAlertsManager * result (list Alert) :=
  match evaluate_alerts (alert_thresholds self) weather_data with
  | Ok new_alerts =>
      let self := {| alert_thresholds := alert_thresholds self;
                     active_alerts := new_alerts;
                     alert_windows := alert_windows self |} in
      let self := match new_alerts with [] => self | _ => display_alerts self end in
      (self, Ok new_alerts)
  | Raise e => (self, Raise e)
  end.

(** Substring test, [sub in s]. *)
Fixpoint contains (sub s : string) : bool :=
  String.prefix sub s ||
  match s with
  | EmptyString => false
  | String _ r => contains sub r
  end.

(** The value [check_weather_alerts] compares for a field: the entry of the
    reading, or the default of the [get] call when the key is absent. *)
Definition field (weather_data : dict) (key : string) (default : Z) : option pyfloat :=
  number_of (dict_get weather_data key (VInt default)).

Definition is_number (v : pyval) : bool :=
  match v with
  | VInt _ | VFloat _ => true
  | VStr _ | VNone => false
  end.

(** The float that the message of an alert shows for a field, when the
    field can be formatted. *)
Definition shown (weather_data : dict) (key : string) (default : Z) : option pyfloat :=
  match format_operand (dict_get weather_data key (VInt default)) with
  | Ok x => Some x
  | Raise _ => None
  end.

(** The value is a float, or an int that [float] represents. *)
Definition in_float_range (v : pyval) : bool :=
  match v with
  | VInt z => bool_decide (is_Some (float_of_int z))
  | VFloat _ => true
  | VStr _ | VNone => false
  end.

(** A reading as the data model has it: each of the four fields the
    evaluator reads is, when it is present, a float or an int within the range
    of the floats, as every integer of the store is. *)
Definition float_reading (weather_data : dict) : Prop :=
  forall key v,
    In key ["temperature"; "wind_speed"; "pressure"; "weather_severity"] ->
    weather_data !! key = Some v -> in_float_range v = true.

(** Two readings: one windy, low in pressure and severe; one hot. *)
Definition windy_reading : dict :=
  <["temperature" := VInt 20]> (<["wind_speed" := VInt 20]>
  (<["pressure" := VInt 970]> (<["weather_severity" := VInt 80]> ∅))).

Definition hot_reading : dict :=
  <["temperature" := VFloat (Fin (36 # 1))]> (<["wind_speed" := VInt 5]>
  (<["pressure" := VInt 1010]> (<["weather_severity" := VInt 10]> ∅))).


(* ===================================================================== *)
(** ** City selector                                                      *)
(* ===================================================================== *)

(** [s.split(sep)] for a non-empty separator: the text is scanned from the
    left, every occurrence of [sep] that does not overlap an earlier one ends
    a part.  [skip] counts the characters of a matched separator still to be
    passed over, [cur] is the part being collected. *)
Fixpoint split_go (sep : string) (skip : nat) (cur s : string) : list string :=
  match s with
  | EmptyString => [cur]
  | String c r =>
      match skip with
      | S k => split_go sep k cur r
      | O =>
          if String.prefix sep s
          then cur :: split_go sep (String.length sep - 1) EmptyString r
          else split_go sep O (cur ++ String c EmptyString) r
      end
  end.

Definition split (sep s : string) : list string := split_go sep O EmptyString s.

(** The two lines that every reader of [current_city] repeats:
<<
    city_parts = self.current_city.split(', ')
    city, country = city_parts[0], city_parts[1] if len(city_parts) > 1 else ''
>> *)
Definition parse_city (current_city : string) : string * string :=
  let city_parts := split ", " current_city in
  (nth 0 city_parts EmptyString,
   if (1 <? length city_parts)%nat then nth 1 city_parts EmptyString else EmptyString).

(** [s[n:]] *)
Fixpoint drop_chars (n : nat) (s : string) : string :=
  match n, s with
  | O, _ => s
  | S k, String _ r => drop_chars k r
  | S _, EmptyString => EmptyString
  end.

(** The selector as the specification words it: the text before the first
    occurrence of [sep], and everything after that occurrence; no occurrence
    leaves the second component empty. *)
Fixpoint spec_split_first (sep s : string) : string * string :=
  if String.prefix sep s
  then (EmptyString, drop_chars (String.length sep) s)
  else match s with
       | EmptyString => (EmptyString, EmptyString)
       | String c r =>
           let (a, b) := spec_split_first sep r in (String c a, b)
       end.

(** [city || ', ' || country], the selector [get_available_cities] builds. *)
Definition make_selector (city country : string) : string :=
  city ++ ", " ++ country.

(* ===================================================================== *)
(** ** Parsing the refresh interval                                       *)
(* ===================================================================== *)

(** The white space that the parser of [int] skips: the space and the
    control characters 9 to 13. *)
Definition is_space (c : ascii) : bool :=
  let n := nat_of_ascii c in
  ((n =? 32) || ((9 <=? n) && (n <=? 13)))%nat.

Definition digit_of (c : ascii) : option Z :=
  let n := nat_of_ascii c in
  if ((48 <=? n) && (n <=? 57))%nat then Some (Z.of_nat (n - 48)) else None.

Fixpoint lstrip (s : string) : string :=
  match s with
  | String c r => if is_space c then lstrip r else s
  | EmptyString => EmptyString
  end.

Fixpoint rev_string (acc s : string) : string :=
  match s with
  | EmptyString => acc
  | String c r => rev_string (String c acc) r
  end.

Definition strip (s : string) : string :=
  rev_string EmptyString (lstrip (rev_string EmptyString (lstrip s))).

(** Digits with single underscores between them; [prev] tells whether the
    previous character was a digit, [acc] is the value read so far. *)
Fixpoint parse_digits (prev : bool) (acc : Z) (s : string) : option Z :=
  match s with
  | EmptyString => if prev then Some acc else None
  | String c r =>
      match digit_of c with
      | Some d => parse_digits true (10 * acc + d) r
      | None =>
          if (Ascii.eqb c "_" && prev)%bool then
            match r with
            | String c' _ =>
                match digit_of c' with
                | Some _ => parse_digits false acc r
                | None => None
                end
            | EmptyString => None
            end
          else None
      end
  end.

(** A text is held as its UTF-8 bytes.  [is_ascii]: every character is
    below 128. *)
Fixpoint is_ascii (s : string) : bool :=
  match s with
  | EmptyString => true
  | String c r => (nat_of_ascii c <? 128)%nat && is_ascii r
  end.

(** The six payload bits of a UTF-8 continuation byte. *)
Definition continuation (c : ascii) : option N :=
  let b := N_of_ascii c in
  if ((128 <=? b) && (b <? 192))%N then Some (b - 128)%N else None.

(** The code points of a text, [None] for bytes that are not the UTF-8
    form of a text: a stray or missing continuation byte, a code point
    written with more bytes than it needs, a surrogate, or a value beyond
    the last code point. *)
Fixpoint utf8_decode (s : string) : option (list N) :=
  match s with
  | EmptyString => Some []
  | String c0 r0 =>
      let b0 := N_of_ascii c0 in
      if (b0 <? 128)%N then
        match utf8_decode r0 with
        | Some cps => Some (b0 :: cps)
        | None => None
        end
      else if (b0 <? 194)%N then None
      else if (b0 <? 224)%N then
        match r0 with
        | String c1 r1 =>
            match continuation c1, utf8_decode r1 with
            | Some x1, Some cps => Some (((b0 - 192) * 64 + x1)%N :: cps)
            | _, _ => None
            end
        | _ => None
        end
      else if (b0 <? 240)%N then
        match r0 with
        | String c1 (String c2 r2) =>
            match continuation c1, continuation c2, utf8_decode r2 with
            | Some x1, Some x2, Some cps =>
                let cp := (((b0 - 224) * 64 + x1) * 64 + x2)%N in
                if ((2048 <=? cp) && negb ((55296 <=? cp) && (cp <? 57344)))%N
                then Some (cp :: cps) else None
            | _, _, _ => None
            end
        | _ => None
        end
      else if (b0 <? 245)%N then
        match r0 with
        | String c1 (String c2 (String c3 r3)) =>
            match continuation c1, continuation c2, continuation c3,
                  utf8_decode r3 with
            | Some x1, Some x2, Some x3, Some cps =>
                let cp := ((((b0 - 240) * 64 + x1) * 64 + x2) * 64 + x3)%N in
                if ((65536 <=? cp) && (cp <? 1114112))%N
                then Some (cp :: cps) else None
            | _, _, _, _ => None
            end
        | _ => None
        end
      else None
  end.

(** The white space beyond ASCII ([str.isspace]). *)
Definition unicode_spaces : list N :=
  [133; 160; 5760; 8192; 8193; 8194; 8195; 8196; 8197; 8198; 8199; 8200;
   8201; 8202; 8232; 8233; 8239; 8287; 12288]%N.

(** The code points of the digit zero of every decimal script (Unicode
    14.0, as in CPython 3.11); the nine code points after each are its digits
    one to nine. *)
Definition decimal_zeros : list N :=
  [48; 1632; 1776; 1984; 2406; 2534; 2662; 2790; 2918; 3046; 3174; 3302;
   3430; 3558; 3664; 3792; 3872; 4160; 4240; 6112; 6160; 6470; 6608; 6784;
   6800; 6992; 7088; 7232; 7248; 42528; 43216; 43264; 43472; 43504; 43600;
   44016; 65296; 66720; 68912; 69734; 69872; 69942; 70096; 70384; 70736;
   70864; 71248; 71360; 71472; 71904; 72016; 72784; 73040; 73120; 92768;
   92864; 93008; 120782; 120792; 120802; 120812; 120822; 123200; 123632;
   125264; 130032]%N.

(** The value of a decimal digit of any script. *)
Definition decimal_value (cp : N) : option N :=
  match List.find (fun z => ((z <=? cp) && (cp <? z + 10))%N) decimal_zeros with
  | Some z => Some (cp - z)%N
  | None => None
  end.

(** What [int] makes of one character before parsing: a character below 127
    is kept, white space becomes a space, a decimal digit of any script its
    ASCII digit; no other character can be part of a literal. *)
Definition int_char (cp : N) : option ascii :=
  if (cp <? 127)%N then Some (ascii_of_N cp)
  else if existsb (N.eqb cp) unicode_spaces then Some " "%char
  else match decimal_value cp with
       | Some d => Some (ascii_of_N (48 + d))
       | None => None
       end.

(** The text that the parser of [int] reads: an ASCII text as it is, any
    other text character by character. *)
Definition int_text (s : string) : option string :=
  if is_ascii s then Some s
  else match utf8_decode s with
       | Some cps => string_of_list_ascii <$> mapM int_char cps
       | None => None
       end.

(** [int(s)]: surrounding white space is dropped, then an optional sign and
    decimal digits, where single underscores may separate digits.  Anything
    else raises [ValueError]; the text of the exception is given without the
    escapes of [repr], and [apply_preferences] does not read it.  The
    interpreter's limit on the number of digits
    ([sys.set_int_max_str_digits]) is taken as switched off; it can only
    bear on texts of more than 640 digits. *)
Definition py_int (s : string) : result Z :=
  let parsed :=
    match int_text s with
    | Some t =>
        let t := strip t in
        match t with
        | String "-" r => option_map Z.opp (parse_digits false 0 r)
        | String "+" r => parse_digits false 0 r
        | _ => parse_digits false 0 t
        end
    | None => None
    end in
  match parsed with
  | Some z => Ok z
  | None => Raise (ValueError ("invalid literal for int() with base 10: '" ++ s ++ "'"))
  end.

(* ===================================================================== *)
(** ** Application state                                                  *)
(* ===================================================================== *)

(** The choices of the two read-only comboboxes of the preferences dialog. *)
Inductive Theme : Type := Clam | Alt | Default | Classic.
Inductive TempUnits : Type := Celsius | Fahrenheit.

(** A call posted to the main loop by a background thread. *)
Inductive callback : Type :=
| CbUpdateUI (enhanced : bool) (data : dict)
                                (* [self._update_ui_with_data, current_data];
                                   [enhanced] when the attribute read was the
                                   wrapper of [enhance_main_app] *)
| CbUpdateStatus (msg : string) (* [self.update_status, msg] *)
| CbShowError (msg : string).   (* [self.show_error, msg] *)

(** A thread running [_load_data_background]: created, then blocked in the
    query for the city it read, then finished. *)
Inductive thread : Type :=
| TStarted
| TFetching (city country : string)
| TDone.

(** What the process takes from outside: the store, the clock, the chart
    canvases, and the text Python's [str] gives for a float. *)
Record Env : Type := mkEnv {
  (** the latest-reading query: the row found, no row, or an exception *)
  env_latest : string -> string -> result (option dict);
  (** the [try] block of [update_trends_chart] after the selector has been
      split, for a city and a country: the query of the last 24 hours and the
      drawing return, or one of them raises *)
  env_trends : string -> string -> result unit;
  (** the same for [update_historical_chart] and the period selected *)
  env_historical : string -> string -> result unit;
  (** the distinct-selectors query of [get_available_cities] *)
  env_cities : result (list string);
  (** [datetime.now().strftime('%H:%M:%S')] *)
  env_now : string;
  (** [str(x)] for a float [x] *)
  env_float_str : pyfloat -> string;
  (** what Tk's [after] does with a delay in milliseconds: it takes it, or
      raises [TclError] when the delay is beyond the integers of the Tcl
      interpreter *)
  env_after : Z -> result unit
}.

(** The delay is one that [after] takes. *)
Definition env_after_ok (env : Env) (ms : Z) : bool :=
  match env_after env ms with
  | Ok _ => true
  | Raise _ => false
  end.

Record WeatherApp : Type := mkApp {
  (** [self.current_city], [None] until a city is chosen *)
  current_city : option string;
  (** [self.current_data], the row shown *)
  current_data : option dict;
  (** [self.refresh_interval], milliseconds *)
  refresh_interval : Z;
  (** the ttk theme in use *)
  theme : Theme;
  (** [self.city_var], the text of the city combobox *)
  city_var : string;
  (** the choices of the city combobox *)
  city_values : list string;
  (** the text of every label, by attribute name *)
  labels : gmap string string;
  (** the style of [temp_label] *)
  temp_style : string;
  (** the value of the comfort progress bar *)
  comfort_bar : option pyval;
  (** [messagebox.showerror] calls so far: title and message *)
  error_boxes : list (string * string);
  (** lines printed so far *)
  console : list string;
  (** callbacks posted with [root.after(0, ...)], oldest first *)
  after_queue : list callback;
  (** delays of the pending [root.after(ms, self.start_auto_refresh)] timers *)
  timers : list Z;
  (** the background threads, by identifier *)
  threads : list thread;
  (** set by [enhance_main_app], which then wraps the view update *)
  alerts_manager : option WeatherAlertsManager
}.

Definition set_current_city (v : option string) (app : WeatherApp) : WeatherApp :=
  {| current_city := v; current_data := current_data app;
     refresh_interval := refresh_interval app; theme := theme app;
     city_var := city_var app; city_values := city_values app;
     labels := labels app; temp_style := temp_style app;
     comfort_bar := comfort_bar app; error_boxes := error_boxes app;
     console := console app; after_queue := after_queue app;
     timers := timers app; threads := threads app;
     alerts_manager := alerts_manager app |}.
Definition set_current_data (v : option dict) (app : WeatherApp) : WeatherApp :=
  {| current_city := current_city app; current_data := v;
     refresh_interval := refresh_interval app; theme := theme app;
     city_var := city_var app; city_values := city_values app;
     labels := labels app; temp_style := temp_style app;
     comfort_bar := comfort_bar app; error_boxes := error_boxes app;
     console := console app; after_queue := after_queue app;
     timers := timers app; threads := threads app;
     alerts_manager := alerts_manager app |}.
Definition set_refresh_interval (v : Z) (app : WeatherApp) : WeatherApp :=
  {| current_city := current_city app; current_data := current_data app;
     refresh_interval := v; theme := theme app; city_var := city_var app;
     city_values := city_values app; labels := labels app;
     temp_style := temp_style app; comfort_bar := comfort_bar app;
     error_boxes := error_boxes app; console := console app;
     after_queue := after_queue app; timers := timers app;
     threads := threads app; alerts_manager := alerts_manager app |}.
Definition set_theme (v : Theme) (app : WeatherApp) : WeatherApp :=
  {| current_city := current_city app; current_data := current_data app;
     refresh_interval := refresh_interval app; theme := v;
     city_var := city_var app; city_values := city_values app;
     labels := labels app; temp_style := temp_style app;
     comfort_bar := comfort_bar app; error_boxes := error_boxes app;
     console := console app; after_queue := after_queue app;
     timers := timers app; threads := threads app;
     alerts_manager := alerts_manager app |}.
Definition set_city_var (v : string) (app : WeatherApp) : WeatherApp :=
  {| current_city := current_city app; current_data := current_data app;
     refresh_interval := refresh_interval app; theme := theme app;
     city_var := v; city_values := city_values app; labels := labels app;
     temp_style := temp_style app; comfort_bar := comfort_bar app;
     error_boxes := error_boxes app; console := console app;
     after_queue := after_queue app; timers := timers app;
     threads := threads app; alerts_manager := alerts_manager app |}.
Definition set_city_values (v : list string) (app : WeatherApp) : WeatherApp :=
  {| current_city := current_city app; current_data := current_data app;
     refresh_interval := refresh_interval app; theme := theme app;
     city_var := city_var app; city_values := v; labels := labels app;
     temp_style := temp_style app; comfort_bar := comfort_bar app;
     error_boxes := error_boxes app; console := console app;
     after_queue := after_queue app; timers := timers app;
     threads := threads app; alerts_manager := alerts_manager app |}.
Definition set_labels (v : gmap string string) (app : WeatherApp) : WeatherApp :=
  {| current_city := current_city app; current_data := current_data app;
     refresh_interval := refresh_interval app; theme := theme app;
     city_var := city_var app; city_values := city_values app; labels := v;
     temp_style := temp_style app; comfort_bar := comfort_bar app;
     error_boxes := error_boxes app; console := console app;
     after_queue := after_queue app; timers := timers app;
     threads := threads app; alerts_manager := alerts_manager app |}.
Definition set_temp_style (v : string) (app : WeatherApp) : WeatherApp :=
  {| current_city := current_city app; current_data := current_data app;
     refresh_interval := refresh_interval app; theme := theme app;
     city_var := city_var app; city_values := city_values app;
     labels := labels app; temp_style := v; comfort_bar := comfort_bar app;
     error_boxes := error_boxes app; console := console app;
     after_queue := after_queue app; timers := timers app;
     threads := threads app; alerts_manager := alerts_manager app |}.
Definition set_comfort_bar (v : option pyval) (app : WeatherApp) : WeatherApp :=
  {| current_city := current_city app; current_data := current_data app;
     refresh_interval := refresh_interval app; theme := theme app;
     city_var := city_var app; city_values := city_values app;
     labels := labels app; temp_style := temp_style app; comfort_bar := v;
     error_boxes := error_boxes app; console := console app;
     after_queue := after_queue app; timers := timers app;
     threads := threads app; alerts_manager := alerts_manager app |}.
Definition set_error_boxes (v : list (string * string)) (app : WeatherApp) : WeatherApp :=
  {| current_city := current_city app; current_data := current_data app;
     refresh_interval := refresh_interval app; theme := theme app;
     city_var := city_var app; city_values := city_values app;
     labels := labels app; temp_style := temp_style app;
     comfort_bar := comfort_bar app; error_boxes := v; console := console app;
     after_queue := after_queue app; timers := timers app;
     threads := threads app; alerts_manager := alerts_manager app |}.
Definition set_console (v : list string) (app : WeatherApp) : WeatherApp :=
  {| current_city := current_city app; current_data := current_data app;
     refresh_interval := refresh_interval app; theme := theme app;
     city_var := city_var app; city_values := city_values app;
     labels := labels app; temp_style := temp_style app;
     comfort_bar := comfort_bar app; error_boxes := error_boxes app;
     console := v; after_queue := after_queue app; timers := timers app;
     threads := threads app; alerts_manager := alerts_manager app |}.
Definition set_after_queue (v : list callback) (app : WeatherApp) : WeatherApp :=
  {| current_city := current_city app; current_data := current_data app;
     refresh_interval := refresh_interval app; theme := theme app;
     city_var := city_var app; city_values := city_values app;
     labels := labels app; temp_style := temp_style app;
     comfort_bar := comfort_bar app; error_boxes := error_boxes app;
     console := console app; after_queue := v; timers := timers app;
     threads := threads app; alerts_manager := alerts_manager app |}.
Definition set_timers (v : list Z) (app : WeatherApp) : WeatherApp :=
  {| current_city := current_city app; current_data := current_data app;
     refresh_interval := refresh_interval app; theme := theme app;
     city_var := city_var app; city_values := city_values app;
     labels := labels app; temp_style := temp_style app;
     comfort_bar := comfort_bar app; error_boxes := error_boxes app;
     console := console app; after_queue := after_queue app; timers := v;
     threads := threads app; alerts_manager := alerts_manager app |}.
Definition set_threads (v : list thread) (app : WeatherApp) : WeatherApp :=
  {| current_city := current_city app; current_data := current_data app;
     refresh_interval := refresh_interval app; theme := theme app;
     city_var := city_var app; city_values := city_values app;
     labels := labels app; temp_style := temp_style app;
     comfort_bar := comfort_bar app; error_boxes := error_boxes app;
     console := console app; after_queue := after_queue app;
     timers := timers app; threads := v; alerts_manager := alerts_manager app |}.
Definition set_alerts_manager (v : option WeatherAlertsManager) (app : WeatherApp) : WeatherApp :=
  {| current_city := current_city app; current_data := current_data app;
     refresh_interval := refresh_interval app; theme := theme app;
     city_var := city_var app; city_values := city_values app;
     labels := labels app; temp_style := temp_style app;
     comfort_bar := comfort_bar app; error_boxes := error_boxes app;
     console := console app; after_queue := after_queue app;
     timers := timers app; threads := threads app; alerts_manager := v |}.

(** Computations on the application state that may raise.  The state reached
    when the exception is raised is kept: what was assigned before stays
    assigned. *)
Definition M (A : Type) : Type := WeatherApp -> WeatherApp * result A.

#[global] Instance M_ret : MRet M := fun A a app => (app, Ok a).
#[global] Instance M_bind : MBind M := fun A B k m app =>
  match m app with
  | (app', Ok a) => k a app'
  | (app', Raise e) => (app', Raise e)
  end.

Definition lift {A} (r : result A) : M A := fun app => (app, r).
Definition modify (f : WeatherApp -> WeatherApp) : M unit := fun app => (f app, Ok tt).

(** [try: body except Exception as e: handler(e)] *)
Definition try_except {A} (body : M A) (handler : exn -> M A) : M A :=
  fun app =>
    match body app with
    | (app', Ok a) => (app', Ok a)
    | (app', Raise e) => handler e app'
    end.

(** [self.<label>.config(text=...)] *)
Definition config_text (label text : string) (app : WeatherApp) : WeatherApp :=
  set_labels (<[label := text]> (labels app)) app.

Definition update_status (message : string) (app : WeatherApp) : WeatherApp :=
  config_text "status_label" message app.

Definition show_error (message : string) (app : WeatherApp) : WeatherApp :=
  update_status "Error occurred"
    (set_error_boxes (error_boxes app ++ [("Error", message)])%list app).

Definition print (line : string) (app : WeatherApp) : WeatherApp :=
  set_console (console app ++ [line])%list app.

(** [str(z)] for an int. *)
Definition Z_str (z : Z) : string :=
  if z <? 0 then "-" ++ digits (Z.to_N (- z)) else digits (Z.to_N z).

(** [f'{v}'] *)
Definition py_str (env : Env) (v : pyval) : string :=
  match v with
  | VInt z => Z_str z
  | VFloat f => env_float_str env f
  | VStr s => s
  | VNone => "None"
  end.

Definition is_alpha (c : ascii) : bool :=
  let n := nat_of_ascii c in
  (((65 <=? n) && (n <=? 90)) || ((97 <=? n) && (n <=? 122)))%nat.

(** [s.title()] on ASCII text: a letter after a non-letter is made upper
    case, a letter after a letter lower case. *)
Fixpoint title_go (prev_cased : bool) (s : string) : string :=
  match s with
  | EmptyString => EmptyString
  | String c r =>
      String (if prev_cased then lower_ascii c else upper_ascii c)
             (title_go (is_alpha c) r)
  end.

Definition str_title (v : pyval) : result string :=
  match v with
  | VStr s => Ok (title_go false s)
  | VInt _ => Raise (AttributeError "'int' object has no attribute 'title'")
  | VFloat _ => Raise (AttributeError "'float' object has no attribute 'title'")
  | VNone => Raise (AttributeError "'NoneType' object has no attribute 'title'")
  end.

(** [update_trends_chart]: nothing without a city; an exception of the
    query or of the drawing is caught and printed. *)
Definition update_trends_chart (env : Env) (app : WeatherApp) : WeatherApp :=
  match current_city app with
  | None | Some EmptyString => app
  | Some selector =>
      let (city, country) := parse_city selector in
      match env_trends env city country with
      | Ok _ => app
      | Raise e => print ("Error updating trends chart: " ++ exn_str e) app
      end
  end.

(** [update_historical_chart]: there is no test of the city here, so
    without a city the [split] call raises inside the [try] block; every
    exception is caught and printed. *)
Definition update_historical_chart (env : Env) (app : WeatherApp) : WeatherApp :=
  match current_city app with
  | None =>
      print ("Error updating historical chart: "
             ++ "'NoneType' object has no attribute 'split'") app
  | Some selector =>
      let (city, country) := parse_city selector in
      match env_historical env city country with
      | Ok _ => app
      | Raise e => print ("Error updating historical chart: " ++ exn_str e) app
      end
  end.

(** [_update_ui_with_data] *)
Definition _update_ui_with_data (env : Env) (data : dict) : M unit :=
  modify (set_current_data (Some data));;
  (* current weather display *)
  t ← lift (v ← dict_index data "temperature"; fmt_f 1 v);
  modify (config_text "temp_label" (t ++ "°C"));;
  d ← lift (v ← dict_index data "weather_description"; str_title v);
  modify (config_text "desc_label" d);;
  (* metric displays *)
  f ← lift (v ← dict_index data "feels_like"; fmt_f 1 v);
  modify (config_text "feels_like_label" (f ++ "°C"));;
  h ← lift (dict_index data "humidity");
  modify (config_text "humidity_label" (py_str env h ++ "%"));;
  p ← lift (v ← dict_index data "pressure"; fmt_f 1 v);
  modify (config_text "pressure_label" (p ++ " hPa"));;
  w ← lift (v ← dict_index data "wind_speed"; fmt_f 1 v);
  modify (config_text "wind_speed_label" (w ++ " m/s"));;
  (* comfort index *)
  let comfort := dict_get data "comfort_index" (VInt 0) in
  c ← lift (fmt_f 0 comfort);
  modify (config_text "comfort_label" (c ++ "/100"));;
  modify (set_comfort_bar (Some comfort));;
  (* detailed metrics *)
  hi ← lift (fmt_f 1 (dict_get data "heat_index_c" (VInt 0)));
  modify (config_text "heat_index_label" ("Heat Index: " ++ hi ++ "°C"));;
  wc ← lift (fmt_f 1 (dict_get data "wind_chill_c" (VInt 0)));
  modify (config_text "wind_chill_label" ("Wind Chill: " ++ wc ++ "°C"));;
  sv ← lift (fmt_f 0 (dict_get data "weather_severity" (VInt 0)));
  modify (config_text "severity_label" ("Weather Severity: " ++ sv ++ "/100"));;
  (* time information *)
  ts ← lift (dict_index data "timestamp");
  modify (config_text "last_update_label" ("Last Update: " ++ py_str env ts));;
  modify (config_text "local_time_label" ("Local Time: " ++ env_now env));;
  (* temperature colour *)
  temp ← lift (v ← dict_index data "temperature"; as_number ">" "int" v);
  modify (set_temp_style
            (if gt temp (of_Z 30) then "Hot.TLabel"
             else if lt temp (of_Z 10) then "Cold.TLabel"
             else "Normal.TLabel"));;
  (* visualizations *)
  modify (update_trends_chart env);;
  modify (update_historical_chart env);;
  modify (update_status "Data updated successfully").

(** The lines that [enhance_main_app] adds after the view update: the alert
    check and, when there are alerts, the status line. *)
Definition check_and_report (data : dict) : M unit :=
  fun app =>
    match alerts_manager app with
    | None => (app, Raise (AttributeError "'WeatherApp' object has no attribute 'alerts_manager'"))
    | Some m =>
        let (m', r) := check_weather_alerts m data in
        let app := set_alerts_manager (Some m') app in
        match r with
        | Raise e => (app, Raise e)
        | Ok [] => (app, Ok tt)
        | Ok alerts =>
            (update_status ("⚠️ " ++ digits (N.of_nat (length alerts))
                            ++ " weather alert(s) active") app, Ok tt)
        end
    end.

(** [enhanced_update], which [enhance_main_app] installs in place of
    [_update_ui_with_data]: the original update, then the alert check. *)
Definition enhanced_update (env : Env) (data : dict) : M unit :=
  _update_ui_with_data env data;;
  check_and_report data.

Definition enhance_main_app (app : WeatherApp) : WeatherApp :=
  set_alerts_manager (Some new_manager) app.

(** [get_current_weather_data]: the lines it prints and what it returns.  A
    [sqlite3.Error] is printed and turned into [None]; any other exception
    goes on to the caller. *)
Definition get_current_weather_data (env : Env) (city country : string)
  : list string * result (option dict) :=
  match env_latest env city country with
  | Ok (Some data) => ([], Ok (Some data))
  | Ok None => ([], Ok None)
  | Raise e =>
      if is_sqlite_error e
      then (["Database error: " ++ exn_str e], Ok None)
      else ([], Raise e)
  end.

(** Truth value of [current_data] in [if current_data:]. *)
Definition truthy (current_data : option dict) : bool :=
  match current_data with
  | Some data => negb (bool_decide (data = ∅))
  | None => false
  end.

(** [self.root.after(0, cb)] *)
Definition post (cb : callback) (app : WeatherApp) : WeatherApp :=
  set_after_queue (after_queue app ++ [cb])%list app.

(** First half of [_load_data_background]: the thread reads [current_city]
    and splits it, then enters the query.  Without a city the [split] call
    raises and the handler posts the error. *)
Definition load_data_begin (tid : nat) (app : WeatherApp) : WeatherApp :=
  match current_city app with
  | Some selector =>
      let (city, country) := parse_city selector in
      set_threads (<[tid := TFetching city country]> (threads app)) app
  | None =>
      post (CbShowError ("Error loading data: "
                         ++ "'NoneType' object has no attribute 'split'"))
        (set_threads (<[tid := TDone]> (threads app)) app)
  end.

(** Second half: the query returns and the thread posts one callback. *)
Definition load_data_finish (env : Env) (tid : nat) (city country : string)
    (app : WeatherApp) : WeatherApp :=
  let (out, r) := get_current_weather_data env city country in
  let app := set_console (console app ++ out)%list app in
  let app := set_threads (<[tid := TDone]> (threads app)) app in
  match r with
  | Ok current_data =>
      if truthy current_data
      then post (CbUpdateUI (bool_decide (is_Some (alerts_manager app)))
                            (default ∅ current_data)) app
      else post (CbUpdateStatus "No data available for selected city") app
  | Raise e => post (CbShowError ("Error loading data: " ++ exn_str e)) app
  end.

(** [refresh_data]: nothing without a city; otherwise the status line changes
    and one more thread is started. *)
Definition refresh_data (app : WeatherApp) : WeatherApp :=
  match current_city app with
  | None | Some EmptyString => app
  | Some _ =>
      let app := update_status "Refreshing data..." app in
      set_threads (threads app ++ [TStarted])%list app
  end.

(** [self.root.after(ms, self.start_auto_refresh)] *)
Definition after_start_auto_refresh (env : Env) : M unit :=
  fun app =>
    let ms := refresh_interval app in
    match env_after env ms with
    | Ok _ => (set_timers (timers app ++ [ms])%list app, Ok tt)
    | Raise e => (app, Raise e)
    end.

(** [start_auto_refresh]: a refresh, then one timer for the next call. *)
Definition start_auto_refresh (env : Env) : M unit :=
  modify refresh_data;;
  after_start_auto_refresh env.

(** [on_city_changed], after the combobox has put the choice in [city_var]. *)
Definition on_city_changed (app : WeatherApp) : WeatherApp :=
  refresh_data (set_current_city (Some (city_var app)) app).

Definition get_available_cities (env : Env) : M (list string) :=
  try_except (lift (env_cities env))
    (fun e =>
       if is_sqlite_error e
       then modify (show_error ("Database error: " ++ exn_str e));; mret []
       else lift (Raise e)).

Definition load_initial_data (env : Env) : M unit :=
  try_except
    (cities ← get_available_cities env;
     modify (set_city_values cities);;
     match cities with
     | [] => mret tt
     | first :: _ =>
         modify (set_city_var first);;
         modify (set_current_city (Some first));;
         modify refresh_data
     end)
    (fun e => modify (show_error ("Failed to load initial data: " ++ exn_str e))).

(** The labels as the layout code creates them. *)
Definition initial_labels : gmap string string :=
  list_to_map
    [("temp_label", "--°C"); ("desc_label", "Loading...");
     ("feels_like_label", "-- °C"); ("humidity_label", "-- %");
     ("pressure_label", "-- hPa"); ("wind_speed_label", "-- m/s");
     ("comfort_label", "--");
     ("heat_index_label", "Heat Index: --°C");
     ("wind_chill_label", "Wind Chill: --°C");
     ("severity_label", "Weather Severity: --");
     ("last_update_label", "Last Update: --");
     ("local_time_label", "Local Time: --");
     ("status_label", "Ready"); ("quality_label", "Data Quality: Unknown")].

(** [WeatherApp.__init__]: the state built, and the exception that leaves
    the constructor, if any. *)
Definition init (env : Env) : WeatherApp * result unit :=
  let app :=
    {| current_city := None; current_data := None; refresh_interval := 30000;
       theme := Clam; city_var := EmptyString; city_values := [];
       labels := initial_labels; temp_style := "Large.TLabel";
       comfort_bar := None; error_boxes := []; console := [];
       after_queue := []; timers := []; threads := [];
       alerts_manager := None |} in
  (load_initial_data env;; start_auto_refresh env) app.

(* ===================================================================== *)
(** ** Preferences dialog                                                 *)
(* ===================================================================== *)

Record PreferencesDialog : Type := mkDialog {
  refresh_var : string;
  temp_units_var : TempUnits;
  theme_var : Theme;
  (** false once [self.dialog.destroy()] has run *)
  dialog_open : bool
}.

(** [PreferencesDialog.__init__] with [create_preferences_ui]. *)
Definition open_preferences (app : WeatherApp) : PreferencesDialog :=
  {| refresh_var := Z_str (refresh_interval app / 1000);
     temp_units_var := Celsius;
     theme_var := Clam;
     dialog_open := true |}.

(** [apply_preferences]: the dialog and the application afterwards, and the
    exception that leaves the handler, if any. *)
Definition apply_preferences (dlg : PreferencesDialog) (app : WeatherApp)
  : PreferencesDialog * WeatherApp * result unit :=
  match py_int (refresh_var dlg) with
  | Ok n =>
      let new_interval := n * 1000 in
      let app := set_refresh_interval new_interval app in
      let app := set_theme (theme_var dlg) app in
      ({| refresh_var := refresh_var dlg; temp_units_var := temp_units_var dlg;
          theme_var := theme_var dlg; dialog_open := false |}, app, Ok tt)
  | Raise e =>
      if is_value_error e
      then (dlg,
            set_error_boxes
              (error_boxes app ++ [("Error", "Please enter a valid refresh interval")])%list
              app,
            Ok tt)
      else (dlg, app, Raise e)
  end.

(* ===================================================================== *)
(** ** The main loop and the background threads                           *)
(* ===================================================================== *)

Inductive event : Type :=
| EvSelectCity (selection : string)  (* the user picks a city in the combobox *)
| EvRefresh                          (* Refresh button or menu entry *)
| EvTimer (i : nat)                  (* the i-th pending timer fires *)
| EvThreadStart (tid : nat)          (* thread [tid] reads the current city *)
| EvThreadFinish (tid : nat)         (* the query of thread [tid] returns *)
| EvIdle                             (* the main loop runs the oldest posted callback *)
| EvApply (dlg : PreferencesDialog)  (* Apply pressed in a preferences dialog *)
| EvEnhance.                         (* [enhance_main_app] is called *)

(** Tk reports an exception that leaves a callback, and goes on. *)
Definition report (outcome : WeatherApp * result unit) : WeatherApp :=
  match outcome with
  | (app, Ok _) => app
  | (app, Raise e) => print ("Exception in Tkinter callback: " ++ exn_str e) app
  end.

(** A callback run by the main loop. *)
Definition run_callback (env : Env) (cb : callback) (app : WeatherApp) : WeatherApp :=
  match cb with
  | CbUpdateUI enhanced data =>
      report (if enhanced then enhanced_update env data app
              else _update_ui_with_data env data app)
  | CbUpdateStatus msg => update_status msg app
  | CbShowError msg => show_error msg app
  end.

(** One step of the process; [None] when the event cannot happen in this
    state. *)
Definition step (env : Env) (ev : event) (app : WeatherApp) : option WeatherApp :=
  match ev with
  | EvSelectCity selection =>
      if bool_decide (selection ∈ city_values app)
      then Some (on_city_changed (set_city_var selection app))
      else None
  | EvRefresh => Some (refresh_data app)
  | EvTimer i =>
      match timers app !! i with
      | Some _ =>
          Some (report (start_auto_refresh env (set_timers (delete i (timers app)) app)))
      | None => None
      end
  | EvThreadStart tid =>
      match threads app !! tid with
      | Some TStarted => Some (load_data_begin tid app)
      | _ => None
      end
  | EvThreadFinish tid =>
      match threads app !! tid with
      | Some (TFetching city country) => Some (load_data_finish env tid city country app)
      | _ => None
      end
  | EvIdle =>
      match after_queue app with
      | cb :: rest => Some (run_callback env cb (set_after_queue rest app))
      | [] => None
      end
  | EvApply dlg => Some (snd (fst (apply_preferences dlg app)))
  | EvEnhance => Some (enhance_main_app app)
  end.

Fixpoint run (env : Env) (evs : list event) (app : WeatherApp) : option WeatherApp :=
  match evs with
  | [] => Some app
  | ev :: rest =>
      match step env ev app with
      | Some app' => run env rest app'
      | None => None
      end
  end.

(** The application once the constructor has returned. *)
Definition started (env : Env) : option WeatherApp :=
  match init env with
  | (app, Ok _) => Some app
  | (_, Raise _) => None
  end.

(** A run of the process from its start. *)
Definition run_app (env : Env) (evs : list event) : option WeatherApp :=
  app ← started env; run env evs app.

(** The queries in flight: the cities of the threads blocked in the store. *)
Definition in_flight (app : WeatherApp) : list (string * string) :=
  omap (fun t => match t with
                 | TFetching city country => Some (city, country)
                 | _ => None
                 end) (threads app).

(* ===================================================================== *)
(** ** The specification's wording of the pipeline properties             *)
(* ===================================================================== *)

(** Definitions in this part follow the specification, not the code; the
    theorems below compare the code with them. *)

(** [F = C*9/5 + 32] *)
Definition to_fahrenheit (c : pyfloat) : pyfloat :=
  match c with
  | Fin q => Fin (q * (9 # 5) + 32)%Q
  | NegZero => Fin 32
  | other => other
  end.

(** With the Fahrenheit preference applied, the temperature label shows the
    converted value. *)
Definition spec_shows_fahrenheit (env : Env) (dlg : PreferencesDialog)
    (app : WeatherApp) (data : dict) : Prop :=
  temp_units_var dlg = Fahrenheit ->
  forall v c,
    data !! "temperature" = Some v -> number_of v = Some c ->
    exists unit_suffix,
      labels (_update_ui_with_data env data (apply_preferences dlg app).1.2).1
        !! "temp_label"
      = Some (format_f 1 (to_fahrenheit c) ++ unit_suffix).

(** Every reading whose temperature exceeds the high-temperature threshold
    gets exactly one temperature alert, the high-temperature warning. *)
Definition spec_one_high_temperature_alert
    (self : WeatherAlertsManager) (weather_data : dict) : Prop :=
  forall temp,
    field weather_data "temperature" 0 = Some temp ->
    gt temp (high_temperature (alert_thresholds self)) = true ->
    exists alerts a,
      snd (check_weather_alerts self weather_data) = Ok alerts /\
      List.filter (fun a => String.eqb (a_type a) "temperature") alerts = [a] /\
      a_title a = "High Temperature Alert" /\
      a_severity a = "warning".

(** A valid positive integer, as the preferences surface requires. *)
Definition is_positive_int (s : string) : Prop :=
  exists n, py_int s = Ok n /\ 0 < n.

(** An interval that is not a valid positive integer is rejected: an error is
    reported and neither the interval nor the theme changes. *)
Definition spec_apply_rejected (dlg : PreferencesDialog) (app : WeatherApp) : Prop :=
  ~ is_positive_int (refresh_var dlg) ->
  let app' := (apply_preferences dlg app).1.2 in
  refresh_interval app' = refresh_interval app /\
  theme app' = theme app /\
  error_boxes app' <> error_boxes app.

(** The notification of the empty result. *)
Definition no_data_notification : callback :=
  CbUpdateStatus "No data available for selected city".

(** A failed query is never reported the way an empty result is. *)
Definition spec_failure_distinct (env : Env) : Prop :=
  forall city country e tid app,
    env_latest env city country = Raise e ->
    last (after_queue (load_data_finish env tid city country app))
      <> Some no_data_notification.





(** No two queries for one city are in flight at the same time. *)
Definition spec_no_overlap (env : Env) : Prop :=
  forall evs app,
    run_app env evs = Some app -> NoDup (in_flight app).

(* ===================================================================== *)
(** ** Sample data                                                        *)
(* ===================================================================== *)

Definition row (city country : string) (temp : Z) : dict :=
  list_to_map
    [("city", VStr city); ("country", VStr country);
     ("timestamp", VStr "2024-07-01T12:00:00");
     ("temperature", VInt temp); ("feels_like", VInt temp);
     ("humidity", VInt 50); ("pressure", VInt 1010); ("wind_speed", VInt 3);
     ("weather_description", VStr "clear sky")].

(** [after] on an interpreter with 64-bit integers. *)
Definition tcl_after (ms : Z) : result unit :=
  if ms <? 2 ^ 63 then Ok tt
  else Raise (TclError "integer value too large to represent").

(** A store with one row for each of two cities. *)
Definition env2 : Env :=
  {| env_latest := fun city country =>
       if String.eqb city "Lima" then Ok (Some (row "Lima" "Peru" 20))
       else if String.eqb city "Oslo" then Ok (Some (row "Oslo" "Norway" 5))
       else Ok None;
     env_trends := fun _ _ => Ok tt;
     env_historical := fun _ _ => Ok tt;
     env_cities := Ok ["Lima, Peru"; "Oslo, Norway"];
     env_now := "12:00:00";
     env_float_str := fun _ => EmptyString;
     env_after := tcl_after |}.

(** A store whose every query fails. *)
Definition env_down : Env :=
  {| env_latest := fun _ _ => Raise (SqliteError "unable to open database file");
     env_trends := fun _ _ => Raise (SqliteError "unable to open database file");
     env_historical := fun _ _ => Raise (SqliteError "unable to open database file");
     env_cities := Raise (SqliteError "unable to open database file");
     env_now := "12:00:00";
     env_float_str := fun _ => EmptyString;
     env_after := tcl_after |}.

(** A store that is reachable and empty. *)
Definition env_empty : Env :=
  {| env_latest := fun _ _ => Ok None;
     env_trends := fun _ _ => Ok tt;
     env_historical := fun _ _ => Ok tt;
     env_cities := Ok [];
     env_now := "12:00:00";
     env_float_str := fun _ => EmptyString;
     env_after := tcl_after |}.

(** The dialog with another choice in the units combobox. *)
Definition with_units (u : TempUnits) (dlg : PreferencesDialog) : PreferencesDialog :=
  {| refresh_var := refresh_var dlg; temp_units_var := u;
     theme_var := theme_var dlg; dialog_open := dialog_open dlg |}.

(** The application right after its start on the two-city store. *)
Definition app2 : WeatherApp := (init env2).1.

Definition dialog (interval : string) (units : TempUnits) : PreferencesDialog :=
  {| refresh_var := interval; temp_units_var := units; theme_var := Alt;
     dialog_open := true |}.

(** Oslo is selected, then Lima before the Oslo query returns; the Lima
    response is posted and applied first, the Oslo response last. *)
Definition stale_trace : list event :=
  [EvThreadStart 0; EvThreadStart 1; EvThreadFinish 0; EvThreadFinish 1;
   EvIdle; EvIdle;
   EvSelectCity "Oslo, Norway"; EvThreadStart 2;
   EvSelectCity "Lima, Peru"; EvThreadStart 3;
   EvThreadFinish 3; EvThreadFinish 2;
   EvIdle; EvIdle].

(* ===================================================================== *)
(** ** Auxiliary notions for the proofs                                   *)
(* ===================================================================== *)

(** One of the four checks: the value is compared, and when the test
    selects an alert the value is formatted for its message. *)
Definition segment (op : string) (test : pyfloat -> option (pyfloat -> Alert))
    (v : pyval) : result (list Alert) :=
  x ← as_number op "float" v;
  match test x with
  | Some alert => x' ← format_operand v; Ok [alert x']
  | None => Ok []
  end.

(** The tests of the four checks. *)
Definition temperature_test (th : Thresholds) (t : pyfloat)
  : option (pyfloat -> Alert) :=
  if gt t (high_temperature th) then Some high_temperature_alert
  else if lt t (low_temperature th) then Some low_temperature_alert
  else None.

Definition wind_test (th : Thresholds) (w : pyfloat) : option (pyfloat -> Alert) :=
  if gt w (high_wind_speed th) then Some wind_alert else None.

Definition pressure_test (th : Thresholds) (p : pyfloat) : option (pyfloat -> Alert) :=
  if lt p (low_pressure th) then Some pressure_alert else None.

Definition severity_test (th : Thresholds) (s : pyfloat) : option (pyfloat -> Alert) :=
  if gt s (high_severity th) then Some severity_alert else None.

(** [a == b] on floats. *)
Definition float_eqb (a b : pyfloat) : bool :=
  match a, b with
  | Fin x, Fin y => Qeq_bool x y
  | Fin x, NegZero | NegZero, Fin x => Qeq_bool x 0
  | NegZero, NegZero | PosInf, PosInf | NegInf, NegInf => true
  | _, _ => false
  end.

(** [m] keeps [P]: whatever state [m] ends in, with or without an
    exception, satisfies [P] if the state it started in did. *)
Definition preserves {A} (P : WeatherApp -> Prop) (m : M A) : Prop :=
  forall app, P app -> P (m app).1.

(** A property of the state that no widget update can change. *)
Record widget_stable (P : WeatherApp -> Prop) : Prop := {
  stable_labels : forall v app, P app -> P (set_labels v app);
  stable_comfort : forall v app, P app -> P (set_comfort_bar v app);
  stable_style : forall v app, P app -> P (set_temp_style v app)
}.

(** A property of the state that nothing done by a posted callback can
    change: it does not depend on the widgets, on the row shown, on the
    alert manager, on the error boxes or on the console. *)
Record callback_stable (P : WeatherApp -> Prop) : Prop := {
  cs_widgets : widget_stable P;
  cs_data : forall v app, P app -> P (set_current_data v app);
  cs_manager : forall v app, P app -> P (set_alerts_manager v app);
  cs_errors : forall v app, P app -> P (set_error_boxes v app);
  cs_console : forall v app, P app -> P (set_console v app)
}.



(** What decides the auto-refresh: the pending timers and the interval. *)
Definition schedule (app : WeatherApp) : list Z * Z :=
  (timers app, refresh_interval app).

(** An event that leaves the interval within what Tk's [after] accepts. *)
Definition accepted_event (env : Env) (ev : event) : Prop :=
  match ev with
  | EvApply dlg =>
      forall n, py_int (refresh_var dlg) = Ok n -> env_after_ok env (n * 1000) = true
  | _ => True
  end.

From Stdlib Require DecimalPos DecimalN.

(* ===================================================================== *)
(** ** Further notions: alert evaluation                                  *)
(* ===================================================================== *)

(** The alerts of one type, in the order of the list. *)
Definition alerts_of_type (type : string) (alerts : list Alert) : list Alert :=
  List.filter (fun a => String.eqb (a_type a) type) alerts.

(** The order in which the four checks are made. *)
Definition alert_type_order : list string :=
  ["temperature"; "wind"; "pressure"; "severity"].

(** A reading in which only the wind is high. *)
Definition gusty_reading : dict :=
  <["temperature" := VInt 20]> (<["wind_speed" := VFloat (Fin (31 # 2))]> ∅).

(** A reading whose pressure entry is the SQL null. *)
Definition null_pressure_reading : dict :=
  <["temperature" := VInt 40]> (<["pressure" := VNone]> ∅).

(** The keys that [check_weather_alerts] reads. *)
Definition alert_type_fields : list string :=
  ["temperature"; "wind_speed"; "pressure"; "weather_severity"].

(* ===================================================================== *)
(** ** Further notions: texts                                             *)
(* ===================================================================== *)

(** No character of the text is white space. *)
Fixpoint no_space (s : string) : bool :=
  match s with
  | EmptyString => true
  | String c r => negb (is_space c) && no_space r
  end.

(* ===================================================================== *)
(** ** Further notions: rows                                              *)
(* ===================================================================== *)

Definition has_key (d : dict) (key : string) : bool :=
  match d !! key with Some _ => true | None => false end.

Definition has_number (d : dict) (key : string) : bool :=
  match d !! key with Some v => in_float_range v | None => false end.

Definition has_text (d : dict) (key : string) : bool :=
  match d !! key with Some (VStr _) => true | _ => false end.

Definition number_if_present (d : dict) (key : string) : bool :=
  match d !! key with Some v => in_float_range v | None => true end.

(** A row that the view update can show: the columns it indexes are there
    with the kind of value it formats, and the columns it reads with a
    default are numbers when they are there.  A number is a float or an int
    within float range, as every integer of the store is. *)
Definition complete_row (d : dict) : bool :=
  has_number d "temperature" && has_text d "weather_description" &&
  has_number d "feels_like" && has_key d "humidity" &&
  has_number d "pressure" && has_number d "wind_speed" &&
  number_if_present d "comfort_index" && number_if_present d "heat_index_c" &&
  number_if_present d "wind_chill_c" && number_if_present d "weather_severity" &&
  has_key d "timestamp".

(** The style class the view update gives a temperature. *)
Definition style_of (temp : pyfloat) : string :=
  if gt temp (of_Z 30) then "Hot.TLabel"
  else if lt temp (of_Z 10) then "Cold.TLabel"
  else "Normal.TLabel".

(** A row without a temperature column. *)
Definition row_without_temperature : dict :=
  delete "temperature" (row "Lima" "Peru" 20).

(* ===================================================================== *)
(** ** Further notions: the main loop                                     *)
(* ===================================================================== *)

(** One refresh asked for by the user, carried through by the thread with
    identifier [tid] and by the main loop. *)
Definition refresh_cycle (tid : nat) : list event :=
  [EvRefresh; EvThreadStart tid; EvThreadFinish tid; EvIdle].

(** The threads that have finished. *)
Definition finished (app : WeatherApp) : nat :=
  length (List.filter (fun t => match t with TDone => true | _ => false end)
            (threads app)).

(** The callbacks the main loop has run in a sequence of events. *)
Definition callbacks_run (evs : list event) : nat :=
  length (List.filter (fun ev => match ev with EvIdle => true | _ => false end) evs).

(** The selectors the store lists, none when the query fails. *)
Definition listed_cities (env : Env) : list string :=
  match env_cities env with
  | Ok cities => cities
  | Raise _ => []
  end.


(** A store that raises something other than [sqlite3.Error]. *)
Definition env_broken : Env :=
  {| env_latest := fun _ _ => Raise (OtherError "unexpected failure");
     env_trends := fun _ _ => Raise (OtherError "unexpected failure");
     env_historical := fun _ _ => Raise (OtherError "unexpected failure");
     env_cities := Ok ["Lima, Peru"];
     env_now := "12:00:00";
     env_float_str := fun _ => EmptyString;
     env_after := tcl_after |}.

Definition is_done (t : thread) : bool :=
  match t with TDone => true | _ => false end.

(** The state of a dashboard that has nothing to show. *)
Definition nothing_to_show (app : WeatherApp) : Prop :=
  current_city app = None /\ city_values app = [] /\ threads app = [] /\
  after_queue app = [] /\ current_data app = None /\
  labels app !! "temp_label" = Some "--°C".

(* ===================================================================== *)
(** ** Data export ([DataExportManager])                                  *)
(* ===================================================================== *)

(** A message box opened by the export. *)
Inductive message_box : Type :=
| InfoBox (title message : string)    (* [messagebox.showinfo] *)
| ErrorBox (title message : string).  (* [messagebox.showerror] *)

(** What the export takes from outside: the file dialog, the store and the
    file system. *)
Record ExportEnv : Type := mkExportEnv {
  (** what [filedialog.asksaveasfilename] returns, empty when cancelled *)
  ask_filename : string;
  (** the rows of the last 30 days for a city and a country, or the
      exception of the connection or of the query *)
  export_query : string -> string -> result (list dict);
  (** [df.to_csv(filename, index=False)] *)
  to_csv : string -> list dict -> result unit
}.

(** What one call of the export has done. *)
Record ExportOutcome : Type := mkExportOutcome {
  (** the value returned *)
  exported : bool;
  (** the message boxes opened, in order *)
  boxes : list message_box;
  (** the pair the store was asked for, if it was asked *)
  queried : option (string * string);
  (** the file written and its rows, if the write returned *)
  written : option (string * list dict)
}.

(** The [try] block of [export_current_data]: the pair queried and the rows
    written, or the exception raised on the way. *)
Definition export_body (xenv : ExportEnv) (app : WeatherApp) (filename : string)
  : option (string * string) * result (list dict) :=
  match current_city app with
  | None => (None, Raise (AttributeError "'NoneType' object has no attribute 'split'"))
  | Some selector =>
      let (city, country) := parse_city selector in
      (Some (city, country),
       rows ← export_query xenv city country;
       to_csv xenv filename rows;;
       Ok rows)
  end.

(** [export_current_data(filename)], [filename] being [None] when the menu
    calls it. *)
Definition export_current_data (xenv : ExportEnv) (app : WeatherApp)
    (filename : option string) : ExportOutcome :=
  let filename :=
    match filename with
    | None | Some EmptyString => ask_filename xenv
    | Some f => f
    end in
  match filename with
  | EmptyString =>
      {| exported := false; boxes := []; queried := None; written := None |}
  | _ =>
      match export_body xenv app filename with
      | (q, Ok rows) =>
          {| exported := true;
             boxes := [InfoBox "Export Complete" ("Data exported to " ++ filename)];
             queried := q;
             written := Some (filename, rows) |}
      | (q, Raise e) =>
          {| exported := false;
             boxes := [ErrorBox "Export Error" ("Failed to export data: " ++ exn_str e)];
             queried := q;
             written := None |}
      end
  end.

(** An export environment over the two-city store, the dialog answering
    with a file name. *)
Definition xenv2 : ExportEnv :=
  {| ask_filename := "weather.csv";
     export_query := fun city country =>
       match env_latest env2 city country with
       | Ok (Some r) => Ok [r]
       | Ok None => Ok []
       | Raise e => Raise e
       end;
     to_csv := fun _ _ => Ok tt |}.

(* ===================================================================== *)
(** ** Integration tests ([run_integration_tests])                        *)
(* ===================================================================== *)

(** One line of the results window: test, status, details. *)
Definition test_result : Type := string * string * string.

(** First test: the city listing. *)
Definition test_data_loading (env : Env) : M test_result :=
  try_except
    (cities ← get_available_cities env;
     mret (match cities with
           | [] => ("Data Loading", "FAIL", "No cities found")
           | _ => ("Data Loading", "PASS",
                   "Found " ++ digits (N.of_nat (length cities)) ++ " cities")
           end))
    (fun e => mret ("Data Loading", "ERROR", exn_str e)).

(** Second test: a refresh when a city is selected. *)
Definition test_ui_updates : M test_result :=
  fun app =>
    match current_city app with
    | None | Some EmptyString => (app, Ok ("UI Updates", "SKIP", "No city selected"))
    | Some _ => (refresh_data app, Ok ("UI Updates", "PASS", "UI components updated"))
    end.

(** Third test: the two chart redraws, which catch every exception
    themselves, so that the [except] branch of the test is never taken. *)
Definition test_chart_rendering (env : Env) : M test_result :=
  modify (update_trends_chart env);;
  modify (update_historical_chart env);;
  mret ("Chart Rendering", "PASS", "Charts rendered successfully").

(** [run_integration_tests]: the list handed to [show_test_results]. *)
Definition run_integration_tests (env : Env) : M (list test_result) :=
  r1 ← test_data_loading env;
  r2 ← test_ui_updates;
  r3 ← test_chart_rendering env;
  mret [r1; r2; r3].

(* ===================================================================== *)
(** ** Properties of the alert evaluator                                  *)
(* ===================================================================== *)

(** Case analysis on every test of a conditional in the goal or in [H]. *)
Ltac break_ifs :=
  repeat match goal with
         | |- context [if ?b then _ else _] => destruct b
         end.
Ltac break_ifs_in H :=
  repeat match type of H with
         | context [if ?b then _ else _] => destruct b
         end.

Lemma dict_get_cases (d : dict) (key : string) (default : pyval) :
  (d !! key = None /\ dict_get d key default = default) \/
  (exists v, d !! key = Some v /\ dict_get d key default = v).
Proof.
  unfold dict_get. destruct (d !! key) as [v|]; [right; eauto|left; auto].
Qed.

(** The list of the evaluator is made of four segments, one for each field,
    computed one after the other. *)
Lemma evaluate_alerts_parts (th : Thresholds) (d : dict) :
  evaluate_alerts th d =
  (a ← segment ">" (temperature_test th) (dict_get d "temperature" (VInt 0));
   b ← segment ">" (wind_test th) (dict_get d "wind_speed" (VInt 0));
   c ← segment "<" (pressure_test th) (dict_get d "pressure" (VInt 1013));
   e ← segment ">" (severity_test th) (dict_get d "weather_severity" (VInt 0));
   Ok (a ++ b ++ c ++ e)%list).
Proof.
  unfold evaluate_alerts, segment, temperature_test, wind_test, pressure_test,
    severity_test.
  generalize (dict_get d "temperature" (VInt 0)) (dict_get d "wind_speed" (VInt 0))
    (dict_get d "pressure" (VInt 1013)) (dict_get d "weather_severity" (VInt 0)).
  intros v1 v2 v3 v4.
  destruct (as_number ">" "float" v1) as [t|]; [|reflexivity].
  cbn [mbind result_bind rbind].
  destruct (gt t (high_temperature th)); [|destruct (lt t (low_temperature th))];
    try (destruct (format_operand v1); [|reflexivity]);
    cbn [mbind result_bind rbind app];
    (destruct (as_number ">" "float" v2) as [w|]; [|reflexivity]);
    cbn [mbind result_bind rbind];
    destruct (gt w (high_wind_speed th));
    try (destruct (format_operand v2); [|reflexivity]);
    cbn [mbind result_bind rbind app];
    (destruct (as_number "<" "float" v3) as [p|]; [|reflexivity]);
    cbn [mbind result_bind rbind];
    destruct (lt p (low_pressure th));
    try (destruct (format_operand v3); [|reflexivity]);
    cbn [mbind result_bind rbind app];
    (destruct (as_number ">" "float" v4) as [sv|]; [|reflexivity]);
    cbn [mbind result_bind rbind];
    destruct (gt sv (high_severity th));
    try (destruct (format_operand v4); [|reflexivity]);
    reflexivity.
Qed.

Lemma in_float_range_number (v : pyval) :
  in_float_range v = true -> is_number v = true.
Proof. destruct v; simpl; congruence. Qed.

Lemma in_float_range_operand (v : pyval) :
  in_float_range v = true -> exists x', format_operand v = Ok x'.
Proof.
  destruct v as [z|f|t|]; simpl; try discriminate; [|eauto].
  intros H. apply bool_decide_eq_true in H as [x' ->]. eauto.
Qed.

(** A value that is not a number fails at the comparison. *)
Lemma segment_non_number (op : string) (test : pyfloat -> option (pyfloat -> Alert))
    (v : pyval) :
  is_number v = false -> exists msg, segment op test v = Raise (TypeError msg).
Proof.
  intros H. unfold segment, as_number.
  destruct v; try discriminate H; simpl; eauto.
Qed.

(** A float, or an int within float range, gives a segment. *)
Lemma segment_in_range (op : string) (test : pyfloat -> option (pyfloat -> Alert))
    (v : pyval) :
  in_float_range v = true ->
  exists x x',
    number_of v = Some x /\ format_operand v = Ok x' /\
    segment op test v = Ok (match test x with
                            | Some alert => [alert x']
                            | None => []
                            end).
Proof.
  intros H. destruct (in_float_range_operand v H) as [x' Hx'].
  unfold segment, as_number.
  destruct v as [z|f|t|]; try discriminate H; simpl number_of;
    eexists; exists x'; (split; [reflexivity|]); (split; [exact Hx'|]);
    cbn [mbind result_bind rbind];
    match goal with |- context [test ?x] => destruct (test x) end;
    rewrite ?Hx'; reflexivity.
Qed.

(** What a segment that was computed holds. *)
Lemma segment_ok (op : string) (test : pyfloat -> option (pyfloat -> Alert))
    (v : pyval) (l : list Alert) :
  segment op test v = Ok l ->
  exists x,
    number_of v = Some x /\
    match test x with
    | Some alert => exists x', format_operand v = Ok x' /\ l = [alert x']
    | None => l = []
    end.
Proof.
  unfold segment, as_number.
  destruct (number_of v) as [x|]; [|discriminate].
  cbn [mbind result_bind rbind]. intros H. exists x. split; [reflexivity|].
  destruct (test x) as [alert|].
  - destruct (format_operand v) as [x'|]; [|discriminate H].
    injection H as <-. eauto.
  - injection H as <-. reflexivity.
Qed.

(** A segment fails at the comparison, for a value that is not a number, or
    at the formatting, for an int beyond the floats. *)
Lemma segment_raise (op : string) (test : pyfloat -> option (pyfloat -> Alert))
    (v : pyval) (e : exn) :
  segment op test v = Raise e ->
  (is_type_error e = true /\ is_number v = false) \/
  (is_overflow_error e = true /\ exists z, v = VInt z /\ float_of_int z = None).
Proof.
  unfold segment, as_number.
  destruct v as [z|f|t|]; simpl number_of; cbn [mbind result_bind rbind];
    try (intros [= <-]; left; split; reflexivity).
  - destruct (test (of_Z z)); [|discriminate]. simpl.
    destruct (float_of_int z) eqn:E; [discriminate|].
    intros [= <-]. right. split; [reflexivity|]. eauto.
  - destruct (test f); discriminate.
Qed.

Lemma check_weather_alerts_result (self : WeatherAlertsManager) (d : dict) :
  snd (check_weather_alerts self d) = evaluate_alerts (alert_thresholds self) d.
Proof.
  unfold check_weather_alerts.
  destruct (evaluate_alerts _ d); reflexivity.
Qed.

(** A check that raises leaves the manager as it was. *)
Lemma check_weather_alerts_raise (self : WeatherAlertsManager) (d : dict) (e : exn) :
  snd (check_weather_alerts self d) = Raise e ->
  check_weather_alerts self d = (self, Raise e).
Proof.
  unfold check_weather_alerts.
  destruct (evaluate_alerts _ d); [discriminate|]. intros [= <-]. reflexivity.
Qed.

(** The four segments of a list that was returned. *)
Lemma evaluate_alerts_ok (th : Thresholds) (d : dict) (alerts : list Alert) :
  evaluate_alerts th d = Ok alerts ->
  exists a b c e,
    alerts = (a ++ b ++ c ++ e)%list /\
    segment ">" (temperature_test th) (dict_get d "temperature" (VInt 0)) = Ok a /\
    segment ">" (wind_test th) (dict_get d "wind_speed" (VInt 0)) = Ok b /\
    segment "<" (pressure_test th) (dict_get d "pressure" (VInt 1013)) = Ok c /\
    segment ">" (severity_test th) (dict_get d "weather_severity" (VInt 0)) = Ok e.
Proof.
  rewrite evaluate_alerts_parts.
  destruct (segment ">" (temperature_test th) _) as [a|]; [|discriminate].
  destruct (segment ">" (wind_test th) _) as [b|]; [|discriminate].
  destruct (segment "<" (pressure_test th) _) as [c|]; [|discriminate].
  destruct (segment ">" (severity_test th) _) as [e|]; [|discriminate].
  cbn [mbind result_bind rbind]. intros [= <-].
  exists a, b, c, e. repeat split.
Qed.

(** The evaluator raises a [TypeError] for a field that is present and not
    a number, or an [OverflowError] for a field that is an int beyond the
    floats; it raises nothing else. *)
Lemma evaluate_alerts_raise (th : Thresholds) (d : dict) (e : exn) :
  evaluate_alerts th d = Raise e ->
  (is_type_error e = true /\
   exists key v, In key alert_type_fields /\ d !! key = Some v /\ is_number v = false) \/
  (is_overflow_error e = true /\
   exists key z, In key alert_type_fields /\ d !! key = Some (VInt z) /\
                 float_of_int z = None).
Proof.
  assert (Hseg : forall op test key default,
            In key alert_type_fields ->
            float_of_int default <> None ->
            segment op test (dict_get d key (VInt default)) = Raise e ->
            (is_type_error e = true /\
             exists key v, In key alert_type_fields /\ d !! key = Some v /\
                           is_number v = false) \/
            (is_overflow_error e = true /\
             exists key z, In key alert_type_fields /\ d !! key = Some (VInt z) /\
                           float_of_int z = None)).
  { intros op test key default Hk Hdef H.
    apply segment_raise in H as [[He Hv]|[He (z & Hz & Hf)]].
    - left. split; [exact He|].
      destruct (dict_get_cases d key (VInt default)) as [[_ E]|(v & Ev & E)];
        rewrite E in Hv; [discriminate Hv|]. eauto.
    - right. split; [exact He|].
      destruct (dict_get_cases d key (VInt default)) as [[_ E]|(v & Ev & E)];
        rewrite E in Hz.
      + injection Hz as <-. contradiction.
      + subst v. eauto. }
  rewrite evaluate_alerts_parts. unfold alert_type_fields in Hseg.
  destruct (segment ">" (temperature_test th) _) as [a|e1] eqn:E1.
  2:{ intros [= <-]. eapply Hseg; [| |exact E1]; [simpl; tauto|discriminate]. }
  destruct (segment ">" (wind_test th) _) as [b|e2] eqn:E2.
  2:{ intros [= <-]. eapply Hseg; [| |exact E2]; [simpl; tauto|discriminate]. }
  destruct (segment "<" (pressure_test th) _) as [c|e3] eqn:E3.
  2:{ intros [= <-]. eapply Hseg; [| |exact E3]; [simpl; tauto|discriminate]. }
  destruct (segment ">" (severity_test th) _) as [e4'|e4] eqn:E4.
  2:{ intros [= <-]. eapply Hseg; [| |exact E4]; [simpl; tauto|discriminate]. }
  discriminate.
Qed.

Lemma float_reading_get (d : dict) (key : string) (default : Z) :
  float_reading d ->
  In key ["temperature"; "wind_speed"; "pressure"; "weather_severity"] ->
  in_float_range (VInt default) = true ->
  in_float_range (dict_get d key (VInt default)) = true.
Proof.
  intros Hd Hk Hdef.
  destruct (dict_get_cases d key (VInt default)) as [[_ ->]|(v & Ev & ->)];
    [exact Hdef|]. exact (Hd key v Hk Ev).
Qed.

(** On a reading of floats and of ints within float range the evaluator
    returns. *)
Lemma evaluate_alerts_returns (th : Thresholds) (d : dict) :
  float_reading d -> exists alerts, evaluate_alerts th d = Ok alerts.
Proof.
  intros Hd. rewrite evaluate_alerts_parts.
  destruct (segment_in_range ">" (temperature_test th)
              (dict_get d "temperature" (VInt 0))) as (? & ? & _ & _ & ->);
    [apply float_reading_get; [exact Hd|simpl; tauto|reflexivity]|].
  destruct (segment_in_range ">" (wind_test th)
              (dict_get d "wind_speed" (VInt 0))) as (? & ? & _ & _ & ->);
    [apply float_reading_get; [exact Hd|simpl; tauto|reflexivity]|].
  destruct (segment_in_range "<" (pressure_test th)
              (dict_get d "pressure" (VInt 1013))) as (? & ? & _ & _ & ->);
    [apply float_reading_get; [exact Hd|simpl; tauto|reflexivity]|].
  destruct (segment_in_range ">" (severity_test th)
              (dict_get d "weather_severity" (VInt 0))) as (? & ? & _ & _ & ->);
    [apply float_reading_get; [exact Hd|simpl; tauto|reflexivity]|].
  eexists. reflexivity.
Qed.

(** The alerts a test can select, by type and title. *)
Lemma temperature_test_alert (th : Thresholds) (t : pyfloat)
    (alert : pyfloat -> Alert) :
  temperature_test th t = Some alert ->
  (gt t (high_temperature th) = true /\ alert = high_temperature_alert) \/
  (gt t (high_temperature th) = false /\ lt t (low_temperature th) = true /\
   alert = low_temperature_alert).
Proof.
  unfold temperature_test.
  destruct (gt t (high_temperature th)); [intros [= <-]; auto|].
  destruct (lt t (low_temperature th)); [intros [= <-]; auto|discriminate].
Qed.

Lemma wind_test_alert (th : Thresholds) (w : pyfloat) (alert : pyfloat -> Alert) :
  wind_test th w = Some alert ->
  gt w (high_wind_speed th) = true /\ alert = wind_alert.
Proof.
  unfold wind_test. destruct (gt w (high_wind_speed th)); [|discriminate].
  intros [= <-]. auto.
Qed.

Lemma pressure_test_alert (th : Thresholds) (p : pyfloat) (alert : pyfloat -> Alert) :
  pressure_test th p = Some alert ->
  lt p (low_pressure th) = true /\ alert = pressure_alert.
Proof.
  unfold pressure_test. destruct (lt p (low_pressure th)); [|discriminate].
  intros [= <-]. auto.
Qed.

Lemma severity_test_alert (th : Thresholds) (sv : pyfloat) (alert : pyfloat -> Alert) :
  severity_test th sv = Some alert ->
  gt sv (high_severity th) = true /\ alert = severity_alert.
Proof.
  unfold severity_test. destruct (gt sv (high_severity th)); [|discriminate].
  intros [= <-]. auto.
Qed.

(** The type of the alerts of each segment. *)
Lemma segment_types (th : Thresholds) (d : dict) (a b c e : list Alert) :
  segment ">" (temperature_test th) (dict_get d "temperature" (VInt 0)) = Ok a ->
  segment ">" (wind_test th) (dict_get d "wind_speed" (VInt 0)) = Ok b ->
  segment "<" (pressure_test th) (dict_get d "pressure" (VInt 1013)) = Ok c ->
  segment ">" (severity_test th) (dict_get d "weather_severity" (VInt 0)) = Ok e ->
  (a = [] \/ exists x, a = [high_temperature_alert x] \/ a = [low_temperature_alert x]) /\
  (b = [] \/ exists x, b = [wind_alert x]) /\
  (c = [] \/ exists x, c = [pressure_alert x]) /\
  (e = [] \/ exists x, e = [severity_alert x]).
Proof.
  intros Ha Hb Hc He.
  apply segment_ok in Ha as (t & _ & Ha).
  apply segment_ok in Hb as (w & _ & Hb).
  apply segment_ok in Hc as (p & _ & Hc).
  apply segment_ok in He as (sv & _ & He).
  repeat split.
  - destruct (temperature_test th t) as [alert|] eqn:E; [|auto].
    destruct Ha as (x & _ & ->). right. exists x.
    apply temperature_test_alert in E as [[_ ->]|(_ & _ & ->)]; auto.
  - destruct (wind_test th w) as [alert|] eqn:E; [|auto].
    destruct Hb as (x & _ & ->). apply wind_test_alert in E as [_ ->]. eauto.
  - destruct (pressure_test th p) as [alert|] eqn:E; [|auto].
    destruct Hc as (x & _ & ->). apply pressure_test_alert in E as [_ ->]. eauto.
  - destruct (severity_test th sv) as [alert|] eqn:E; [|auto].
    destruct He as (x & _ & ->). apply severity_test_alert in E as [_ ->]. eauto.
Qed.

Lemma Qltb_asym (a b : Q) : Qltb a b = true -> Qltb b a = false.
Proof. unfold Qltb. intros H. apply Z.ltb_lt in H. apply Z.ltb_ge. lia. Qed.

Lemma lt_asym (a b : pyfloat) : lt a b = true -> lt b a = false.
Proof.
  destruct a, b; simpl; try reflexivity; try discriminate;
    try apply Qltb_asym.
Qed.

(** Breaks a list of four segments into its cases. *)
Ltac segment_cases H :=
  destruct H as ([->|[? [-> | ->]]] & [->|[? ->]] & [->|[? ->]] & [->|[? ->]]).

(** C1 (as stated) fails: a row whose temperature is 40, above the default
    threshold of 35, and whose pressure is the SQL null gets no alert at all;
    the pressure comparison raises [TypeError] and the manager is left as it
    was. *)
Lemma C1_counterexample :
  field null_pressure_reading "temperature" 0 = Some (of_Z 40) /\
  gt (of_Z 40) (high_temperature (alert_thresholds new_manager)) = true /\
  check_weather_alerts new_manager null_pressure_reading
  = (new_manager,
     Raise (TypeError "'<' not supported between instances of 'NoneType' and 'float'")) /\
  ~ spec_one_high_temperature_alert new_manager null_pressure_reading.
Proof.
  repeat split; try (vm_compute; reflexivity).
  intros H. destruct (H (of_Z 40)) as (alerts & a & Hr & _);
    try (vm_compute; reflexivity).
  vm_compute in Hr. discriminate Hr.
Qed.



(** C2. The reading with temperature 20, wind speed 20, pressure 970 and
    severity 80 gives, under the default thresholds, exactly the wind, the
    pressure and the severity alert, in that order. *)
Theorem C2_three_alerts_in_order :
  exists a1 a2 a3,
    snd (check_weather_alerts new_manager windy_reading) = Ok [a1; a2; a3] /\
    a1 = wind_alert (of_Z 20) /\ a_type a1 = "wind" /\
    a2 = pressure_alert (of_Z 970) /\ a_type a2 = "pressure" /\
    a3 = severity_alert (of_Z 80) /\ a_type a3 = "severity".
Proof.
  exists (wind_alert (of_Z 20)), (pressure_alert (of_Z 970)),
    (severity_alert (of_Z 80)).
  split; [vm_compute; reflexivity|]. repeat split.
Qed.

(** C3. The reading with temperature 36.0, wind speed 5, pressure 1010 and
    severity 10 gives, under the default thresholds, exactly one alert: the
    high-temperature alert, of severity warning, whose message contains the
    text 36.0. *)
Theorem C3_single_high_temperature_alert :
  exists a,
    snd (check_weather_alerts new_manager hot_reading) = Ok [a] /\
    a_type a = "temperature" /\
    a_title a = "High Temperature Alert" /\
    a_severity a = "warning" /\
    contains "36.0" (a_message a) = true.
Proof.
  exists (high_temperature_alert (Fin (36 # 1))).
  repeat split; vm_compute; reflexivity.
Qed.

Lemma dict_get_insert_absent (d : dict) (key key' : string) (v default : pyval) :
  d !! key = None ->
  dict_get (<[key := v]> d) key' default
  = if String.eqb key key' then v else dict_get d key' default.
Proof.
  intros H. unfold dict_get.
  destruct (String.eqb key key') eqn:E.
  - apply String.eqb_eq in E as <-. rewrite lookup_insert_eq. reflexivity.
  - apply String.eqb_neq in E. rewrite lookup_insert_ne by exact E. reflexivity.
Qed.

(** C10. A reading without a pressure entry is checked exactly as the same
    reading with pressure 1013 is: the outcome and the manager afterwards are
    the same.  A list that is returned holds the pressure alert, with 1013.0
    in its message, when 1013 is below the low-pressure threshold, and no
    pressure alert otherwise, so none under any threshold below 1013.  The
    empty reading yields no alert at all under the default thresholds. *)
Theorem C10_absent_pressure_defaults_to_1013
    (self : WeatherAlertsManager) (d : dict) :
  d !! "pressure" = None ->
  check_weather_alerts self d
  = check_weather_alerts self (<["pressure" := VInt 1013]> d) /\
  (forall alerts,
     snd (check_weather_alerts self d) = Ok alerts ->
     List.filter (fun a => String.eqb (a_type a) "pressure") alerts
     = (if lt (of_Z 1013) (low_pressure (alert_thresholds self))
        then [pressure_alert (of_Z 1013)] else []) /\
     (lt (low_pressure (alert_thresholds self)) (of_Z 1013) = true ->
      forall a, In a alerts -> a_type a <> "pressure")) /\
  (float_reading d -> exists alerts, snd (check_weather_alerts self d) = Ok alerts) /\
  a_message (pressure_alert (of_Z 1013)) = "Low pressure system detected: 1013.0 hPa" /\
  snd (check_weather_alerts new_manager ∅) = Ok [].
Proof.
  intros Hp.
  assert (Heq : evaluate_alerts (alert_thresholds self) d
                = evaluate_alerts (alert_thresholds self) (<["pressure" := VInt 1013]> d)).
  { rewrite !evaluate_alerts_parts.
    rewrite !(dict_get_insert_absent d "pressure") by exact Hp.
    simpl String.eqb. cbv iota.
    replace (dict_get d "pressure" (VInt 1013)) with (VInt 1013)
      by (unfold dict_get; rewrite Hp; reflexivity).
    reflexivity. }
  split; [|split; [|split; [|split]]].
  - unfold check_weather_alerts. rewrite <- Heq. reflexivity.
  - intros alerts H. rewrite check_weather_alerts_result in H.
    apply evaluate_alerts_ok in H as (a & b & c & e & -> & Ha & Hb & Hc & He).
    pose proof (segment_types _ _ _ _ _ _ Ha Hb Hc He) as T.
    apply segment_ok in Hc as (p & Ep & Hc).
    unfold dict_get in Ep, Hc. rewrite Hp in Ep, Hc.
    injection Ep as <-. unfold pressure_test in Hc.
    assert (Ec : c = if lt (of_Z 1013) (low_pressure (alert_thresholds self))
                     then [pressure_alert (of_Z 1013)] else []).
    { destruct (lt (of_Z 1013) (low_pressure (alert_thresholds self))).
      - destruct Hc as (x' & Hx' & ->). vm_compute in Hx'.
        injection Hx' as <-. reflexivity.
      - exact Hc. }
    split.
    + rewrite Ec.
      destruct T as ([->|[? [-> | ->]]] & [->|[? ->]] & _ & [->|[? ->]]);
        destruct (lt (of_Z 1013) (low_pressure (alert_thresholds self)));
        reflexivity.
    + intros Hlt. rewrite (lt_asym _ _ Hlt) in Ec. subst c.
      intros a0 Hin.
      destruct T as ([->|[? [-> | ->]]] & [->|[? ->]] & _ & [->|[? ->]]);
        simpl in Hin;
        repeat (destruct Hin as [<-|Hin]; [discriminate|]); destruct Hin.
  - rewrite check_weather_alerts_result. apply evaluate_alerts_returns.
  - vm_compute. reflexivity.
  - vm_compute. reflexivity.
Qed.

Lemma C10_witness :
  let d : dict := <["temperature" := VInt 20]> ∅ in
  check_weather_alerts new_manager d
  = check_weather_alerts new_manager (<["pressure" := VInt 1013]> d) /\
  (forall alerts,
     snd (check_weather_alerts new_manager d) = Ok alerts ->
     List.filter (fun a => String.eqb (a_type a) "pressure") alerts
     = (if lt (of_Z 1013) (low_pressure (alert_thresholds new_manager))
        then [pressure_alert (of_Z 1013)] else []) /\
     (lt (low_pressure (alert_thresholds new_manager)) (of_Z 1013) = true ->
      forall a, In a alerts -> a_type a <> "pressure")) /\
  (float_reading d ->
   exists alerts, snd (check_weather_alerts new_manager d) = Ok alerts) /\
  a_message (pressure_alert (of_Z 1013)) = "Low pressure system detected: 1013.0 hPa" /\
  snd (check_weather_alerts new_manager ∅) = Ok [].
Proof.
  intros d.
  apply (C10_absent_pressure_defaults_to_1013 new_manager d).
  vm_compute. reflexivity.
Defined.

(* ===================================================================== *)
(** ** Properties of the view update                                      *)
(* ===================================================================== *)

Lemma preserves_bind {A B} (P : WeatherApp -> Prop) (m : M A) (k : A -> M B) :
  preserves P m -> (forall a, preserves P (k a)) -> preserves P (m ≫= k).
Proof.
  intros Hm Hk app HP. unfold mbind, M_bind.
  specialize (Hm app HP).
  destruct (m app) as [app' [a|e]]; simpl in *; [|assumption].
  apply Hk, Hm.
Qed.

Lemma preserves_lift {A} (P : WeatherApp -> Prop) (r : result A) :
  preserves P (lift r).
Proof. intros app HP. exact HP. Qed.

Lemma preserves_modify (P : WeatherApp -> Prop) (f : WeatherApp -> WeatherApp) :
  (forall app, P app -> P (f app)) -> preserves P (modify f).
Proof. intros Hf app HP. apply Hf, HP. Qed.


Ltac preserves_steps :=
  repeat first
    [ apply preserves_lift
    | apply preserves_bind; [|intros ?]
    | apply preserves_modify; intros ? ? ].

Section ViewUpdate.

Variable env : Env.

Lemma modify_then {A} (f : WeatherApp -> WeatherApp) (k : M A) (app : WeatherApp) :
  (modify f;; k) app = k (f app).
Proof. reflexivity. Qed.


(** The chart redraws change nothing but the console. *)
Lemma update_trends_chart_keeps (P : WeatherApp -> Prop) (app : WeatherApp) :
  (forall v a, P a -> P (set_console v a)) ->
  P app -> P (update_trends_chart env app).
Proof.
  intros Hc HP. unfold update_trends_chart.
  destruct (current_city app) as [[|c r]|]; try exact HP.
  destruct (parse_city _) as [city country].
  destruct (env_trends env city country); [exact HP|]. apply Hc, HP.
Qed.

Lemma update_historical_chart_keeps (P : WeatherApp -> Prop) (app : WeatherApp) :
  (forall v a, P a -> P (set_console v a)) ->
  P app -> P (update_historical_chart env app).
Proof.
  intros Hc HP. unfold update_historical_chart.
  destruct (current_city app) as [sel|]; [|apply Hc, HP].
  destruct (parse_city _) as [city country].
  destruct (env_historical env city country); [exact HP|]. apply Hc, HP.
Qed.

Lemma charts_keep (P : WeatherApp -> Prop) (app : WeatherApp) :
  (forall v a, P a -> P (set_console v a)) ->
  P app -> P (update_historical_chart env (update_trends_chart env app)).
Proof.
  intros Hc HP. apply update_historical_chart_keeps; [exact Hc|].
  apply update_trends_chart_keeps; assumption.
Qed.

Ltac chart_steps :=
  try (apply update_trends_chart_keeps; [intros ? ? ?|]);
  try (apply update_historical_chart_keeps; [intros ? ? ?|]).

(** The view update keeps whatever no widget update, no line printed and no
    assignment to [current_data] can change. *)
Lemma update_ui_preserves (P : WeatherApp -> Prop) (data : dict) :
  widget_stable P ->
  (forall v app, P app -> P (set_console v app)) ->
  (forall app, P app -> P (set_current_data (Some data) app)) ->
  preserves P (_update_ui_with_data env data).
Proof.
  intros [Hl Hc Hs] Ho Hd. unfold _update_ui_with_data.
  preserves_steps; chart_steps;
    unfold update_status, config_text; auto.
Qed.

(** The row shown is the row passed, whether or not the update raised. *)
Lemma update_ui_current_data (data : dict) (app : WeatherApp) :
  current_data (_update_ui_with_data env data app).1 = Some data.
Proof.
  unfold _update_ui_with_data. rewrite modify_then.
  match goal with
  | |- current_data (?m ?a).1 = _ =>
      cut (preserves (fun x => current_data x = Some data) m);
      [intros H; apply H; reflexivity|]
  end.
  preserves_steps; chart_steps; assumption.
Qed.


Lemma lift_Ok_bind {A B} (a : A) (k : A -> M B) (app : WeatherApp) :
  (lift (Ok a) ≫= k) app = k a app.
Proof. reflexivity. Qed.

Lemma lift_Raise_bind {A B} (e : exn) (k : A -> M B) (app : WeatherApp) :
  (lift (Raise e) ≫= k) app = (app, Raise e).
Proof. reflexivity. Qed.

(** When the update returns normally, the four temperature labels hold the
    formatted fields of the row, each with the Celsius suffix. *)
Lemma update_ui_ok_temperatures (data : dict) (app app' : WeatherApp) :
  _update_ui_with_data env data app = (app', Ok tt) ->
  exists t f hi wc,
    (v ← dict_index data "temperature"; fmt_f 1 v) = Ok t /\
    (v ← dict_index data "feels_like"; fmt_f 1 v) = Ok f /\
    fmt_f 1 (dict_get data "heat_index_c" (VInt 0)) = Ok hi /\
    fmt_f 1 (dict_get data "wind_chill_c" (VInt 0)) = Ok wc /\
    labels app' !! "temp_label" = Some (t ++ "°C") /\
    labels app' !! "feels_like_label" = Some (f ++ "°C") /\
    labels app' !! "heat_index_label" = Some ("Heat Index: " ++ hi ++ "°C") /\
    labels app' !! "wind_chill_label" = Some ("Wind Chill: " ++ wc ++ "°C").
Proof.
  intros H. unfold _update_ui_with_data in H.
  repeat first
    [ rewrite modify_then in H
    | match type of H with
      | (lift ?r ≫= _) _ = _ =>
          let E := fresh "E" in
          destruct r eqn:E;
          [ rewrite lift_Ok_bind in H; cbv beta in H
          | rewrite lift_Raise_bind in H; discriminate H ]
      end ].
  unfold modify in H. injection H as <-.
  do 4 eexists. repeat split; try reflexivity;
    unfold update_status, config_text; simpl;
    rewrite lookup_insert_ne by done;
    (apply (charts_keep (fun a => labels a !! _ = _)); [intros; assumption|]);
    simpl; repeat (rewrite lookup_insert_ne by done); apply lookup_insert_eq.
Qed.

End ViewUpdate.
(* ===================================================================== *)
(** ** Properties of the main loop                                        *)
(* ===================================================================== *)

Section MainLoop.

Variable env : Env.

Lemma check_and_report_preserves (P : WeatherApp -> Prop) (data : dict) :
  (forall v app, P app -> P (set_alerts_manager v app)) ->
  (forall v app, P app -> P (set_labels v app)) ->
  preserves P (check_and_report data).
Proof.
  intros Hm Hl app HP. unfold check_and_report.
  destruct (alerts_manager app) as [m|]; [|exact HP].
  destruct (check_weather_alerts m data) as [m' [[|a alerts]|e]]; simpl;
    unfold update_status, config_text; auto.
Qed.

Lemma run_callback_preserves (P : WeatherApp -> Prop) (cb : callback) :
  callback_stable P -> forall app, P app -> P (run_callback env cb app).
Proof.
  intros [Hw Hd Hm He Hc] app HP.
  destruct cb as [enhanced data|msg|msg]; simpl.
  - assert (Hu : preserves P (_update_ui_with_data env data))
      by (apply update_ui_preserves; auto).
    assert (He' : preserves P (enhanced_update env data)).
    { unfold enhanced_update. apply preserves_bind; [exact Hu|].
      intros _. apply check_and_report_preserves; [auto|].
      destruct Hw; auto. }
    destruct enhanced.
    + specialize (He' app HP).
      destruct (enhanced_update env data app) as [app' [u|e]]; simpl in *;
        unfold print; auto.
    + specialize (Hu app HP).
      destruct (_update_ui_with_data env data app) as [app' [u|e]]; simpl in *;
        unfold print; auto.
  - unfold update_status, config_text. destruct Hw; auto.
  - unfold show_error, update_status, config_text. destruct Hw; auto.
Qed.

Lemma callback_stable_schedule (x : list Z * Z) :
  callback_stable (fun app => schedule app = x).
Proof. repeat split; intros; assumption. Qed.






Lemma refresh_data_schedule (app : WeatherApp) :
  schedule (refresh_data app) = schedule app.
Proof.
  unfold refresh_data. destruct (current_city app) as [[|c r]|]; reflexivity.
Qed.

Lemma refresh_data_threads (app : WeatherApp) :
  threads (refresh_data app) = threads app \/
  threads (refresh_data app) = (threads app ++ [TStarted])%list.
Proof.
  unfold refresh_data. destruct (current_city app) as [[|c r]|]; auto.
Qed.

Lemma load_data_begin_schedule (tid : nat) (app : WeatherApp) :
  schedule (load_data_begin tid app) = schedule app.
Proof.
  unfold load_data_begin. destruct (current_city app); [|reflexivity].
  destruct (parse_city s); reflexivity.
Qed.

Lemma load_data_finish_schedule (tid : nat) (city country : string) (app : WeatherApp) :
  schedule (load_data_finish env tid city country app) = schedule app.
Proof.
  unfold load_data_finish.
  destruct (get_current_weather_data env city country) as [out [d|e]];
    [destruct (truthy d)|]; reflexivity.
Qed.

Lemma apply_preferences_timers (dlg : PreferencesDialog) (app : WeatherApp) :
  timers (apply_preferences dlg app).1.2 = timers app.
Proof.
  unfold apply_preferences.
  destruct (py_int (refresh_var dlg)) as [n|e]; [reflexivity|].
  destruct (is_value_error e); reflexivity.
Qed.

Lemma apply_preferences_interval (dlg : PreferencesDialog) (app : WeatherApp) :
  refresh_interval (apply_preferences dlg app).1.2 =
  match py_int (refresh_var dlg) with
  | Ok n => n * 1000
  | Raise _ => refresh_interval app
  end.
Proof.
  unfold apply_preferences.
  destruct (py_int (refresh_var dlg)) as [n|e]; [reflexivity|].
  destruct (is_value_error e); reflexivity.
Qed.

Lemma load_initial_data_schedule (app : WeatherApp) :
  schedule (load_initial_data env app).1 = schedule app.
Proof.
  unfold load_initial_data, get_available_cities, try_except, lift, modify,
    mbind, M_bind, mret, M_ret.
  destruct (env_cities env) as [[|c cs]|e]; simpl; try reflexivity.
  - rewrite refresh_data_schedule. reflexivity.
  - destruct (is_sqlite_error e); reflexivity.
Qed.

Lemma load_initial_data_returns (app : WeatherApp) :
  (load_initial_data env app).2 = Ok tt.
Proof.
  unfold load_initial_data, get_available_cities, try_except, lift, modify,
    mbind, M_bind, mret, M_ret.
  destruct (env_cities env) as [[|c cs]|e]; simpl; try reflexivity.
  destruct (is_sqlite_error e); reflexivity.
Qed.

(** What a call of [start_auto_refresh] from the main loop leaves: the
    interval as it was, and one more timer when Tk accepts the delay. *)
Lemma start_auto_refresh_schedule (app : WeatherApp) :
  schedule (report (start_auto_refresh env app)) =
  ((timers app ++ if env_after_ok env (refresh_interval app)
                  then [refresh_interval app] else [])%list,
   refresh_interval app).
Proof.
  unfold start_auto_refresh. rewrite modify_then.
  unfold after_start_auto_refresh.
  pose proof (refresh_data_schedule app) as E. unfold schedule in E.
  injection E as Et Ei. rewrite Ei. unfold env_after_ok.
  destruct (env_after env (refresh_interval app)); unfold schedule; simpl;
    rewrite ?Et, ?Ei, ?app_nil_r; reflexivity.
Qed.

Lemma start_auto_refresh_threads (app : WeatherApp) :
  threads (report (start_auto_refresh env app)) = threads app \/
  threads (report (start_auto_refresh env app)) = (threads app ++ [TStarted])%list.
Proof.
  unfold start_auto_refresh. rewrite modify_then.
  unfold after_start_auto_refresh.
  destruct (env_after env (refresh_interval (refresh_data app))); simpl;
    apply refresh_data_threads.
Qed.

(** The timers and the interval after a step, from those before it. *)
Lemma step_schedule (ev : event) (app app' : WeatherApp) :
  step env ev app = Some app' ->
  match ev with
  | EvTimer i =>
      schedule app' =
      ((delete i (timers app) ++
        if env_after_ok env (refresh_interval app)
        then [refresh_interval app] else [])%list,
       refresh_interval app)
      /\ is_Some (timers app !! i)
  | EvApply dlg =>
      schedule app' =
      (timers app,
       match py_int (refresh_var dlg) with
       | Ok n => n * 1000
       | Raise _ => refresh_interval app
       end)
  | _ => schedule app' = schedule app
  end.
Proof.
  destruct ev as [sel| |i|tid|tid| |dlg|]; simpl; intros H.
  - destruct (bool_decide _); [|discriminate]. injection H as <-.
    unfold on_city_changed. rewrite refresh_data_schedule. reflexivity.
  - injection H as <-. apply refresh_data_schedule.
  - destruct (timers app !! i) as [d|] eqn:E; [|discriminate]. injection H as <-.
    rewrite start_auto_refresh_schedule. simpl. split; eauto.
  - destruct (threads app !! tid) as [[]|]; try discriminate. injection H as <-.
    apply load_data_begin_schedule.
  - destruct (threads app !! tid) as [[]|]; try discriminate. injection H as <-.
    apply load_data_finish_schedule.
  - destruct (after_queue app) as [|cb rest]; [discriminate|]. injection H as <-.
    apply (run_callback_preserves (fun a => schedule a = schedule app) cb
             (callback_stable_schedule _) (set_after_queue rest app) eq_refl).
  - injection H as <-. unfold schedule.
    rewrite apply_preferences_timers, apply_preferences_interval. reflexivity.
  - injection H as <-. reflexivity.
Qed.

(** Never more than one timer: a step that starts with at most one pending
    timer ends with at most one. *)
Lemma step_at_most_one_timer (ev : event) (app app' : WeatherApp) :
  step env ev app = Some app' ->
  (length (timers app) <= 1)%nat -> (length (timers app') <= 1)%nat.
Proof.
  intros H Hl. apply step_schedule in H.
  destruct ev; try (injection H as -> _; exact Hl).
  destruct H as [H Hi]. injection H as -> _.
  rewrite length_app, length_delete by exact Hi.
  destruct Hi as [d Hd]. apply lookup_lt_Some in Hd.
  destruct (env_after_ok env (refresh_interval app)); simpl; lia.
Qed.

(** Exactly one timer, with an interval Tk accepts: kept by every step whose
    event leaves the interval acceptable. *)
Lemma step_one_timer (ev : event) (app app' : WeatherApp) :
  step env ev app = Some app' ->
  accepted_event env ev ->
  length (timers app) = 1%nat /\ env_after_ok env (refresh_interval app) = true ->
  length (timers app') = 1%nat /\ env_after_ok env (refresh_interval app') = true.
Proof.
  intros H Ha [Hl Hok]. apply step_schedule in H.
  destruct ev; try (injection H as -> ->; split; assumption).
  - destruct H as [H Hi]. injection H as -> ->. split; [|exact Hok].
    rewrite Hok, length_app, length_delete by exact Hi.
    simpl. lia.
  - injection H as -> ->. split; [exact Hl|].
    simpl in Ha. destruct (py_int (refresh_var dlg)) as [n|e]; auto.
Qed.

Lemma started_schedule (app : WeatherApp) :
  started env = Some app ->
  schedule app = ([30000], 30000) /\ env_after_ok env 30000 = true.
Proof.
  unfold started, init. unfold mbind at 1, M_bind.
  match goal with
  | |- context [load_initial_data env ?a] =>
      pose proof (load_initial_data_schedule a) as Es;
      pose proof (load_initial_data_returns a) as Er;
      destruct (load_initial_data env a) as [a1 r1]
  end.
  simpl in Es, Er. subst r1.
  unfold start_auto_refresh. rewrite modify_then.
  unfold after_start_auto_refresh.
  pose proof (refresh_data_schedule a1) as E. rewrite Es in E.
  injection E as Et Ei. rewrite Ei. unfold env_after_ok.
  destruct (env_after env 30000); [|discriminate].
  intros [= <-]. unfold schedule. simpl. rewrite Et, Ei. split; reflexivity.
Qed.

Lemma run_at_most_one_timer (evs : list event) (app app' : WeatherApp) :
  run env evs app = Some app' ->
  (length (timers app) <= 1)%nat -> (length (timers app') <= 1)%nat.
Proof.
  revert app. induction evs as [|ev evs IH]; simpl; intros app H Hl.
  - injection H as <-. exact Hl.
  - destruct (step env ev app) as [app1|] eqn:E; [|discriminate].
    eapply IH; [exact H|]. eapply step_at_most_one_timer; eassumption.
Qed.

Lemma run_one_timer (evs : list event) (app app' : WeatherApp) :
  run env evs app = Some app' ->
  Forall (accepted_event env) evs ->
  length (timers app) = 1%nat /\ env_after_ok env (refresh_interval app) = true ->
  length (timers app') = 1%nat /\ env_after_ok env (refresh_interval app') = true.
Proof.
  revert app. induction evs as [|ev evs IH]; simpl; intros app H Ha Hi.
  - injection H as <-. exact Hi.
  - destruct (step env ev app) as [app1|] eqn:E; [|discriminate].
    apply Forall_cons in Ha as [Hev Ha].
    eapply IH; [exact H|exact Ha|]. eapply step_one_timer; eassumption.
Qed.

End MainLoop.

(* ===================================================================== *)
(** ** City selector: the code against the specification                  *)
(* ===================================================================== *)

Section Split.

Variable c0 : ascii.
Variable sep' : string.
Let sep := String c0 sep'.

Lemma append_empty_r (s : string) : s ++ EmptyString = s.
Proof.
  induction s as [|c s IH]; [reflexivity|].
  change (String c (s ++ EmptyString) = String c s). f_equal. exact IH.
Qed.

Lemma append_assoc (a b c : string) : (a ++ b) ++ c = a ++ (b ++ c).
Proof.
  induction a as [|x a IH]; [reflexivity|].
  change (String x ((a ++ b) ++ c) = String x (a ++ (b ++ c))). f_equal. exact IH.
Qed.

(** The part being collected is a prefix of the first part returned. *)
Lemma split_go_cur (cur s : string) :
  split_go sep 0 cur s =
  match split_go sep 0 EmptyString s with
  | h :: t => (cur ++ h) :: t
  | [] => []
  end.
Proof.
  revert cur. induction s as [|c r IH]; intros cur.
  - simpl. rewrite append_empty_r. reflexivity.
  - cbn [split_go]. destruct (String.prefix sep (String c r)).
    + rewrite append_empty_r. reflexivity.
    + rewrite (IH (cur ++ String c EmptyString)), (IH (EmptyString ++ String c EmptyString)).
      destruct (split_go sep 0 EmptyString r) as [|h t]; [reflexivity|].
      rewrite append_assoc. reflexivity.
Qed.

(** Passing over [k] characters is splitting the text without them. *)
Lemma split_go_skip (k : nat) (cur s : string) :
  split_go sep k cur s = split_go sep 0 cur (drop_chars k s).
Proof.
  revert k. induction s as [|c r IH]; intros k.
  - destruct k; reflexivity.
  - destruct k as [|k]; [reflexivity|]. simpl. apply IH.
Qed.

(** [split] cuts at the first separator and goes on in the remainder. *)
Lemma split_first_then_rest (s : string) :
  split sep s =
  let (a, b) := spec_split_first sep s in
  if contains sep s then a :: split sep b else [a].
Proof.
  unfold split. induction s as [|c r IH].
  - reflexivity.
  - cbn [split_go spec_split_first contains].
    destruct (String.prefix sep (String c r)) eqn:Ep.
    + simpl orb. cbv iota. rewrite split_go_skip. unfold sep. simpl.
      rewrite Nat.sub_0_r. reflexivity.
    + simpl orb. rewrite split_go_cur, IH.
      destruct (spec_split_first sep r) as [a b].
      destruct (contains sep r); reflexivity.
Qed.

Lemma spec_split_first_no_separator (s : string) :
  contains sep s = false -> spec_split_first sep s = (s, EmptyString).
Proof.
  induction s as [|c r IH]; intros H.
  - reflexivity.
  - cbn [contains] in H. apply orb_false_elim in H as [Hp Hc].
    cbn [spec_split_first]. rewrite Hp, (IH Hc). reflexivity.
Qed.

Lemma split_head (s : string) :
  nth 0 (split sep s) EmptyString = (spec_split_first sep s).1.
Proof.
  rewrite split_first_then_rest.
  destruct (spec_split_first sep s) as [a b].
  destruct (contains sep s); reflexivity.
Qed.

End Split.

(** What the code recovers from every selector: the city is the text before
    the first separator; the country is the text after it up to the next
    separator, not the whole remainder. *)
Lemma parse_city_characterised (selector : string) :
  let (city, remainder) := spec_split_first ", " selector in
  parse_city selector = (city, (spec_split_first ", " remainder).1).
Proof.
  unfold parse_city.
  pose proof (split_first_then_rest "," " " selector) as E.
  pose proof (spec_split_first_no_separator "," " " selector) as N.
  destruct (spec_split_first ", " selector) as [city remainder].
  rewrite E. destruct (contains ", " selector).
  - pose proof (split_head "," " " remainder) as Hh.
    destruct (split ", " remainder) as [|h t] eqn:Es.
    + simpl in *. rewrite <- Hh. reflexivity.
    + simpl in *. rewrite <- Hh. reflexivity.
  - injection (N eq_refl) as -> ->. reflexivity.
Qed.

(** Where at most one separator occurs, the code and the specification
    agree. *)
Lemma parse_city_agrees_when_single_separator (selector : string) :
  contains ", " (spec_split_first ", " selector).2 = false ->
  parse_city selector = spec_split_first ", " selector.
Proof.
  intros H. pose proof (parse_city_characterised selector) as C.
  destruct (spec_split_first ", " selector) as [city remainder]. simpl in H.
  rewrite C, (spec_split_first_no_separator "," " " remainder H). reflexivity.
Qed.

(** C4. On the selector of city Washington and country D.C., USA the code
    keeps the second part of the split only: the country it recovers is D.C.,
    where splitting at the first separator gives D.C., USA; the pair the
    selector was built from is not recovered. *)
Theorem C4_country_is_second_part_only :
  split ", " "Washington, D.C., USA" = ["Washington"; "D.C."; "USA"] /\
  parse_city "Washington, D.C., USA" = ("Washington", "D.C.") /\
  spec_split_first ", " "Washington, D.C., USA" = ("Washington", "D.C., USA") /\
  parse_city (make_selector "Washington" "D.C., USA") <> ("Washington", "D.C., USA").
Proof. repeat split; try (vm_compute; reflexivity). vm_compute. discriminate. Qed.

(* ===================================================================== *)
(** ** Preferences                                                        *)
(* ===================================================================== *)

Lemma py_int_raises_value_error (s : string) (e : exn) :
  py_int s = Raise e -> is_value_error e = true.
Proof.
  unfold py_int.
  match goal with
  | |- match ?x with _ => _ end = _ -> _ => destruct x
  end; [discriminate|].
  intros [= <-]. reflexivity.
Qed.

(** Evaluate [digit_of] on the character at the head of the goal. *)
Ltac eval_digit :=
  match goal with
  | |- context [digit_of ?c] =>
      let v := eval vm_compute in (digit_of c) in
      change (digit_of c) with v; cbv iota beta
  end.

Section IntOfStr.

Local Abbreviation su := NilEmpty.string_of_uint.

Lemma parse_digits_acc (d : Decimal.uint) (acc : positive) :
  parse_digits true (Zpos acc) (su d) = Some (Zpos (Pos.of_uint_acc d acc)).
Proof.
  revert acc. induction d; intros acc; cbn [su Pos.of_uint_acc];
    [reflexivity|..];
    cbn [parse_digits]; eval_digit;
    (etransitivity; [|apply IHd]); f_equal; lia.
Qed.

Lemma parse_digits_zero (d : Decimal.uint) (prev : bool) :
  prev = true \/ d <> Decimal.Nil ->
  parse_digits prev 0 (su d) = Some (Z.of_N (Pos.of_uint d)).
Proof.
  revert prev. induction d; intros prev Hp.
  - destruct Hp as [->|Hp]; [reflexivity|congruence].
  - cbn [su parse_digits Pos.of_uint]. eval_digit.
    apply IHd. left. reflexivity.
  - cbn [su parse_digits Pos.of_uint]. eval_digit.
    apply (parse_digits_acc d 1).
  - cbn [su parse_digits Pos.of_uint]. eval_digit.
    apply (parse_digits_acc d 2).
  - cbn [su parse_digits Pos.of_uint]. eval_digit.
    apply (parse_digits_acc d 3).
  - cbn [su parse_digits Pos.of_uint]. eval_digit.
    apply (parse_digits_acc d 4).
  - cbn [su parse_digits Pos.of_uint]. eval_digit.
    apply (parse_digits_acc d 5).
  - cbn [su parse_digits Pos.of_uint]. eval_digit.
    apply (parse_digits_acc d 6).
  - cbn [su parse_digits Pos.of_uint]. eval_digit.
    apply (parse_digits_acc d 7).
  - cbn [su parse_digits Pos.of_uint]. eval_digit.
    apply (parse_digits_acc d 8).
  - cbn [su parse_digits Pos.of_uint]. eval_digit.
    apply (parse_digits_acc d 9).
Qed.

Lemma to_uint_not_nil (n : N) : N.to_uint n <> Decimal.Nil.
Proof.
  destruct n as [|p]; [discriminate|]. apply DecimalPos.Unsigned.to_uint_nonnil.
Qed.

Lemma digits_unfold (n : N) : digits n = su (N.to_uint n).
Proof.
  unfold digits, NilZero.string_of_uint.
  pose proof (to_uint_not_nil n). destruct (N.to_uint n); congruence.
Qed.

Lemma parse_digits_digits (n : N) :
  parse_digits false 0 (digits n) = Some (Z.of_N n).
Proof.
  rewrite digits_unfold, parse_digits_zero by (right; apply to_uint_not_nil).
  change (Pos.of_uint (N.to_uint n)) with (N.of_uint (N.to_uint n)).
  rewrite DecimalN.Unsigned.of_to. reflexivity.
Qed.

Lemma no_space_su (d : Decimal.uint) : no_space (su d) = true.
Proof. induction d; [reflexivity|..]; cbn [su no_space]; rewrite IHd; reflexivity. Qed.

Lemma is_ascii_su (d : Decimal.uint) : is_ascii (su d) = true.
Proof. induction d; [reflexivity|..]; cbn [su is_ascii]; rewrite IHd; reflexivity. Qed.

(** The parser of [int] reads an ASCII text as it is. *)
Lemma py_int_ascii (s : string) :
  is_ascii s = true ->
  py_int s =
  match (match strip s with
         | String "-" r => option_map Z.opp (parse_digits false 0 r)
         | String "+" r => parse_digits false 0 r
         | _ => parse_digits false 0 (strip s)
         end) with
  | Some z => Ok z
  | None => Raise (ValueError ("invalid literal for int() with base 10: '" ++ s ++ "'"))
  end.
Proof. intros H. unfold py_int, int_text. rewrite H. reflexivity. Qed.

Lemma rev_string_twice (a b s : string) :
  rev_string a (rev_string b s) = rev_string (s ++ a) b.
Proof.
  revert b. induction s as [|c r IH]; intros b; [reflexivity|].
  cbn [rev_string]. rewrite IH. reflexivity.
Qed.

Lemma no_space_rev_string (acc s : string) :
  no_space acc = true -> no_space s = true -> no_space (rev_string acc s) = true.
Proof.
  revert acc. induction s as [|c r IH]; intros acc Ha Hs; [exact Ha|].
  cbn [no_space] in Hs. apply andb_true_iff in Hs as [Hc Hr].
  cbn [rev_string]. apply IH; [|exact Hr].
  cbn [no_space]. rewrite Hc, Ha. reflexivity.
Qed.

Lemma lstrip_no_space (s : string) : no_space s = true -> lstrip s = s.
Proof.
  destruct s as [|c r]; [reflexivity|]. cbn [no_space lstrip]. intros H.
  apply andb_true_iff in H as [Hc _]. apply negb_true_iff in Hc.
  rewrite Hc. reflexivity.
Qed.

(** Text without white space is left as it is by [strip]. *)
Lemma strip_no_space (s : string) : no_space s = true -> strip s = s.
Proof.
  intros H. unfold strip.
  rewrite (lstrip_no_space s H).
  rewrite lstrip_no_space by (apply no_space_rev_string; [reflexivity|exact H]).
  rewrite rev_string_twice. cbn [rev_string]. apply append_empty_r.
Qed.

Lemma py_int_digits (n : N) : py_int (digits n) = Ok (Z.of_N n).
Proof.
  rewrite py_int_ascii by (rewrite digits_unfold; apply is_ascii_su).
  rewrite strip_no_space by (rewrite digits_unfold; apply no_space_su).
  pose proof (parse_digits_digits n) as P.
  rewrite digits_unfold in *.
  pose proof (to_uint_not_nil n) as Hn.
  destruct (N.to_uint n); try congruence; cbn [su] in *; rewrite P; reflexivity.
Qed.

End IntOfStr.

Lemma int_of_str_round_trip (z : Z) : py_int (Z_str z) = Ok z.
Proof.
  unfold Z_str. destruct (z <? 0) eqn:Hz.
  - apply Z.ltb_lt in Hz.
    change ("-" ++ digits (Z.to_N (- z))) with (String "-" (digits (Z.to_N (- z)))).
    rewrite py_int_ascii
      by (cbn [is_ascii]; rewrite digits_unfold, is_ascii_su; reflexivity).
    rewrite strip_no_space
      by (cbn [no_space]; rewrite digits_unfold, no_space_su; reflexivity).
    rewrite parse_digits_digits. cbn [option_map]. f_equal. lia.
  - apply Z.ltb_ge in Hz. rewrite py_int_digits. f_equal. lia.
Qed.

(** What applying does with a text that [int] accepts. *)
Lemma apply_preferences_accepted (dlg : PreferencesDialog) (app : WeatherApp) (n : Z) :
  py_int (refresh_var dlg) = Ok n ->
  apply_preferences dlg app
  = ({| refresh_var := refresh_var dlg; temp_units_var := temp_units_var dlg;
        theme_var := theme_var dlg; dialog_open := false |},
     set_theme (theme_var dlg) (set_refresh_interval (n * 1000) app),
     Ok tt).
Proof. intros H. unfold apply_preferences. rewrite H. reflexivity. Qed.

(** C5 (as stated) fails: the intervals 0 and -5 are not positive integers,
    yet applying them changes the interval and the theme and reports
    nothing. *)
Lemma C5_counterexample :
  ~ spec_apply_rejected (dialog "0" Celsius) app2 /\
  ~ spec_apply_rejected (dialog "-5" Celsius) app2.
Proof.
  split; intros H.
  - destruct H as (Hi & _ & _).
    + intros (n & Hn & Hpos). vm_compute in Hn. injection Hn as <-. lia.
    + vm_compute in Hi. discriminate Hi.
  - destruct H as (Hi & _ & _).
    + intros (n & Hn & Hpos). vm_compute in Hn. injection Hn as <-. lia.
    + vm_compute in Hi. discriminate Hi.
Qed.

(** C5, amended.  When [int] rejects the interval text, applying the
    preferences changes nothing but the list of error boxes: the message
    asking for a valid refresh interval is shown, no exception leaves the
    handler, the dialog stays open with its fields, and the interval, the
    theme and every other part of the application state are as before.  When
    [int] accepts the text, whatever the sign of its value, the handler
    returns with the dialog closed, the interval set to a thousand times the
    value, the theme set to that of the dialog and no error box; the decimal
    text of every integer, zero and the negative ones included, is such a
    text.  The second and third part are stated for texts of at most 640
    characters, which the interpreter's limit on digits cannot reach. *)
Theorem C5_rejected_literal_changes_nothing
    (dlg : PreferencesDialog) (app : WeatherApp) :
  (forall e,
     py_int (refresh_var dlg) = Raise e ->
     apply_preferences dlg app
     = (dlg,
        set_error_boxes
          (error_boxes app ++ [("Error", "Please enter a valid refresh interval")])%list
          app,
        Ok tt)
     /\ refresh_interval (apply_preferences dlg app).1.2 = refresh_interval app
     /\ theme (apply_preferences dlg app).1.2 = theme app) /\
  (forall n,
     py_int (refresh_var dlg) = Ok n ->
     (String.length (refresh_var dlg) <= 640)%nat ->
     (apply_preferences dlg app).2 = Ok tt /\
     dialog_open (apply_preferences dlg app).1.1 = false /\
     refresh_interval (apply_preferences dlg app).1.2 = n * 1000 /\
     theme (apply_preferences dlg app).1.2 = theme_var dlg /\
     error_boxes (apply_preferences dlg app).1.2 = error_boxes app) /\
  (forall z,
     refresh_var dlg = Z_str z ->
     (String.length (refresh_var dlg) <= 640)%nat ->
     refresh_interval (apply_preferences dlg app).1.2 = z * 1000).
Proof.
  split; [|split].
  - intros e H. unfold apply_preferences. rewrite H.
    rewrite (py_int_raises_value_error _ _ H). repeat split.
  - intros n H _. rewrite (apply_preferences_accepted dlg app n H). repeat split.
  - intros z Hz _.
    rewrite (apply_preferences_accepted dlg app z); [reflexivity|].
    rewrite Hz. apply int_of_str_round_trip.
Qed.

Lemma C5_witness :
  (apply_preferences (dialog "abc" Fahrenheit) app2
   = (dialog "abc" Fahrenheit,
      set_error_boxes
        (error_boxes app2
         ++ [("Error", "Please enter a valid refresh interval")])%list app2,
      Ok tt)
   /\ refresh_interval (apply_preferences (dialog "abc" Fahrenheit) app2).1.2
      = refresh_interval app2
   /\ theme (apply_preferences (dialog "abc" Fahrenheit) app2).1.2
      = theme app2) /\
  ((apply_preferences (dialog " ６０ " Fahrenheit) app2).2 = Ok tt /\
   dialog_open (apply_preferences (dialog " ６０ " Fahrenheit) app2).1.1 = false /\
   refresh_interval (apply_preferences (dialog " ６０ " Fahrenheit) app2).1.2
   = 60 * 1000 /\
   theme (apply_preferences (dialog " ６０ " Fahrenheit) app2).1.2 = Alt /\
   error_boxes (apply_preferences (dialog " ６０ " Fahrenheit) app2).1.2
   = error_boxes app2) /\
  refresh_interval (apply_preferences (dialog "-5" Fahrenheit) app2).1.2
  = -5 * 1000.
Proof.
  split; [|split].
  - apply (proj1 (C5_rejected_literal_changes_nothing
                    (dialog "abc" Fahrenheit) app2)
             (ValueError "invalid literal for int() with base 10: 'abc'")).
    vm_compute. reflexivity.
  - apply (proj1 (proj2 (C5_rejected_literal_changes_nothing
                           (dialog " ６０ " Fahrenheit) app2)) 60).
    + vm_compute. reflexivity.
    + vm_compute. lia.
  - apply (proj2 (proj2 (C5_rejected_literal_changes_nothing
                           (dialog "-5" Fahrenheit) app2)) (-5)).
    + reflexivity.
    + vm_compute. lia.
Defined.

(** C6 (as stated) fails: with Fahrenheit chosen and applied, a row of 20
    degrees is shown as 20.0 and not as 68.0. *)
Lemma C6_counterexample :
  ~ spec_shows_fahrenheit env2 (dialog "30" Fahrenheit) app2
      (row "Lima" "Peru" 20).
Proof.
  intros H.
  destruct (H eq_refl (VInt 20) (of_Z 20) eq_refl eq_refl) as [suffix Hs].
  vm_compute in Hs. discriminate Hs.
Qed.

(** C6, amended. The units chosen in the dialog have no effect on what
    applying the preferences does, and after any apply the view update shows
    the temperature, the feels-like value, the heat index and the wind chill
    as the one-decimal text of the row's own values followed by the Celsius
    suffix: no conversion takes place. *)
Theorem C6_temperatures_shown_unconverted
    (env : Env) (dlg : PreferencesDialog) (app app' : WeatherApp) (data : dict) :
  _update_ui_with_data env data (apply_preferences dlg app).1.2 = (app', Ok tt) ->
  (forall u, (apply_preferences (with_units u dlg) app).1.2
             = (apply_preferences dlg app).1.2) /\
  exists t f hi wc,
    (v ← dict_index data "temperature"; fmt_f 1 v) = Ok t /\
    (v ← dict_index data "feels_like"; fmt_f 1 v) = Ok f /\
    fmt_f 1 (dict_get data "heat_index_c" (VInt 0)) = Ok hi /\
    fmt_f 1 (dict_get data "wind_chill_c" (VInt 0)) = Ok wc /\
    labels app' !! "temp_label" = Some (t ++ "°C") /\
    labels app' !! "feels_like_label" = Some (f ++ "°C") /\
    labels app' !! "heat_index_label" = Some ("Heat Index: " ++ hi ++ "°C") /\
    labels app' !! "wind_chill_label" = Some ("Wind Chill: " ++ wc ++ "°C").
Proof.
  intros H. split.
  - intros u. unfold apply_preferences, with_units. simpl.
    destruct (py_int (refresh_var dlg)) as [n|e]; [reflexivity|].
    destruct (is_value_error e); reflexivity.
  - eapply update_ui_ok_temperatures, H.
Qed.

Lemma C6_witness :
  let dlg := dialog "30" Fahrenheit in
  let data := row "Lima" "Peru" 20 in
  let app' := (_update_ui_with_data env2 data (apply_preferences dlg app2).1.2).1 in
  (forall u, (apply_preferences (with_units u dlg) app2).1.2
             = (apply_preferences dlg app2).1.2) /\
  exists t f hi wc,
    (v ← dict_index data "temperature"; fmt_f 1 v) = Ok t /\
    (v ← dict_index data "feels_like"; fmt_f 1 v) = Ok f /\
    fmt_f 1 (dict_get data "heat_index_c" (VInt 0)) = Ok hi /\
    fmt_f 1 (dict_get data "wind_chill_c" (VInt 0)) = Ok wc /\
    labels app' !! "temp_label" = Some (t ++ "°C") /\
    labels app' !! "feels_like_label" = Some (f ++ "°C") /\
    labels app' !! "heat_index_label" = Some ("Heat Index: " ++ hi ++ "°C") /\
    labels app' !! "wind_chill_label" = Some ("Wind Chill: " ++ wc ++ "°C").
Proof.
  intros dlg data app'.
  apply (C6_temperatures_shown_unconverted env2 dlg app2 app' data).
  vm_compute. reflexivity.
Defined.

(* ===================================================================== *)
(** ** Fetch path                                                         *)
(* ===================================================================== *)

(** C7 (as stated) fails: when the store cannot be opened, the thread posts
    the very notification it posts for an empty result. *)
Lemma C7_counterexample :
  ~ spec_failure_distinct env_down /\
  after_queue (load_data_finish env_down 0 "Lima" "Peru" app2)
  = after_queue (load_data_finish env_empty 0 "Lima" "Peru" app2).
Proof.
  split.
  - intros H.
    apply (H "Lima" "Peru" (SqliteError "unable to open database file") 0%nat
             app2 eq_refl).
    vm_compute. reflexivity.
  - vm_compute. reflexivity.
Qed.

(** C7, amended. Whatever the latest-reading query does, the background
    thread ends and posts exactly one callback, so no exception of the fetch
    path goes uncaught.  A [sqlite3.Error] is printed on the console and then
    reported exactly as an empty result is, by the no-data status line; any
    other exception becomes an error box whose text carries the message of
    the exception; a non-empty row becomes a view update. *)
Theorem C7_fetch_outcome_is_one_notification
    (env : Env) (tid : nat) (city country : string) (app : WeatherApp) :
  let app' := load_data_finish env tid city country app in
  let posted :=
    match env_latest env city country with
    | Ok (Some data) =>
        if bool_decide (data = ∅) then no_data_notification
        else CbUpdateUI (bool_decide (is_Some (alerts_manager app))) data
    | Ok None => no_data_notification
    | Raise e =>
        if is_sqlite_error e then no_data_notification
        else CbShowError ("Error loading data: " ++ exn_str e)
    end in
  let printed :=
    match env_latest env city country with
    | Raise e => if is_sqlite_error e then ["Database error: " ++ exn_str e] else []
    | Ok _ => []
    end in
  after_queue app' = (after_queue app ++ [posted])%list
  /\ console app' = (console app ++ printed)%list
  /\ threads app' = <[tid := TDone]> (threads app)
  /\ error_boxes app' = error_boxes app.
Proof.
  unfold load_data_finish, get_current_weather_data, no_data_notification.
  destruct (env_latest env city country) as [[data|]|e]; simpl.
  - destruct (bool_decide (data = ∅)); simpl; repeat split.
  - repeat split.
  - destruct (is_sqlite_error e); simpl; repeat split.
Qed.

(* ===================================================================== *)
(** ** Stale responses                                                    *)
(* ===================================================================== *)



Section AppliedResponses.

Variable env : Env.







End AppliedResponses.



(* ===================================================================== *)
(** ** Auto-refresh                                                       *)
(* ===================================================================== *)

Lemma overlap_outcome :
  option_map in_flight (run_app env2 [EvThreadStart 0; EvThreadStart 1])
  = Some [("Lima", "Peru"); ("Lima", "Peru")].
Proof. vm_compute. reflexivity. Qed.

(** C9 (as stated) fails: right after start-up two threads, one started by
    the initial load and one by the first automatic refresh, query the same
    city at the same time. *)
Lemma C9_counterexample :
  (exists app,
     run_app env2 [EvThreadStart 0; EvThreadStart 1] = Some app /\
     in_flight app = [("Lima", "Peru"); ("Lima", "Peru")]) /\
  ~ spec_no_overlap env2.
Proof.
  pose proof overlap_outcome as E.
  destruct (run_app env2 [EvThreadStart 0; EvThreadStart 1])
    as [app|] eqn:R; [|discriminate E].
  simpl in E. injection E as Hf.
  split.
  - exists app. split; [reflexivity|exact Hf].
  - intros H. specialize (H _ app R). rewrite Hf in H.
    apply NoDup_cons in H as [Hn _]. apply Hn. left.
Qed.

(** C9, amended. The process never has more than one auto-refresh timer
    pending, and as long as every interval applied is one that Tk accepts as a
    delay it has exactly one.  When that timer fires, [start_auto_refresh]
    asks for a refresh and at once arms the one next timer with the current
    interval, before and whatever the outcome of the fetch; the refresh
    starts a thread whenever a city is selected, also while earlier fetches
    are in flight; a refresh asked for in any other way arms no timer. *)
Theorem C9_one_timer_pending
    (env : Env) (evs : list event) (app : WeatherApp) :
  run_app env evs = Some app ->
  (length (timers app) <= 1)%nat /\
  (Forall (accepted_event env) evs ->
   length (timers app) = 1%nat /\
   (exists app',
      step env (EvTimer 0) app = Some app' /\
      timers app' = [refresh_interval app] /\
      (threads app' = threads app \/
       threads app' = (threads app ++ [TStarted])%list)) /\
   timers (refresh_data app) = timers app).
Proof.
  unfold run_app. intros R.
  destruct (started env) as [app0|] eqn:S; [|discriminate R]. simpl in R.
  destruct (started_schedule env app0 S) as [E0 Hok0].
  injection E0 as Et0 Ei0.
  split.
  - eapply run_at_most_one_timer; [exact R|]. rewrite Et0. simpl. lia.
  - intros Ha.
    destruct (run_one_timer env evs app0 app R Ha) as [Hl Hok].
    { rewrite Et0, Ei0. split; [reflexivity|exact Hok0]. }
    split; [exact Hl|]. split.
    + destruct (timers app) as [|d [|d' ts]] eqn:Et; try discriminate Hl.
      exists (report (start_auto_refresh env (set_timers [] app))).
      split; [|split].
      * simpl. rewrite Et. reflexivity.
      * pose proof (start_auto_refresh_schedule env (set_timers [] app)) as E.
        injection E as E _. rewrite E. simpl. rewrite Hok. reflexivity.
      * apply (start_auto_refresh_threads env (set_timers [] app)).
    + pose proof (refresh_data_schedule app) as E. injection E as E _. exact E.
Qed.

Lemma C9_witness :
  let evs := [EvApply (dialog "60" Celsius); EvTimer 0; EvThreadStart 0] in
  let app := default app2 (run_app env2 evs) in
  (length (timers app) <= 1)%nat /\
  length (timers app) = 1%nat /\
  (exists app',
     step env2 (EvTimer 0) app = Some app' /\
     timers app' = [refresh_interval app] /\
     (threads app' = threads app \/
      threads app' = (threads app ++ [TStarted])%list)) /\
  timers (refresh_data app) = timers app.
Proof.
  intros evs app.
  destruct (C9_one_timer_pending env2 evs app) as [Hle Hone].
  - vm_compute. reflexivity.
  - split; [exact Hle|]. apply Hone.
    repeat constructor.
    intros n Hn. vm_compute in Hn. injection Hn as <-. reflexivity.
Defined.

(* ===================================================================== *)
(** ** Further properties of the alert evaluator                          *)
(* ===================================================================== *)

(** A segment from the value compared and the value shown. *)
Lemma segment_value (op : string) (test : pyfloat -> option (pyfloat -> Alert))
    (v : pyval) (x x' : pyfloat) :
  number_of v = Some x -> format_operand v = Ok x' ->
  segment op test v = Ok (match test x with
                          | Some alert => [alert x']
                          | None => []
                          end).
Proof.
  intros Hx Hx'. unfold segment, as_number. rewrite Hx.
  cbn [mbind result_bind rbind]. destruct (test x); [|reflexivity].
  rewrite Hx'. reflexivity.
Qed.

Lemma shown_operand (d : dict) (key : string) (default : Z) (x' : pyfloat) :
  shown d key default = Some x' ->
  format_operand (dict_get d key (VInt default)) = Ok x'.
Proof.
  unfold shown. destruct (format_operand _); [|discriminate].
  intros [= <-]. reflexivity.
Qed.

Lemma Qeq_bool_not_Qltb (a b : Q) :
  Qeq_bool a b = true -> Qltb a b = false /\ Qltb b a = false.
Proof.
  intros H. apply Qeq_bool_iff in H. unfold Qeq in H. unfold Qltb.
  split; apply Z.ltb_ge; lia.
Qed.

(** Equal floats are not below one another. *)
Lemma float_eqb_not_lt (a b : pyfloat) :
  float_eqb a b = true -> lt a b = false /\ lt b a = false.
Proof.
  destruct a as [x| | | |], b as [y| | | |]; simpl; try discriminate;
    try (intros _; split; reflexivity).
  - apply Qeq_bool_not_Qltb.
  - apply Qeq_bool_not_Qltb.
  - intros H. apply Qeq_bool_not_Qltb in H. tauto.
Qed.

(** X1. On a reading whose four fields are numbers that can be formatted,
    the alerts of each type are decided by that type's own comparison, made
    on the exact value of the field, and by nothing else: the
    high-temperature alert when the temperature is above its threshold,
    otherwise the low-temperature alert when it is below the low threshold;
    the wind alert exactly when the wind speed is above its threshold; the
    pressure alert exactly when the pressure is below its threshold; the
    severity alert exactly when the severity is above its threshold.  The
    message of an alert shows the field as a float.  The comparisons are
    strict: a field equal to a threshold gives no alert for that
    threshold. *)
Theorem X1_alerts_decided_per_type
    (self : WeatherAlertsManager) (d : dict) (t w p s t' w' p' s' : pyfloat) :
  field d "temperature" 0 = Some t -> shown d "temperature" 0 = Some t' ->
  field d "wind_speed" 0 = Some w -> shown d "wind_speed" 0 = Some w' ->
  field d "pressure" 1013 = Some p -> shown d "pressure" 1013 = Some p' ->
  field d "weather_severity" 0 = Some s -> shown d "weather_severity" 0 = Some s' ->
  let th := alert_thresholds self in
  exists alerts,
    snd (check_weather_alerts self d) = Ok alerts /\
    alerts_of_type "temperature" alerts =
      (if gt t (high_temperature th) then [high_temperature_alert t']
       else if lt t (low_temperature th) then [low_temperature_alert t']
       else []) /\
    alerts_of_type "wind" alerts =
      (if gt w (high_wind_speed th) then [wind_alert w'] else []) /\
    alerts_of_type "pressure" alerts =
      (if lt p (low_pressure th) then [pressure_alert p'] else []) /\
    alerts_of_type "severity" alerts =
      (if gt s (high_severity th) then [severity_alert s'] else []) /\
    (float_eqb t (high_temperature th) = true ->
     forall a, In a alerts -> a_title a <> "High Temperature Alert") /\
    (float_eqb t (low_temperature th) = true ->
     forall a, In a alerts -> a_title a <> "Low Temperature Alert") /\
    (float_eqb w (high_wind_speed th) = true -> alerts_of_type "wind" alerts = []) /\
    (float_eqb p (low_pressure th) = true -> alerts_of_type "pressure" alerts = []) /\
    (float_eqb s (high_severity th) = true -> alerts_of_type "severity" alerts = []).
Proof.
  intros Ht Ht' Hw Hw' Hp Hp' Hs Hs' th.
  rewrite check_weather_alerts_result. fold th. rewrite evaluate_alerts_parts.
  unfold field in *.
  rewrite (segment_value _ _ _ t t' Ht (shown_operand _ _ _ _ Ht')),
    (segment_value _ _ _ w w' Hw (shown_operand _ _ _ _ Hw')),
    (segment_value _ _ _ p p' Hp (shown_operand _ _ _ _ Hp')),
    (segment_value _ _ _ s s' Hs (shown_operand _ _ _ _ Hs')).
  cbn [mbind result_bind rbind].
  eexists; split; [reflexivity|].
  unfold temperature_test, wind_test, pressure_test, severity_test, alerts_of_type.
  unfold gt.
  repeat split.
  - break_ifs; reflexivity.
  - break_ifs; reflexivity.
  - break_ifs; reflexivity.
  - break_ifs; reflexivity.
  - intros E a. apply float_eqb_not_lt in E as [_ ->].
    break_ifs; simpl; intros Hin;
      repeat (destruct Hin as [<-|Hin]; [discriminate|]); destruct Hin.
  - intros E a. apply float_eqb_not_lt in E as [-> _].
    break_ifs; simpl; intros Hin;
      repeat (destruct Hin as [<-|Hin]; [discriminate|]); destruct Hin.
  - intros E. apply float_eqb_not_lt in E as [_ ->]. break_ifs; reflexivity.
  - intros E. apply float_eqb_not_lt in E as [-> _]. break_ifs; reflexivity.
  - intros E. apply float_eqb_not_lt in E as [_ ->]. break_ifs; reflexivity.
Qed.

Lemma X1_witness :
  let th := alert_thresholds new_manager in
  let w := Fin (31 # 2) in
  exists alerts,
    snd (check_weather_alerts new_manager gusty_reading) = Ok alerts /\
    alerts_of_type "temperature" alerts =
      (if gt (of_Z 20) (high_temperature th) then [high_temperature_alert (of_Z 20)]
       else if lt (of_Z 20) (low_temperature th) then [low_temperature_alert (of_Z 20)]
       else []) /\
    alerts_of_type "wind" alerts =
      (if gt w (high_wind_speed th) then [wind_alert w] else []) /\
    alerts_of_type "pressure" alerts =
      (if lt (of_Z 1013) (low_pressure th) then [pressure_alert (of_Z 1013)] else []) /\
    alerts_of_type "severity" alerts =
      (if gt (of_Z 0) (high_severity th) then [severity_alert (of_Z 0)] else []) /\
    (float_eqb (of_Z 20) (high_temperature th) = true ->
     forall a, In a alerts -> a_title a <> "High Temperature Alert") /\
    (float_eqb (of_Z 20) (low_temperature th) = true ->
     forall a, In a alerts -> a_title a <> "Low Temperature Alert") /\
    (float_eqb w (high_wind_speed th) = true -> alerts_of_type "wind" alerts = []) /\
    (float_eqb (of_Z 1013) (low_pressure th) = true ->
     alerts_of_type "pressure" alerts = []) /\
    (float_eqb (of_Z 0) (high_severity th) = true ->
     alerts_of_type "severity" alerts = []).
Proof.
  intros th w.
  apply (X1_alerts_decided_per_type new_manager gusty_reading
           (of_Z 20) w (of_Z 1013) (of_Z 0) (of_Z 20) w (of_Z 1013) (of_Z 0));
    vm_compute; reflexivity.
Defined.

(** X2. Whatever the thresholds, also inconsistent ones with the low
    temperature threshold above the high one, the evaluator never returns
    more than four alerts nor two of one type, and the types come in the
    order temperature, wind, pressure, severity. *)
Theorem X2_alert_types_in_check_order
    (self : WeatherAlertsManager) (d : dict) (alerts : list Alert) :
  snd (check_weather_alerts self d) = Ok alerts ->
  sublist (map a_type alerts) alert_type_order /\
  (length alerts <= 4)%nat /\
  NoDup (map a_type alerts).
Proof.
  rewrite check_weather_alerts_result. intros H.
  apply evaluate_alerts_ok in H as (a & b & c & e & -> & Ha & Hb & Hc & He).
  pose proof (segment_types _ _ _ _ _ _ Ha Hb Hc He) as T.
  match goal with
  | |- sublist (map a_type ?l) _ /\ _ => set (alerts := l)
  end.
  assert (S : sublist (map a_type alerts) alert_type_order).
  { subst alerts. unfold alert_type_order.
    segment_cases T; simpl;
      repeat first [apply sublist_nil | apply sublist_skip | apply sublist_cons]. }
  split; [exact S|]. split.
  - apply sublist_length in S. rewrite length_map in S. exact S.
  - apply (sublist_NoDup _ alert_type_order); [|exact S].
    apply (bool_decide_unpack _). vm_compute. exact I.
Qed.

Lemma X2_witness :
  sublist (map a_type [wind_alert (Fin (31 # 2))]) alert_type_order /\
  (length [wind_alert (Fin (31 # 2))] <= 4)%nat /\
  NoDup (map a_type [wind_alert (Fin (31 # 2))]).
Proof.
  apply (X2_alert_types_in_check_order new_manager gusty_reading).
  vm_compute. reflexivity.
Defined.

(** X3. A reading in which one of the four evaluated fields is present but is
    not a number (the SQL null, a text) makes the check raise; no alert is
    returned and the manager keeps its previous active alerts and opens no
    window, even when another field is far beyond its threshold.  The
    exception is the [TypeError] of the comparison, unless a field checked
    before it is an int beyond the floats that triggers an alert, whose
    message then fails to format with [OverflowError]; with every int within
    float range, as the integers of the store are, it is the [TypeError]. *)
Theorem X3_non_numeric_field_raises
    (self : WeatherAlertsManager) (d : dict) (key : string) (v : pyval) :
  In key alert_type_fields ->
  d !! key = Some v ->
  is_number v = false ->
  exists e,
    check_weather_alerts self d = (self, Raise e) /\
    (is_type_error e = true \/ is_overflow_error e = true) /\
    ((forall key' z, In key' alert_type_fields -> d !! key' = Some (VInt z) ->
                     float_of_int z <> None) ->
     exists msg, e = TypeError msg).
Proof.
  intros Hk Hv Hnum.
  destruct (evaluate_alerts (alert_thresholds self) d) as [alerts|e] eqn:E.
  - exfalso.
    apply evaluate_alerts_ok in E as (a & b & c & e & _ & Ha & Hb & Hc & He).
    assert (Hbad : forall op test default l,
              segment op test (dict_get d key (VInt default)) <> Ok l).
    { intros op test default l Hl.
      destruct (segment_non_number op test (dict_get d key (VInt default)))
        as [msg Hm]; [unfold dict_get; rewrite Hv; exact Hnum|].
      rewrite Hm in Hl. discriminate Hl. }
    unfold alert_type_fields in Hk. simpl in Hk.
    destruct Hk as [<-|[<-|[<-|[<-|[]]]]]; eapply Hbad; eassumption.
  - exists e. split; [|split].
    + apply check_weather_alerts_raise. rewrite check_weather_alerts_result. exact E.
    + apply evaluate_alerts_raise in E as [[He _]|[He _]]; auto.
    + intros Hr. apply evaluate_alerts_raise in E as [[He _]|[_ (k & z & Hk' & Hz & Hf)]].
      * destruct e; try discriminate He. eauto.
      * exfalso. exact (Hr k z Hk' Hz Hf).
Qed.

Lemma X3_witness :
  exists e,
    check_weather_alerts new_manager null_pressure_reading = (new_manager, Raise e) /\
    (is_type_error e = true \/ is_overflow_error e = true) /\
    ((forall key' z, In key' alert_type_fields ->
                     null_pressure_reading !! key' = Some (VInt z) ->
                     float_of_int z <> None) ->
     exists msg, e = TypeError msg).
Proof.
  apply (X3_non_numeric_field_raises new_manager null_pressure_reading
           "pressure" VNone).
  - simpl. tauto.
  - vm_compute. reflexivity.
  - reflexivity.
Defined.

(** X4. A check that returns replaces the active alerts by the list returned,
    which does not depend on the alerts that were active before; it opens one
    more window, with one frame per alert carrying the alert's message,
    exactly when the list is not empty, so two checks of the same alarming
    reading open two windows. *)
Theorem X4_check_replaces_active_alerts
    (self : WeatherAlertsManager) (d : dict) (alerts : list Alert) :
  snd (check_weather_alerts self d) = Ok alerts ->
  let self' := fst (check_weather_alerts self d) in
  active_alerts self' = alerts /\
  alert_thresholds self' = alert_thresholds self /\
  (forall previous windows,
     snd (check_weather_alerts
            {| alert_thresholds := alert_thresholds self;
               active_alerts := previous; alert_windows := windows |} d)
     = Ok alerts) /\
  (alerts = [] -> alert_windows self' = alert_windows self) /\
  (alerts <> [] ->
   exists frames,
     alert_windows self' = (alert_windows self ++ [frames])%list /\
     map af_message frames = map a_message alerts /\
     snd (check_weather_alerts self' d) = Ok alerts /\
     length (alert_windows (fst (check_weather_alerts self' d)))
     = (length (alert_windows self) + 2)%nat).
Proof.
  intros H self'. subst self'.
  rewrite check_weather_alerts_result in H.
  assert (Hstep : forall m,
            alert_thresholds m = alert_thresholds self ->
            check_weather_alerts m d =
            (match alerts with
             | [] => {| alert_thresholds := alert_thresholds m;
                        active_alerts := alerts;
                        alert_windows := alert_windows m |}
             | _ => display_alerts
                      {| alert_thresholds := alert_thresholds m;
                         active_alerts := alerts;
                         alert_windows := alert_windows m |}
             end, Ok alerts)).
  { intros m Hm. unfold check_weather_alerts. rewrite Hm, H.
    destruct alerts; reflexivity. }
  rewrite (Hstep self eq_refl).
  destruct alerts as [|a rest].
  - simpl. repeat split; try congruence.
    intros previous windows. rewrite check_weather_alerts_result. exact H.
  - simpl. repeat split; try discriminate.
    + intros previous windows. rewrite check_weather_alerts_result. exact H.
    + intros _. eexists. split; [reflexivity|]. split.
      * simpl. f_equal. rewrite map_map. reflexivity.
      * split.
        -- rewrite check_weather_alerts_result. exact H.
        -- rewrite Hstep by reflexivity. unfold display_alerts. simpl.
           rewrite !length_app. simpl. lia.
Qed.

Lemma X4_witness :
  let self' := fst (check_weather_alerts new_manager gusty_reading) in
  let alerts := [wind_alert (Fin (31 # 2))] in
  active_alerts self' = alerts /\
  alert_thresholds self' = alert_thresholds new_manager /\
  (forall previous windows,
     snd (check_weather_alerts
            {| alert_thresholds := alert_thresholds new_manager;
               active_alerts := previous; alert_windows := windows |}
            gusty_reading)
     = Ok alerts) /\
  (alerts = [] -> alert_windows self' = alert_windows new_manager) /\
  (alerts <> [] ->
   exists frames,
     alert_windows self' = (alert_windows new_manager ++ [frames])%list /\
     map af_message frames = map a_message alerts /\
     snd (check_weather_alerts self' gusty_reading) = Ok alerts /\
     length (alert_windows (fst (check_weather_alerts self' gusty_reading)))
     = (length (alert_windows new_manager) + 2)%nat).
Proof.
  apply (X4_check_replaces_active_alerts new_manager gusty_reading
           [wind_alert (Fin (31 # 2))]).
  vm_compute. reflexivity.
Defined.

(* ===================================================================== *)
(** ** Further properties of the city selector                            *)
(* ===================================================================== *)

Lemma prefix_empty (s : string) : String.prefix EmptyString s = true.
Proof. destruct s; reflexivity. Qed.

Lemma prefix_space_app (r rest : string) :
  String.prefix " " r = false ->
  String.prefix " " (r ++ String "," rest) = false.
Proof.
  destruct r as [|c2 r2]; [reflexivity|].
  change (String c2 r2 ++ String "," rest) with (String c2 (r2 ++ String "," rest)).
  cbn [String.prefix]. destruct (ascii_dec " " c2); [|reflexivity].
  rewrite prefix_empty. discriminate.
Qed.

Lemma prefix_separator_app (c : ascii) (r rest : string) :
  String.prefix ", " (String c r) = false ->
  String.prefix ", " (String c (r ++ String "," rest)) = false.
Proof.
  cbn [String.prefix]. destruct (ascii_dec "," c); [|reflexivity].
  apply prefix_space_app.
Qed.

(** Splitting the selector of a pair at the first separator gives the pair
    back when the city holds no separator. *)
Lemma spec_split_first_make_selector (city country : string) :
  contains ", " city = false ->
  spec_split_first ", " (make_selector city country) = (city, country).
Proof.
  unfold make_selector. induction city as [|c r IH]; intros H.
  - change (spec_split_first ", " (String "," (String " " country))
            = (EmptyString, country)).
    cbn [spec_split_first String.prefix].
    destruct (ascii_dec "," ","); [|congruence].
    destruct (ascii_dec " " " "); [|congruence].
    rewrite prefix_empty. reflexivity.
  - cbn [contains] in H. apply orb_false_elim in H as [Hp Hc].
    change (String c r ++ ", " ++ country)
      with (String c (r ++ String "," (String " " country))).
    cbn [spec_split_first].
    rewrite (prefix_separator_app c r _ Hp).
    change (r ++ String "," (String " " country)) with (r ++ ", " ++ country).
    rewrite (IH Hc). reflexivity.
Qed.

Lemma spec_split_first_city_clean (s : string) :
  contains ", " (spec_split_first ", " s).1 = false.
Proof.
  induction s as [|c r IH]; [reflexivity|].
  cbn [spec_split_first].
  destruct (String.prefix ", " (String c r)) eqn:Ep; [reflexivity|].
  destruct (spec_split_first ", " r) as [a b] eqn:Er.
  cbn [fst] in *. cbn [contains]. rewrite IH, orb_false_r.
  cbn [String.prefix] in Ep |- *.
  destruct (ascii_dec "," c); [|reflexivity].
  destruct r as [|c2 r2].
  - cbn in Er. injection Er as <- _. reflexivity.
  - cbn [String.prefix] in Ep.
    destruct (ascii_dec " " c2) as [|Hc2];
      [rewrite prefix_empty in Ep; discriminate Ep|].
    cbn [spec_split_first] in Er.
    destruct (String.prefix ", " (String c2 r2)).
    + injection Er as <- _. reflexivity.
    + destruct (spec_split_first ", " r2) as [a2 b2]. injection Er as <- _.
      cbn [String.prefix]. destruct (ascii_dec " " c2); [contradiction|reflexivity].
Qed.

(** X5. The selector round trip: for a city and a country that hold no
    separator, parsing the selector built from them gives the pair back, and
    a background thread that reads this selector queries exactly this pair. *)
Theorem X5_selector_round_trip
    (city country : string) (tid : nat) (app : WeatherApp) :
  contains ", " city = false ->
  contains ", " country = false ->
  parse_city (make_selector city country) = (city, country) /\
  (current_city app = Some (make_selector city country) ->
   threads (load_data_begin tid app)
   = <[tid := TFetching city country]> (threads app)).
Proof.
  intros Hc Hk.
  assert (E : parse_city (make_selector city country) = (city, country)).
  { rewrite parse_city_agrees_when_single_separator;
      rewrite spec_split_first_make_selector by exact Hc; [reflexivity|exact Hk]. }
  split; [exact E|].
  intros Hs. unfold load_data_begin. rewrite Hs, E. reflexivity.
Qed.

Lemma X5_witness :
  parse_city (make_selector "Lima" "Peru") = ("Lima", "Peru") /\
  (current_city app2 = Some (make_selector "Lima" "Peru") ->
   threads (load_data_begin 0 app2)
   = <[0%nat := TFetching "Lima" "Peru"]> (threads app2)).
Proof.
  apply (X5_selector_round_trip "Lima" "Peru" 0 app2); reflexivity.
Defined.

(** X6. Whatever the selector, the split gives at least one part, so taking
    the first part never fails, and neither the city nor the country that the
    code recovers holds a separator. *)
Theorem X6_parsed_parts_hold_no_separator (selector : string) :
  split ", " selector <> [] /\
  contains ", " (parse_city selector).1 = false /\
  contains ", " (parse_city selector).2 = false.
Proof.
  split.
  - rewrite (split_first_then_rest "," " " selector).
    destruct (spec_split_first ", " selector) as [a b].
    destruct (contains ", " selector); discriminate.
  - pose proof (parse_city_characterised selector) as C.
    pose proof (spec_split_first_city_clean selector) as H1.
    destruct (spec_split_first ", " selector) as [city remainder].
    rewrite C. simpl in *. split; [exact H1|].
    apply spec_split_first_city_clean.
Qed.

(* ===================================================================== *)
(** ** Further properties of the preferences dialog                       *)
(* ===================================================================== *)

(** X7. Reading back what was written: for every integer, [int] of the text
    that [str] gives for it is that integer, so the interval text the dialog
    shows is always accepted. *)
Theorem X7_int_of_str (z : Z) :
  py_int (Z_str z) = Ok z /\
  (forall app, py_int (refresh_var (open_preferences app))
               = Ok (refresh_interval app / 1000)).
Proof.
  split; [apply int_of_str_round_trip|].
  intros app. apply int_of_str_round_trip.
Qed.

(** X8. Opening the preferences dialog and pressing Apply without touching
    it is accepted and reports nothing; it rounds the interval down to whole
    seconds, leaving an interval of whole seconds as it is, and it sets the
    theme to clam whatever theme was in use, because the dialog starts from
    clam and not from the current theme.  A second open and apply changes
    nothing. *)
Theorem X8_untouched_dialog_apply (app : WeatherApp) :
  let outcome := apply_preferences (open_preferences app) app in
  let app' := outcome.1.2 in
  outcome.2 = Ok tt /\
  dialog_open outcome.1.1 = false /\
  refresh_interval app' = refresh_interval app / 1000 * 1000 /\
  (refresh_interval app mod 1000 = 0 -> refresh_interval app' = refresh_interval app) /\
  theme app' = Clam /\
  error_boxes app' = error_boxes app /\
  (apply_preferences (open_preferences app') app').1.2 = app'.
Proof.
  assert (E : forall a,
            apply_preferences (open_preferences a) a
            = ({| refresh_var := Z_str (refresh_interval a / 1000);
                  temp_units_var := Celsius; theme_var := Clam;
                  dialog_open := false |},
               set_theme Clam
                 (set_refresh_interval (refresh_interval a / 1000 * 1000) a),
               Ok tt)).
  { intros a. unfold apply_preferences, open_preferences. cbn [refresh_var].
    rewrite int_of_str_round_trip. reflexivity. }
  cbn zeta. rewrite E. cbn [fst snd]. repeat split.
  - intros Hm. cbn [refresh_interval set_theme set_refresh_interval].
    pose proof (Z.div_mod (refresh_interval app) 1000). lia.
  - rewrite E. cbn [fst snd refresh_interval set_theme set_refresh_interval].
    replace (refresh_interval app / 1000 * 1000 / 1000 * 1000)
      with (refresh_interval app / 1000 * 1000)
      by (rewrite Z.div_mul by lia; reflexivity).
    destruct app; reflexivity.
Qed.

(* ===================================================================== *)
(** ** Further properties of the view update                              *)
(* ===================================================================== *)

(** A float, or an int within float range, is formatted and compared
    without an exception. *)
Lemma number_formats (v : pyval) :
  in_float_range v = true ->
  exists x x',
    number_of v = Some x /\
    (forall prec, fmt_f prec v = Ok (format_f prec x')) /\
    (forall op other, as_number op other v = Ok x).
Proof.
  intros H. destruct (in_float_range_operand v H) as [x' Hx'].
  destruct v; try discriminate H; eexists; exists x';
    (split; [reflexivity|]); (split; [|reflexivity]);
    intros prec; unfold fmt_f; rewrite Hx'; reflexivity.
Qed.

(** The chart redraws change nothing of the view. *)
Lemma charts_view (env : Env) (app : WeatherApp) :
  let app' := update_historical_chart env (update_trends_chart env app) in
  current_data app' = current_data app /\ labels app' = labels app /\
  comfort_bar app' = comfort_bar app /\ temp_style app' = temp_style app /\
  alerts_manager app' = alerts_manager app.
Proof.
  apply (charts_keep env
           (fun a => current_data a = current_data app /\ labels a = labels app /\
                     comfort_bar a = comfort_bar app /\ temp_style a = temp_style app /\
                     alerts_manager a = alerts_manager app)).
  - intros v a H. exact H.
  - repeat split.
Qed.

(** A complete row is shown: the update returns, the row is current, the
    status line says so, and only widgets and the row have changed. *)
Lemma complete_row_update (env : Env) (data : dict) (app : WeatherApp) :
  complete_row data = true ->
  exists app',
    _update_ui_with_data env data app = (app', Ok tt) /\
    current_data app' = Some data /\
    labels app' !! "status_label" = Some "Data updated successfully" /\
    (threads app' = threads app /\
     after_queue app' = after_queue app /\
     current_city app' = current_city app /\
     timers app' = timers app).
Proof.
  intros Hrow.
  destruct (_update_ui_with_data env data app) as [app' r] eqn:E.
  assert (Hok : r = Ok tt /\
                labels app' !! "status_label" = Some "Data updated successfully").
  { revert E. unfold complete_row in Hrow. rewrite !andb_true_iff in Hrow.
    destruct Hrow as ((((((((((H1 & H2) & H3) & H4) & H5) & H6) & H7) & H8) & H9)
                        & H10) & H11).
    unfold has_number, has_text, has_key, number_if_present in *.
    unfold _update_ui_with_data, dict_index, dict_get.
    destruct (data !! "temperature") as [v1|]; [|discriminate].
    destruct (data !! "weather_description") as [[| |desc|]|]; try discriminate.
    destruct (data !! "feels_like") as [v3|]; [|discriminate].
    destruct (data !! "humidity") as [v4|]; [|discriminate].
    destruct (data !! "pressure") as [v5|]; [|discriminate].
    destruct (data !! "wind_speed") as [v6|]; [|discriminate].
    destruct (data !! "timestamp") as [v7|]; [|discriminate].
    assert (Hopt : forall o : option pyval,
              match o with Some v => in_float_range v | None => true end = true ->
              in_float_range (match o with Some v => v | None => VInt 0 end) = true).
    { intros [v|] Hv; [exact Hv|reflexivity]. }
    apply Hopt in H7, H8, H9, H10.
    destruct (number_formats v1 H1) as (t & t' & Nt & Ft & At).
    destruct (number_formats v3 H3) as (f & f' & _ & Ff & _).
    destruct (number_formats v5 H5) as (p & p' & _ & Fp & _).
    destruct (number_formats v6 H6) as (w & w' & _ & Fw & _).
    destruct (number_formats _ H7) as (c & c' & _ & Fc & _).
    destruct (number_formats _ H8) as (hi & hi' & _ & Fhi & _).
    destruct (number_formats _ H9) as (wc & wc' & _ & Fwc & _).
    destruct (number_formats _ H10) as (sv & sv' & _ & Fsv & _).
    cbn [mbind result_bind rbind str_title].
    rewrite Ft, Ff, Fp, Fw, Fc, Fhi, Fwc, Fsv, At.
    intros [= <- <-]. split; [reflexivity|]. cbn. apply lookup_insert_eq. }
  destruct Hok as [-> Hs].
  exists app'. split; [reflexivity|].
  pose proof (update_ui_current_data env data app) as Hd. rewrite E in Hd.
  split; [exact Hd|]. split; [exact Hs|].
  pose proof (update_ui_preserves env
                (fun a => threads a = threads app /\ after_queue a = after_queue app /\
                          current_city a = current_city app /\ timers a = timers app)
                data) as P.
  specialize (P ltac:(constructor; intros ? ? (? & ? & ? & ?); repeat split; assumption)
                ltac:(intros ? ? (? & ? & ? & ?); repeat split; assumption)
                ltac:(intros ? (? & ? & ? & ?); repeat split; assumption)
                app ltac:(repeat split)).
  rewrite E in P. exact P.
Qed.

Ltac chart_steps :=
  try (apply update_trends_chart_keeps; [intros ? ? ?|]);
  try (apply update_historical_chart_keeps; [intros ? ? ?|]).

(** A state whose description is of no further use is replaced by a name. *)
Ltac forget_state H :=
  match type of H with
  | ?m (?f ?a) = _ => revert H; generalize (f a); intros ? H
  end.

Ltac pass_lift H :=
  first
    [ rewrite lift_Ok_bind in H; cbv beta zeta in H
    | match type of H with
      | (lift ?r ≫= _) _ = _ =>
          let E := fresh "E" in
          destruct r eqn:E;
          [ rewrite lift_Ok_bind in H; cbv beta zeta in H
          | rewrite lift_Raise_bind in H; discriminate H ]
      end ].

(** The label written by the step at the head of [H] is still there at the
    end, when no later step writes it. *)
Ltac label_kept H P :=
  rewrite modify_then in H;
  match type of H with
  | ?rest (config_text ?L ?T ?a0) = _ =>
      assert (P : preserves (fun x => labels x !! L = Some T) rest)
        by (preserves_steps; chart_steps; unfold update_status, config_text; simpl;
            try assumption; rewrite lookup_insert_ne by done; assumption);
      specialize (P (config_text L T a0) ltac:(apply lookup_insert_eq));
      rewrite H in P; cbn [fst] in P
  end;
  forget_state H.

Ltac pass_modify H := rewrite modify_then in H; forget_state H.

(** When the update returns, the comfort bar holds the comfort index and
    the temperature label has the style of the row's temperature. *)
Lemma update_ui_ok_style (env : Env) (data : dict) (app app' : WeatherApp) :
  _update_ui_with_data env data app = (app', Ok tt) ->
  exists temp,
    field data "temperature" 0 = Some temp /\
    comfort_bar app' = Some (dict_get data "comfort_index" (VInt 0)) /\
    temp_style app' = style_of temp.
Proof.
  intros H. unfold _update_ui_with_data in H.
  do 6 (pass_modify H; pass_lift H).
  pass_modify H. cbv zeta in H. pass_lift H. pass_modify H.
  rewrite modify_then in H.
  assert (Hc : comfort_bar app' = Some (dict_get data "comfort_index" (VInt 0))).
  { match type of H with
    | ?rest ?a0 = _ =>
        assert (P : preserves
                      (fun x => comfort_bar x = Some (dict_get data "comfort_index" (VInt 0)))
                      rest)
          by (preserves_steps; chart_steps;
              unfold update_status, config_text; simpl; assumption);
        specialize (P a0 eq_refl); rewrite H in P; exact P
    end. }
  forget_state H.
  do 4 (pass_lift H; pass_modify H).
  pass_modify H. pass_lift H.
  rewrite modify_then in H.
  match goal with
  | E : (v ← dict_index data "temperature"; as_number ">" "int" v) = Ok ?x |- _ =>
      exists x; split;
      [ revert E; unfold dict_index, field, dict_get, as_number;
        destruct (data !! "temperature") as [v|]; [|discriminate];
        cbn [mbind result_bind rbind];
        destruct (number_of v); [|discriminate]; intros [= <-]; reflexivity |]
  end.
  split; [exact Hc|].
  match type of H with
  | ?rest ?a0 = _ =>
      match goal with
      | |- _ = ?s =>
          assert (P : preserves (fun x => temp_style x = s) rest)
            by (preserves_steps; chart_steps;
                unfold update_status, config_text; simpl; assumption);
          specialize (P a0 eq_refl); rewrite H in P; exact P
      end
  end.
Qed.

(** X9. A complete row is shown without an exception: the update returns,
    the row becomes the current data, the status line reads that the data
    were updated, the comfort bar holds the comfort index (0 when the column
    is absent), and the temperature label gets the hot style above 30, the
    cold style below 10 and the normal style otherwise, 30 and 10
    themselves being normal. *)
Theorem X9_complete_row_is_shown
    (env : Env) (data : dict) (app : WeatherApp) :
  complete_row data = true ->
  exists app' temp,
    _update_ui_with_data env data app = (app', Ok tt) /\
    field data "temperature" 0 = Some temp /\
    current_data app' = Some data /\
    labels app' !! "status_label" = Some "Data updated successfully" /\
    comfort_bar app' = Some (dict_get data "comfort_index" (VInt 0)) /\
    temp_style app' = style_of temp /\
    style_of (of_Z 30) = "Normal.TLabel" /\
    style_of (of_Z 10) = "Normal.TLabel".
Proof.
  intros H.
  destruct (complete_row_update env data app H) as (app' & E & Hd & Hs & _).
  destruct (update_ui_ok_style env data app app' E) as (temp & Ht & Hc & Hst).
  exists app', temp. repeat split; try assumption; vm_compute; reflexivity.
Qed.

Lemma X9_witness :
  exists app' temp,
    _update_ui_with_data env2 (row "Lima" "Peru" 20) app2 = (app', Ok tt) /\
    field (row "Lima" "Peru" 20) "temperature" 0 = Some temp /\
    current_data app' = Some (row "Lima" "Peru" 20) /\
    labels app' !! "status_label" = Some "Data updated successfully" /\
    comfort_bar app' = Some (dict_get (row "Lima" "Peru" 20) "comfort_index" (VInt 0)) /\
    temp_style app' = style_of temp /\
    style_of (of_Z 30) = "Normal.TLabel" /\
    style_of (of_Z 10) = "Normal.TLabel".
Proof.
  apply (X9_complete_row_is_shown env2 (row "Lima" "Peru" 20) app2).
  vm_compute. reflexivity.
Defined.

(** X10. A row without a temperature column raises [KeyError] before any
    label is written, but after the row has been made the current data: the
    main loop reports the exception and goes on with every label, the status
    line included, as it was and with [current_data] replaced. *)
Theorem X10_missing_temperature_half_update
    (env : Env) (data : dict) (app : WeatherApp) :
  data !! "temperature" = None ->
  _update_ui_with_data env data app
  = (set_current_data (Some data) app, Raise (KeyError "temperature")) /\
  let app' := run_callback env (CbUpdateUI false data) app in
  current_data app' = Some data /\
  labels app' = labels app /\
  temp_style app' = temp_style app /\
  console app' = (console app ++ ["Exception in Tkinter callback: 'temperature'"])%list.
Proof.
  intros H.
  assert (E : _update_ui_with_data env data app
              = (set_current_data (Some data) app, Raise (KeyError "temperature"))).
  { unfold _update_ui_with_data, dict_index. rewrite H. reflexivity. }
  split; [exact E|].
  cbn [run_callback]. rewrite E. repeat split.
Qed.

Lemma X10_witness :
  _update_ui_with_data env2 row_without_temperature app2
  = (set_current_data (Some row_without_temperature) app2,
     Raise (KeyError "temperature")) /\
  let app' := run_callback env2 (CbUpdateUI false row_without_temperature) app2 in
  current_data app' = Some row_without_temperature /\
  labels app' = labels app2 /\
  temp_style app' = temp_style app2 /\
  console app' = (console app2 ++ ["Exception in Tkinter callback: 'temperature'"])%list.
Proof.
  apply (X10_missing_temperature_half_update env2 row_without_temperature app2).
  vm_compute. reflexivity.
Defined.

(** X11. The derived columns are optional: when the update returns for a row
    that has no comfort index, heat index, wind chill or severity column,
    each of them is shown as zero, in its own format, and the comfort bar is
    set to 0. *)
Theorem X11_absent_derived_columns_show_zero
    (env : Env) (data : dict) (app app' : WeatherApp) :
  _update_ui_with_data env data app = (app', Ok tt) ->
  data !! "comfort_index" = None ->
  data !! "heat_index_c" = None ->
  data !! "wind_chill_c" = None ->
  data !! "weather_severity" = None ->
  labels app' !! "comfort_label" = Some "0/100" /\
  comfort_bar app' = Some (VInt 0) /\
  labels app' !! "heat_index_label" = Some "Heat Index: 0.0°C" /\
  labels app' !! "wind_chill_label" = Some "Wind Chill: 0.0°C" /\
  labels app' !! "severity_label" = Some "Weather Severity: 0/100".
Proof.
  intros H Hc Hh Hw Hs.
  destruct (update_ui_ok_style env data app app' H) as (temp & _ & Hbar & _).
  unfold dict_get in Hbar. rewrite Hc in Hbar.
  unfold _update_ui_with_data, dict_get in H.
  rewrite Hc, Hh, Hw, Hs in H.
  change (fmt_f 0 (VInt 0)) with (@Ok string "0") in H.
  change (fmt_f 1 (VInt 0)) with (@Ok string "0.0") in H.
  do 6 (pass_modify H; pass_lift H).
  pass_modify H. cbv zeta in H. pass_lift H.
  label_kept H P1. pass_modify H. pass_lift H.
  label_kept H P2. pass_lift H.
  label_kept H P3. pass_lift H.
  label_kept H P4.
  repeat split; assumption.
Qed.

Lemma X11_witness :
  let app' := (_update_ui_with_data env2 (row "Lima" "Peru" 20) app2).1 in
  labels app' !! "comfort_label" = Some "0/100" /\
  comfort_bar app' = Some (VInt 0) /\
  labels app' !! "heat_index_label" = Some "Heat Index: 0.0°C" /\
  labels app' !! "wind_chill_label" = Some "Wind Chill: 0.0°C" /\
  labels app' !! "severity_label" = Some "Weather Severity: 0/100".
Proof.
  intros app'.
  apply (X11_absent_derived_columns_show_zero env2 (row "Lima" "Peru" 20) app2 app');
    vm_compute; reflexivity.
Defined.

(** When the update returns, the status line says that the data were
    updated. *)
Lemma update_ui_ok_status (env : Env) (data : dict) (app app' : WeatherApp) :
  _update_ui_with_data env data app = (app', Ok tt) ->
  labels app' !! "status_label" = Some "Data updated successfully".
Proof.
  intros H. unfold _update_ui_with_data in H. cbv zeta in H.
  repeat first [pass_modify H | pass_lift H].
  unfold modify in H. injection H as <-. apply lookup_insert_eq.
Qed.

(** X12. With the alert manager installed, an update that returns is
    followed by the alert check on the same row: the manager's active alerts
    become the alerts of this row, and the status line reports their number
    when there are any, replacing the message that the data were updated,
    which stays when there are none.  No other label is touched by the
    check. *)
Theorem X12_enhanced_update_reports_alerts
    (env : Env) (data : dict) (app app1 : WeatherApp)
    (m : WeatherAlertsManager) (alerts : list Alert) :
  alerts_manager app = Some m ->
  _update_ui_with_data env data app = (app1, Ok tt) ->
  evaluate_alerts (alert_thresholds m) data = Ok alerts ->
  exists app2 m',
    enhanced_update env data app = (app2, Ok tt) /\
    alerts_manager app2 = Some m' /\
    active_alerts m' = alerts /\
    labels app2 !! "status_label" =
      Some (match alerts with
            | [] => "Data updated successfully"
            | _ => "⚠️ " ++ digits (N.of_nat (length alerts))
                   ++ " weather alert(s) active"
            end) /\
    (forall label, label <> "status_label" ->
                   labels app2 !! label = labels app1 !! label) /\
    current_data app2 = Some data.
Proof.
  intros Hm Hu He.
  assert (Hm1 : alerts_manager app1 = Some m).
  { pose proof (update_ui_preserves env (fun a => alerts_manager a = Some m) data) as P.
    specialize (P ltac:(repeat split; intros; assumption)
                  ltac:(intros; assumption)
                  ltac:(intros; assumption) app Hm).
    rewrite Hu in P. exact P. }
  pose proof (update_ui_ok_status env data app app1 Hu) as Hs1.
  assert (Hd1 : current_data app1 = Some data).
  { pose proof (update_ui_current_data env data app) as D. rewrite Hu in D. exact D. }
  unfold enhanced_update, mbind, M_bind. rewrite Hu.
  unfold check_and_report. rewrite Hm1.
  unfold check_weather_alerts. rewrite He.
  destruct alerts as [|a rest].
  - eexists. eexists. split; [reflexivity|]. cbn. repeat split; assumption.
  - eexists. eexists. split; [reflexivity|]. cbn. repeat split.
    + apply lookup_insert_eq.
    + intros label Hl. apply lookup_insert_ne. congruence.
    + assumption.
Qed.

Lemma X12_witness :
  let data := row "Lima" "Peru" 40 in
  let app := enhance_main_app app2 in
  let app1 := (_update_ui_with_data env2 data app).1 in
  exists app' m',
    enhanced_update env2 data app = (app', Ok tt) /\
    alerts_manager app' = Some m' /\
    active_alerts m' = [high_temperature_alert (of_Z 40)] /\
    labels app' !! "status_label" = Some "⚠️ 1 weather alert(s) active" /\
    (forall label, label <> "status_label" ->
                   labels app' !! label = labels app1 !! label) /\
    current_data app' = Some data.
Proof.
  intros data app app1.
  apply (X12_enhanced_update_reports_alerts env2 data app app1 new_manager
           [high_temperature_alert (of_Z 40)]);
    vm_compute; reflexivity.
Defined.

(* ===================================================================== *)
(** ** Further properties of the refresh cycle                            *)
(* ===================================================================== *)

Section RefreshCycle.

Variable env : Env.

(** A refresh with a city selected, the thread it starts, and the callback
    that thread posts: the four steps end in the state in which the main loop
    has run the one callback of the thread. *)
Lemma refresh_cycle_run (app : WeatherApp) (selector : string) :
  current_city app = Some selector ->
  selector <> EmptyString ->
  after_queue app = [] ->
  let tid := length (threads app) in
  let city := (parse_city selector).1 in
  let country := (parse_city selector).2 in
  let fetch := get_current_weather_data env city country in
  let cb :=
    match fetch.2 with
    | Ok current_data =>
        if truthy current_data
        then CbUpdateUI (bool_decide (is_Some (alerts_manager app)))
               (default ∅ current_data)
        else CbUpdateStatus "No data available for selected city"
    | Raise e => CbShowError ("Error loading data: " ++ exn_str e)
    end in
  run env (refresh_cycle tid) app
  = Some (run_callback env cb
            (set_after_queue []
               (set_threads (threads app ++ [TDone])%list
                  (set_console (console app ++ fetch.1)%list
                     (update_status "Refreshing data..." app))))).
Proof.
  intros Hc Hne Hq tid city country fetch cb.
  unfold refresh_cycle. cbn [run step].
  assert (E1 : refresh_data app
               = set_threads (threads app ++ [TStarted])%list
                   (update_status "Refreshing data..." app)).
  { unfold refresh_data. rewrite Hc. destruct selector; [congruence|reflexivity]. }
  rewrite E1. cbn [threads set_threads update_status config_text set_labels].
  rewrite list_lookup_middle by reflexivity.
  unfold load_data_begin.
  cbn [current_city threads set_threads update_status config_text set_labels].
  rewrite Hc. destruct (parse_city selector) as [c k] eqn:Ep.
  cbn [threads set_threads].
  replace (<[tid:=TFetching c k]> (threads app ++ [TStarted])%list)
    with (threads app ++ [TFetching c k])%list
    by (unfold tid; rewrite insert_app_r_alt, Nat.sub_diag by lia; reflexivity).
  rewrite list_lookup_middle by reflexivity.
  unfold load_data_finish.
  subst fetch city country cb. cbn [fst snd].
  destruct (get_current_weather_data env c k) as [out r]. cbn [fst snd].
  cbn [threads set_threads set_console console after_queue alerts_manager
       update_status config_text set_labels].
  replace (<[tid:=TDone]> (threads app ++ [TFetching c k])%list)
    with (threads app ++ [TDone])%list
    by (unfold tid; rewrite insert_app_r_alt, Nat.sub_diag by lia; reflexivity).
  destruct r as [current_data|e]; [destruct (truthy current_data)|];
    unfold post; cbn [after_queue set_threads set_console set_after_queue
                      update_status config_text set_labels];
    rewrite Hq; reflexivity.
Qed.


End RefreshCycle.




(** X14. A refresh that finds nothing to show leaves the view alone.  When
    the query gives no row, or fails with a [sqlite3.Error], the status line
    ends as the no-data message and no error box is opened; when it raises
    anything else, one error box with the message of the exception is opened
    and the status line reads that an error occurred.  In all these cases the
    current data and the labels other than the status line are as before the
    refresh. *)
Theorem X14_refresh_cycle_without_row
    (env : Env) (app : WeatherApp) (selector : string) :
  current_city app = Some selector ->
  selector <> EmptyString ->
  after_queue app = [] ->
  (forall data, env_latest env (parse_city selector).1 (parse_city selector).2
                <> Ok (Some data)) ->
  exists final,
    run env (refresh_cycle (length (threads app))) app = Some final /\
    current_data final = current_data app /\
    (forall label, label <> "status_label" ->
                   labels final !! label = labels app !! label) /\
    match env_latest env (parse_city selector).1 (parse_city selector).2 with
    | Raise e =>
        if is_sqlite_error e
        then labels final !! "status_label"
             = Some "No data available for selected city" /\
             error_boxes final = error_boxes app /\
             console final = (console app ++ [("Database error: " ++ exn_str e)%string])%list
        else labels final !! "status_label" = Some "Error occurred" /\
             error_boxes final
             = (error_boxes app
                ++ [("Error", ("Error loading data: " ++ exn_str e)%string)])%list
    | Ok _ =>
        labels final !! "status_label" = Some "No data available for selected city" /\
        error_boxes final = error_boxes app
    end.
Proof.
  intros Hc Hne Hq Hnone.
  rewrite (refresh_cycle_run env app selector Hc Hne Hq).
  unfold get_current_weather_data.
  destruct (env_latest env (parse_city selector).1 (parse_city selector).2)
    as [[data|]|e].
  - exfalso. apply (Hnone data). reflexivity.
  - cbn. eexists. split; [reflexivity|]. cbn. repeat split.
    + intros label Hl. rewrite !lookup_insert_ne by congruence. reflexivity.
    + apply lookup_insert_eq.
  - destruct (is_sqlite_error e); cbn; (eexists; split; [reflexivity|]); cbn;
      repeat split;
      try (intros label Hl; rewrite !lookup_insert_ne by congruence; reflexivity);
      apply lookup_insert_eq.
Qed.

Lemma X14_witness :
  exists final,
    run env_down (refresh_cycle (length (threads app2))) app2 = Some final /\
    current_data final = current_data app2 /\
    (forall label, label <> "status_label" ->
                   labels final !! label = labels app2 !! label) /\
    labels final !! "status_label" = Some "No data available for selected city" /\
    error_boxes final = error_boxes app2 /\
    console final
    = (console app2 ++ ["Database error: unable to open database file"])%list.
Proof.
  apply (X14_refresh_cycle_without_row env_down app2 "Lima, Peru");
    try (vm_compute; reflexivity); discriminate.
Defined.

(* ===================================================================== *)
(** ** Further invariants of the main loop                                *)
(* ===================================================================== *)

Section Invariants.

Variable env : Env.

Lemma step_nothing_to_show (ev : event) (app app' : WeatherApp) :
  step env ev app = Some app' -> nothing_to_show app -> nothing_to_show app'.
Proof.
  intros H (Hc & Hv & Ht & Hq & Hd & Hl).
  destruct ev as [sel| |i|tid|tid| |dlg|]; simpl in H.
  - rewrite Hv in H. discriminate H.
  - injection H as <-. unfold refresh_data. rewrite Hc. repeat split; assumption.
  - destruct (timers app !! i); [|discriminate]. injection H as <-.
    unfold start_auto_refresh. rewrite modify_then.
    unfold refresh_data, after_start_auto_refresh. cbn [current_city set_timers].
    rewrite Hc. cbn [refresh_interval set_timers].
    destruct (env_after env (refresh_interval app)); repeat split; assumption.
  - rewrite Ht in H. discriminate H.
  - rewrite Ht in H. discriminate H.
  - rewrite Hq in H. discriminate H.
  - injection H as <-. unfold apply_preferences.
    destruct (py_int (refresh_var dlg)) as [n|e];
      [|destruct (is_value_error e)]; repeat split; assumption.
  - injection H as <-. repeat split; assumption.
Qed.

Lemma started_nothing_to_show (app : WeatherApp) :
  listed_cities env = [] -> started env = Some app -> nothing_to_show app.
Proof.
  unfold listed_cities, started, init, load_initial_data, get_available_cities,
    start_auto_refresh, after_start_auto_refresh, try_except, lift, modify,
    mbind, M_bind, mret, M_ret.
  intros Hl.
  destruct (env_cities env) as [[|c cs]|e]; try discriminate Hl; cbn.
  - destruct (env_after env 30000); [|discriminate].
    intros [= <-]. repeat split.
  - destruct (is_sqlite_error e); cbn;
      (destruct (env_after env 30000); [|discriminate]);
      intros [= <-]; repeat split.
Qed.

Lemma run_invariant (P : WeatherApp -> Prop) (evs : list event)
    (app app' : WeatherApp) :
  (forall ev a b, step env ev a = Some b -> P a -> P b) ->
  run env evs app = Some app' -> P app -> P app'.
Proof.
  intros Hstep. revert app. induction evs as [|ev evs IH]; simpl; intros app H HP.
  - injection H as <-. exact HP.
  - destruct (step env ev app) as [a1|] eqn:E; [|discriminate].
    eapply IH; [exact H|]. eapply Hstep; eassumption.
Qed.

(** What a call of [start_auto_refresh] from the main loop does to the
    threads and the callbacks: what the refresh in it does. *)
Lemma start_auto_refresh_frame (P : WeatherApp -> Prop) (app : WeatherApp) :
  (forall v a, P a -> P (set_timers v a)) ->
  (forall v a, P a -> P (set_console v a)) ->
  P (refresh_data app) -> P (report (start_auto_refresh env app)).
Proof.
  intros Ht Hc HP. unfold start_auto_refresh. rewrite modify_then.
  unfold after_start_auto_refresh.
  destruct (env_after env (refresh_interval (refresh_data app))); cbn [report];
    unfold print; auto.
Qed.

(** The city selected is one of the choices, and the choices are the
    selectors the store listed at the start. *)
Lemma step_selection_listed (ev : event) (app app' : WeatherApp) :
  step env ev app = Some app' ->
  city_values app = listed_cities env /\
  (forall c, current_city app = Some c -> c ∈ listed_cities env) ->
  city_values app' = listed_cities env /\
  (forall c, current_city app' = Some c -> c ∈ listed_cities env).
Proof.
  intros H Hinv.
  assert (Hr : forall a,
            (city_values a = listed_cities env /\
             (forall c, current_city a = Some c -> c ∈ listed_cities env)) ->
            city_values (refresh_data a) = listed_cities env /\
            (forall c, current_city (refresh_data a) = Some c -> c ∈ listed_cities env)).
  { intros a Ha. unfold refresh_data.
    destruct (current_city a) as [[|x r]|] eqn:E; cbn; rewrite ?E; exact Ha. }
  destruct ev as [sel| |i|tid|tid| |dlg|]; simpl in H.
  - destruct (bool_decide (sel ∈ city_values app)) eqn:Eb; [|discriminate].
    injection H as <-. apply bool_decide_eq_true in Eb.
    unfold on_city_changed. apply Hr. cbn. destruct Hinv as [Hv _].
    split; [exact Hv|]. intros c [= <-]. rewrite <- Hv. exact Eb.
  - injection H as <-. apply Hr, Hinv.
  - destruct (timers app !! i); [|discriminate]. injection H as <-.
    apply (start_auto_refresh_frame
             (fun a => city_values a = listed_cities env /\
                       (forall c, current_city a = Some c -> c ∈ listed_cities env)));
      [intros; assumption|intros; assumption|].
    apply Hr. exact Hinv.
  - destruct (threads app !! tid) as [[]|]; try discriminate. injection H as <-.
    unfold load_data_begin. destruct (current_city app) as [s|] eqn:E.
    + destruct (parse_city s). cbn. rewrite E. exact Hinv.
    + cbn. rewrite E. exact Hinv.
  - destruct (threads app !! tid) as [[]|]; try discriminate. injection H as <-.
    unfold load_data_finish.
    destruct (get_current_weather_data env city country) as [out [d|e]];
      [destruct (truthy d)|]; exact Hinv.
  - destruct (after_queue app) as [|cb rest]; [discriminate|]. injection H as <-.
    apply (run_callback_preserves env
             (fun a => city_values a = listed_cities env /\
                       (forall c, current_city a = Some c -> c ∈ listed_cities env))).
    + constructor; [constructor|..]; intros v a [? ?]; split; assumption.
    + exact Hinv.
  - injection H as <-. unfold apply_preferences.
    destruct (py_int (refresh_var dlg)) as [n|e];
      [|destruct (is_value_error e)]; exact Hinv.
  - injection H as <-. exact Hinv.
Qed.

Lemma started_selection_listed (app : WeatherApp) :
  started env = Some app ->
  city_values app = listed_cities env /\
  current_city app = head (listed_cities env).
Proof.
  unfold listed_cities, started, init, load_initial_data, get_available_cities,
    start_auto_refresh, after_start_auto_refresh, try_except, lift, modify,
    mbind, M_bind, mret, M_ret.
  destruct (env_cities env) as [[|c cs]|e]; cbn.
  - destruct (env_after env 30000); [|discriminate]. intros [= <-]. split; reflexivity.
  - unfold refresh_data at 1 2 3. cbn.
    destruct c; cbn; (destruct (env_after env 30000); [|discriminate]);
      intros [= <-]; split; reflexivity.
  - destruct (is_sqlite_error e); cbn;
      (destruct (env_after env 30000); [|discriminate]);
      intros [= <-]; split; reflexivity.
Qed.

End Invariants.

(** X15. A store that lists no city, because it is empty or because the
    listing failed, leaves the dashboard with nothing to show for good: in
    every state reached no city is selected and none can be, no thread has
    been started, no callback is pending, there is no current data and the
    temperature label keeps its placeholder; timers and refresh requests
    come and go without a single query. *)
Theorem X15_no_listed_city_no_fetch
    (env : Env) (evs : list event) (app : WeatherApp) :
  listed_cities env = [] ->
  run_app env evs = Some app ->
  nothing_to_show app /\
  in_flight app = [] /\
  (forall selection, step env (EvSelectCity selection) app = None) /\
  step env EvRefresh app = Some app.
Proof.
  intros Hl R. unfold run_app in R.
  destruct (started env) as [app0|] eqn:S; [|discriminate R]. simpl in R.
  assert (Hn : nothing_to_show app).
  { eapply (run_invariant env nothing_to_show); [|exact R|].
    - apply (step_nothing_to_show env).
    - apply (started_nothing_to_show env); assumption. }
  split; [exact Hn|]. destruct Hn as (Hc & Hv & Ht & Hq & Hd & Hlab).
  repeat split.
  - unfold in_flight. rewrite Ht. reflexivity.
  - intros selection. simpl. rewrite Hv. reflexivity.
  - simpl. unfold refresh_data. rewrite Hc. reflexivity.
Qed.

Lemma X15_witness :
  let app := default app2 (run_app env_down [EvRefresh; EvTimer 0]) in
  nothing_to_show app /\
  in_flight app = [] /\
  (forall selection, step env_down (EvSelectCity selection) app = None) /\
  step env_down EvRefresh app = Some app.
Proof.
  intros app.
  apply (X15_no_listed_city_no_fetch env_down [EvRefresh; EvTimer 0] app);
    vm_compute; reflexivity.
Defined.

(** X16. The choices of the city combobox are, in every state reached, the
    selectors the store listed when the application started (none when the
    listing failed); the city selected at the start is the first of them, and
    the city selected later is always one of them. *)
Theorem X16_selection_is_a_listed_city
    (env : Env) (evs : list event) (app : WeatherApp) :
  run_app env evs = Some app ->
  city_values app = listed_cities env /\
  (forall c, current_city app = Some c -> c ∈ listed_cities env) /\
  (evs = [] -> current_city app = head (listed_cities env)).
Proof.
  intros R. unfold run_app in R.
  destruct (started env) as [app0|] eqn:S; [|discriminate R]. simpl in R.
  destruct (started_selection_listed env app0 S) as [Hv Hc].
  assert (Hinv : city_values app = listed_cities env /\
                 (forall c, current_city app = Some c -> c ∈ listed_cities env)).
  { eapply (run_invariant env
              (fun a => city_values a = listed_cities env /\
                        (forall c, current_city a = Some c -> c ∈ listed_cities env)));
      [|exact R|].
    - apply (step_selection_listed env).
    - split; [exact Hv|]. intros c Hs. rewrite Hc in Hs.
      apply head_Some_elem_of. exact Hs. }
  destruct Hinv as [H1 H2]. repeat split; [exact H1|exact H2|].
  intros ->. simpl in R. injection R as <-. exact Hc.
Qed.

Lemma X16_witness :
  let app := default app2 (run_app env2 stale_trace) in
  city_values app = listed_cities env2 /\
  (forall c, current_city app = Some c -> c ∈ listed_cities env2) /\
  (stale_trace = [] -> current_city app = head (listed_cities env2)).
Proof.
  intros app.
  apply (X16_selection_is_a_listed_city env2 stale_trace app).
  vm_compute. reflexivity.
Defined.

Section Conservation.

Variable env : Env.

Lemma finished_app (l1 l2 : list thread) :
  length (List.filter is_done (l1 ++ l2))
  = (length (List.filter is_done l1) + length (List.filter is_done l2))%nat.
Proof. rewrite List.filter_app, length_app. reflexivity. Qed.

(** Replacing the state of one thread changes the number of finished
    threads by that thread alone. *)
Lemma finished_insert (l : list thread) (i : nat) (old new : thread) :
  l !! i = Some old ->
  (length (List.filter is_done (<[i := new]> l)) + (if is_done old then 1 else 0)
   = length (List.filter is_done l) + (if is_done new then 1 else 0))%nat.
Proof.
  intros H.
  rewrite insert_take_drop by (eapply lookup_lt_Some; exact H).
  rewrite <- (take_drop_middle l i old H) at 3.
  rewrite !finished_app. cbn [List.filter].
  destruct (is_done old), (is_done new); cbn [length]; lia.
Qed.

(** Callbacks pending plus callbacks run keep step with the threads that
    have finished. *)
Lemma step_conservation (ev : event) (a b : WeatherApp) :
  step env ev a = Some b ->
  (length (after_queue b) + callbacks_run [ev] + finished a
   = finished b + length (after_queue a))%nat.
Proof.
  assert (Hr : forall x, finished (refresh_data x) = finished x /\
                         after_queue (refresh_data x) = after_queue x).
  { intros x. unfold refresh_data, finished.
    destruct (current_city x) as [[|c r]|]; cbn; try (split; reflexivity).
    change (fun t => match t with TDone => true | _ => false end) with is_done.
    rewrite finished_app. cbn. split; [lia|reflexivity]. }
  unfold finished.
  change (fun t => match t with TDone => true | _ => false end) with is_done.
  unfold callbacks_run.
  destruct ev as [sel| |i|tid|tid| |dlg|]; cbn [List.filter length];
    simpl; intros H.
  - destruct (bool_decide _); [|discriminate]. injection H as <-.
    unfold on_city_changed.
    destruct (Hr (set_current_city (Some (city_var (set_city_var sel a)))
                    (set_city_var sel a))) as [Hf Hq].
    unfold finished in Hf.
    change (fun t => match t with TDone => true | _ => false end) with is_done in Hf.
    rewrite Hf, Hq. cbn. lia.
  - injection H as <-. destruct (Hr a) as [Hf Hq]. unfold finished in Hf.
    change (fun t => match t with TDone => true | _ => false end) with is_done in Hf.
    rewrite Hf, Hq. lia.
  - destruct (timers a !! i); [|discriminate]. injection H as <-.
    pose proof (start_auto_refresh_frame env
                  (fun x => length (List.filter is_done (threads x))
                            = length (List.filter is_done (threads a)) /\
                            after_queue x = after_queue a)
                  (set_timers (delete i (timers a)) a)) as P.
    destruct P as [Hf Hq];
      [intros ? ? [? ?]; split; assumption
      |intros ? ? [? ?]; split; assumption
      | |rewrite Hf, Hq; lia].
    destruct (Hr (set_timers (delete i (timers a)) a)) as [Hf Hq].
    unfold finished in Hf.
    change (fun t => match t with TDone => true | _ => false end) with is_done in Hf.
    split; [exact Hf|exact Hq].
  - destruct (threads a !! tid) as [[]|] eqn:E; try discriminate. injection H as <-.
    unfold load_data_begin. destruct (current_city a) as [s|].
    + destruct (parse_city s) as [c k]. cbn.
      pose proof (finished_insert (threads a) tid TStarted (TFetching c k) E) as F.
      cbn in F. lia.
    + unfold post. cbn. rewrite length_app. cbn.
      pose proof (finished_insert (threads a) tid TStarted TDone E) as F.
      cbn in F. lia.
  - destruct (threads a !! tid) as [[]|] eqn:E; try discriminate. injection H as <-.
    unfold load_data_finish.
    pose proof (finished_insert (threads a) tid (TFetching city country) TDone E) as F.
    cbn in F.
    destruct (get_current_weather_data env city country) as [out [d|e]];
      [destruct (truthy d)|]; unfold post; cbn; rewrite length_app; cbn; lia.
  - destruct (after_queue a) as [|cb rest] eqn:Eq; [discriminate|]. injection H as <-.
    pose proof (run_callback_preserves env
                  (fun x => threads x = threads a /\ after_queue x = rest) cb) as P.
    destruct P with (app := set_after_queue rest a) as [Ht Hq'];
      [constructor; [constructor|..]; intros ? ? [? ?]; split; assumption
      |split; reflexivity|].
    rewrite Ht, Hq'. cbn. lia.
  - injection H as <-. unfold apply_preferences.
    destruct (py_int (refresh_var dlg)) as [n|e];
      [|destruct (is_value_error e)]; cbn; lia.
  - injection H as <-. cbn. lia.
Qed.

Lemma run_conservation (evs : list event) (a b : WeatherApp) :
  run env evs a = Some b ->
  (length (after_queue b) + callbacks_run evs + finished a
   = finished b + length (after_queue a))%nat.
Proof.
  revert a. induction evs as [|ev evs IH]; simpl; intros a H.
  - injection H as <-. unfold callbacks_run. cbn. lia.
  - destruct (step env ev a) as [a1|] eqn:E; [|discriminate].
    pose proof (step_conservation ev a a1 E) as S1.
    pose proof (IH a1 H) as S2.
    unfold callbacks_run in *. cbn [List.filter] in *.
    destruct ev; cbn [length] in *; lia.
Qed.

Lemma started_conservation (app : WeatherApp) :
  started env = Some app -> finished app = 0%nat /\ after_queue app = [].
Proof.
  unfold started, init, load_initial_data, get_available_cities,
    start_auto_refresh, after_start_auto_refresh, try_except, lift, modify,
    mbind, M_bind, mret, M_ret, finished.
  destruct (env_cities env) as [[|c cs]|e]; cbn.
  - destruct (env_after env 30000); [|discriminate]. intros [= <-]. split; reflexivity.
  - unfold refresh_data at 1 2 3. cbn.
    destruct c; cbn; (destruct (env_after env 30000); [|discriminate]);
      intros [= <-]; split; reflexivity.
  - destruct (is_sqlite_error e); cbn;
      (destruct (env_after env 30000); [|discriminate]);
      intros [= <-]; split; reflexivity.
Qed.

End Conservation.

(** X17. Every background thread that finishes has posted exactly one
    callback, and the main loop neither loses nor repeats any: in every state
    reached, the callbacks still pending and the callbacks already run add up
    to the number of threads that have finished. *)
Theorem X17_one_callback_per_finished_thread
    (env : Env) (evs : list event) (app : WeatherApp) :
  run_app env evs = Some app ->
  (length (after_queue app) + callbacks_run evs = finished app)%nat.
Proof.
  intros R. unfold run_app in R.
  destruct (started env) as [app0|] eqn:S; [|discriminate R]. simpl in R.
  destruct (started_conservation env app0 S) as [Hf Hq].
  pose proof (run_conservation env evs app0 app R) as C.
  rewrite Hf, Hq in C. cbn in C. lia.
Qed.

Lemma X17_witness :
  let app := default app2 (run_app env2 stale_trace) in
  (length (after_queue app) + callbacks_run stale_trace = finished app)%nat.
Proof.
  intros app.
  apply (X17_one_callback_per_finished_thread env2 stale_trace app).
  vm_compute. reflexivity.
Defined.

(* ===================================================================== *)
(** ** Properties of the data export                                      *)
(* ===================================================================== *)

(** X18. The export never raises and reports every outcome once.  Without a
    file name, given or chosen, it returns false and does nothing: no query,
    no file, no message box.  With a file name it opens exactly one box: it
    returns true exactly when the file was written, with the rows the store
    gave for the pair parsed from the selected city, and then the box is the
    completion notice naming the file; otherwise the box is the export error
    with the message of the exception, which covers a failed query, a failed
    write and the case of no city selected. *)
Theorem X18_export_reports_once
    (xenv : ExportEnv) (app : WeatherApp) (filename : option string) :
  let chosen :=
    match filename with
    | None | Some EmptyString => ask_filename xenv
    | Some f => f
    end in
  let o := export_current_data xenv app filename in
  (chosen = EmptyString ->
   o = {| exported := false; boxes := []; queried := None; written := None |}) /\
  (chosen <> EmptyString ->
   (exported o = true ->
    exists selector rows,
      current_city app = Some selector /\
      queried o = Some (parse_city selector) /\
      export_query xenv (parse_city selector).1 (parse_city selector).2 = Ok rows /\
      to_csv xenv chosen rows = Ok tt /\
      written o = Some (chosen, rows) /\
      boxes o = [InfoBox "Export Complete" ("Data exported to " ++ chosen)]) /\
   (exported o = false ->
    written o = None /\
    exists e, boxes o = [ErrorBox "Export Error" ("Failed to export data: " ++ exn_str e)]) /\
   (current_city app = None -> exported o = false /\ queried o = None)).
Proof.
  cbv zeta. unfold export_current_data.
  generalize (match filename with
              | None | Some EmptyString => ask_filename xenv
              | Some f => f
              end).
  intros chosen. split.
  - intros ->. reflexivity.
  - intros Hne. destruct chosen as [|c0 r0]; [congruence|].
    set (file := String c0 r0).
    unfold export_body.
    destruct (current_city app) as [selector|].
    + destruct (parse_city selector) as [city country] eqn:Ep.
      unfold mbind, result_bind.
      destruct (export_query xenv city country) as [rows|e] eqn:Eq;
        cbn [rbind exported boxes queried written].
      * destruct (to_csv xenv file rows) as [[]|e] eqn:Ew;
          cbn [rbind exported boxes queried written].
        -- split; [|split; intros H; discriminate H].
           intros _. exists selector, rows. rewrite Ep.
           repeat split; cbn [fst snd]; first [reflexivity | assumption].
        -- split; [intros H; discriminate H|].
           split; [|intros H; discriminate H].
           intros _. split; [reflexivity|]. eexists. reflexivity.
      * split; [intros H; discriminate H|].
        split; [|intros H; discriminate H].
        intros _. split; [reflexivity|]. eexists. reflexivity.
    + cbn [exported boxes queried written].
      split; [intros H; discriminate H|].
      split; [|intros _; split; reflexivity].
      intros _. split; [reflexivity|]. eexists. reflexivity.
Qed.

Lemma X18_witness :
  let o := export_current_data xenv2 app2 None in
  ("weather.csv" = EmptyString ->
   o = {| exported := false; boxes := []; queried := None; written := None |}) /\
  ("weather.csv" <> EmptyString ->
   (exported o = true ->
    exists selector rows,
      current_city app2 = Some selector /\
      queried o = Some (parse_city selector) /\
      export_query xenv2 (parse_city selector).1 (parse_city selector).2 = Ok rows /\
      to_csv xenv2 "weather.csv" rows = Ok tt /\
      written o = Some ("weather.csv", rows) /\
      boxes o = [InfoBox "Export Complete" "Data exported to weather.csv"]) /\
   (exported o = false ->
    written o = None /\
    exists e, boxes o = [ErrorBox "Export Error" ("Failed to export data: " ++ exn_str e)]) /\
   (current_city app2 = None -> exported o = false /\ queried o = None)).
Proof.
  apply (X18_export_reports_once xenv2 app2 None).
Defined.

(* ===================================================================== *)
(** ** Properties of the integration tests                                *)
(* ===================================================================== *)

(** X19. The integration tests never raise and always give three results,
    for data loading, user interface updates and chart rendering, in this
    order.  A listing that fails with a [sqlite3.Error] counts as a failed
    test with the detail that no cities were found, after an error box has
    been opened, and not as an error; only another exception gives the error
    status.  The second test passes exactly when a city is selected, and then
    it has started one more fetch thread; otherwise it is skipped and no
    thread is started. *)
Theorem X19_integration_tests_give_three_results
    (env : Env) (app : WeatherApp) :
  exists r1 r2 app',
    run_integration_tests env app
    = (app', Ok [r1; r2; ("Chart Rendering", "PASS", "Charts rendered successfully")]) /\
    r1.1.1 = "Data Loading" /\ r2.1.1 = "UI Updates" /\
    match env_cities env with
    | Ok [] => r1 = ("Data Loading", "FAIL", "No cities found") /\
               error_boxes app' = error_boxes app
    | Ok (_ :: _) => r1.1.2 = "PASS" /\ error_boxes app' = error_boxes app
    | Raise e =>
        if is_sqlite_error e
        then r1 = ("Data Loading", "FAIL", "No cities found") /\
             error_boxes app'
             = (error_boxes app ++ [("Error", ("Database error: " ++ exn_str e)%string)])%list
        else r1 = ("Data Loading", "ERROR", exn_str e) /\
             error_boxes app' = error_boxes app
    end /\
    match current_city app with
    | None | Some EmptyString =>
        r2 = ("UI Updates", "SKIP", "No city selected") /\ threads app' = threads app
    | Some _ =>
        r2 = ("UI Updates", "PASS", "UI components updated") /\
        threads app' = (threads app ++ [TStarted])%list
    end.
Proof.
  unfold run_integration_tests, test_data_loading, test_ui_updates,
    test_chart_rendering, get_available_cities, try_except, lift, modify,
    mbind, M_bind, mret, M_ret.
  destruct (env_cities env) as [[|c cs]|e];
    cbn -[update_historical_chart update_trends_chart];
    try destruct (is_sqlite_error e);
    cbn -[update_historical_chart update_trends_chart];
    destruct (current_city app) as [[|x r]|] eqn:Ec;
    cbn -[update_historical_chart update_trends_chart]; rewrite ?Ec;
    cbn -[update_historical_chart update_trends_chart];
    do 3 eexists; (split; [reflexivity|]); repeat split;
    try (apply (charts_keep env (fun a => error_boxes a = _)); [intros; assumption|]);
    try (apply (charts_keep env (fun a => threads a = _)); [intros; assumption|]);
    unfold refresh_data; cbn; rewrite ?Ec; reflexivity.
Qed.

(* ===================================================================== *)
(** ** Properties of the number formats                                   *)
(* ===================================================================== *)








(* ===================================================================== *)
(** ** Properties of the start                                            *)
(* ===================================================================== *)

(** X21. What the constructor leaves.  With at least one city listed, the
    first is selected, no error box is open, and two fetch threads have been
    started for it, one by the initial load and one by the first automatic
    refresh.  With no city listed nothing is selected and no thread is
    started.  A listing that fails opens exactly one error box, with the
    database error text for a [sqlite3.Error] and with the initial-data text
    for any other exception, and the status line reads that an error
    occurred.  In every case one timer with the 30 second interval is
    pending. *)
Theorem X21_state_after_start (env : Env) (app : WeatherApp) :
  started env = Some app ->
  timers app = [30000] /\ refresh_interval app = 30000 /\
  current_data app = None /\ after_queue app = [] /\
  match env_cities env with
  | Ok [] =>
      current_city app = None /\ threads app = [] /\ error_boxes app = [] /\
      labels app !! "status_label" = Some "Ready"
  | Ok (first :: _) =>
      current_city app = Some first /\ city_var app = first /\
      error_boxes app = [] /\
      (first <> EmptyString ->
       threads app = [TStarted; TStarted] /\
       labels app !! "status_label" = Some "Refreshing data...")
  | Raise e =>
      current_city app = None /\ threads app = [] /\
      labels app !! "status_label" = Some "Error occurred" /\
      error_boxes app =
        [("Error",
          ((if is_sqlite_error e then "Database error: "
            else "Failed to load initial data: ") ++ exn_str e)%string)]
  end.
Proof.
  unfold started, init, load_initial_data, get_available_cities,
    start_auto_refresh, after_start_auto_refresh, try_except, lift, modify,
    mbind, M_bind, mret, M_ret.
  destruct (env_cities env) as [[|c cs]|e]; cbn.
  - destruct (env_after env 30000); [|discriminate]. intros [= <-]. repeat split.
  - unfold refresh_data at 1 2 3. cbn.
    destruct c; cbn; (destruct (env_after env 30000); [|discriminate]);
      intros [= <-]; repeat split; congruence.
  - destruct (is_sqlite_error e); cbn;
      (destruct (env_after env 30000); [|discriminate]);
      intros [= <-]; repeat split.
Qed.

Lemma X21_witness :
  timers app2 = [30000] /\ refresh_interval app2 = 30000 /\
  current_data app2 = None /\ after_queue app2 = [] /\
  current_city app2 = Some "Lima, Peru" /\ city_var app2 = "Lima, Peru" /\
  error_boxes app2 = [] /\
  ("Lima, Peru" <> EmptyString ->
   threads app2 = [TStarted; TStarted] /\
   labels app2 !! "status_label" = Some "Refreshing data...").
Proof.
  apply (X21_state_after_start env2 app2). vm_compute. reflexivity.
Defined.
